(** * WorkflowOrchestrator: a shallow embedding of src/services/orchestrator.js

    The three workflow procedures of [WorkflowOrchestrator]
    ([scheduleCodeReview], [createProjectKickoff], [handleIncidentResponse])
    are translated statement by statement into a small exception-and-state
    monad over a model of JavaScript values, and with them the rest of the
    class: the constructor, [initialize] and [cleanup].

    Modelling conventions.
    - Values are JSON-like data plus [Date] objects; functions, symbols,
      getters and proxies are outside the model, so whatever a key of an
      object holds cannot be called.  Numbers are the integers.
    - A string is a sequence of code units; a character of [string] stands
      for a code unit in U+0000..U+00FF.  Literals of the source outside that
      range (the emoji of the notification texts) appear as their UTF-8 bytes;
      no definition inspects them.
    - The four connectors and the logger are external.  A connector call is
      answered by the host ([respond]): it settles, fulfilled or rejected,
      after a latency.  The logger records an event and does nothing else.
    - Time is counted in milliseconds on a steady clock ([clock]).
      Synchronous code takes no time; the clock advances only while a
      promise is awaited, and a call settles no earlier than it is issued.
      [Date.now()] and [new Date()] read the system clock, which the host
      may set forward or back: [wallclock] gives its reading at each
      instant. *)

From Stdlib Require Import ZArith List String Ascii Bool Lia.
From Stdlib Require Import DecimalString.
Import ListNotations.

Set Warnings "-register-all".

Local Open Scope string_scope.
Local Open Scope Z_scope.

(* ================================================================= *)
(** ** JavaScript values *)

Inductive value : Type :=
| VUndef
| VNull
| VBool (b : bool)
| VNum (n : Z)
| VStr (s : string)
| VDate (ms : Z)
| VArr (items : list value)
| VObj (fields : list (string * value)).

(** [v == null]: the two values on which a property access throws. *)
Definition nullish (v : value) : bool :=
  match v with VUndef | VNull => true | _ => false end.

(** [Boolean(v)]. *)
Definition truthy (v : value) : bool :=
  match v with
  | VUndef | VNull => false
  | VBool b => b
  | VNum n => negb (n =? 0)
  | VStr s => negb (s =? "")%string
  | VDate _ | VArr _ | VObj _ => true
  end.

(** [a || b]. *)
Definition or_else (a b : value) : value := if truthy a then a else b.

Fixpoint assoc (k : string) (fs : list (string * value)) : option value :=
  match fs with
  | [] => None
  | (k', v) :: fs' => if (k =? k')%string then Some v else assoc k fs'
  end.

Definition has_key (k : string) (fs : list (string * value)) : bool :=
  match assoc k fs with Some _ => true | None => false end.

(** The object literal [{...a, ...b}]: the keys of [a] in their order, with
    the value [b] gives them when it has one, then the keys only [b] has. *)
Definition object_spread (a b : list (string * value)) : list (string * value) :=
  map (fun kv => (fst kv, match assoc (fst kv) b with Some v => v | None => snd kv end)) a
  ++ filter (fun kv => negb (has_key (fst kv) a)) b.

Definition length_of (s : string) : Z := Z.of_nat (String.length s).

(** [v[k]] for a value that is not nullish: own fields of an object,
    [length] of a string or an array, [undefined] otherwise. *)
Definition prop (v : value) (k : string) : value :=
  match v with
  | VObj fs => match assoc k fs with Some x => x | None => VUndef end
  | VStr s => if (k =? "length")%string then VNum (length_of s) else VUndef
  | VArr l => if (k =? "length")%string then VNum (Z.of_nat (List.length l)) else VUndef
  | _ => VUndef
  end.

(** Decimal rendering of an integer, as [String(n)] gives it for
    [|n| < 10^21]; from there on [String(n)] has an exponent.  The numbers
    rendered below are the request's own or differences of clock readings,
    which are time values, below [8.64 * 10^15] in absolute value. *)
Definition number_to_string (n : Z) : string :=
  NilZero.string_of_int (Z.to_int n).

(* ================================================================= *)
(** ** String and array built-ins used by the orchestrator *)

Definition is_upper (c : ascii) : bool :=
  let n := nat_of_ascii c in
  ((65 <=? n) && (n <=? 90))%nat
  || ((192 <=? n) && (n <=? 222) && negb (n =? 215))%nat.

(** [String.prototype.toLowerCase] on code units up to U+00FF, the strings
    of the model: [A-Z] and the Latin-1 capitals (U+00C0..U+00DE but the
    multiplication sign) move up by 32, every other code unit is kept.
    Beyond U+00FF the built-in follows the Unicode case mapping, under
    which a string may change its length (U+0130) or a character enter
    [[a-z]] (U+212A); nothing below is stated of such strings. *)
Definition lower_char (c : ascii) : ascii :=
  if is_upper c then ascii_of_nat (nat_of_ascii c + 32) else c.

Fixpoint String_map (f : ascii -> ascii) (s : string) : string :=
  match s with
  | EmptyString => EmptyString
  | String c s' => String (f c) (String_map f s')
  end.

Definition String_toLowerCase (s : string) : string := String_map lower_char s.

(** The character class [[a-z0-9-]]. *)
Definition slug_char (c : ascii) : bool :=
  let n := nat_of_ascii c in
  ((97 <=? n) && (n <=? 122))%nat
  || ((48 <=? n) && (n <=? 57))%nat
  || (n =? 45)%nat.

(** [s.replace(/[^a-z0-9-]/g, '-')]. *)
Definition replace_non_slug (s : string) : string :=
  String_map (fun c => if slug_char c then c else "-"%char) s.

(** [s.substring(0, n)] and [s.slice(0, n)] for [n >= 0]. *)
Definition String_take (n : nat) (s : string) : string := substring 0 n s.

(** [s.slice(-n)]: the last [n] code units. *)
Definition String_last (n : nat) (s : string) : string :=
  substring (String.length s - n) n s.

(** [s.split('@')[0]]: everything before the first ['@']. *)
Fixpoint before_at (s : string) : string :=
  match s with
  | EmptyString => EmptyString
  | String c s' => if (c =? "@")%char then EmptyString else String c (before_at s')
  end.

Fixpoint chars_of (s : string) : list value :=
  match s with
  | EmptyString => []
  | String c s' => VStr (String c EmptyString) :: chars_of s'
  end.

(* ================================================================= *)
(** ** The host: connectors, clock, environment *)

(** The four connector objects the orchestrator owns. *)
Inductive connector : Type :=
| GitHubConnector | SlackConnector | NotionConnector | CalendarConnector.

Inductive settled : Type :=
| Fulfilled (v : value)
| Rejected (reason : value).

(** How a connector call ends: after [latency] milliseconds, with [outcome]. *)
Record reply : Type := { latency : N; outcome : settled }.

Inductive event : Type :=
| Call (issued : Z) (target : connector) (method : string)
       (arguments : list value) (answer : reply)
| Log (level : string) (text : string) (meta : value).

(** Everything outside orchestrator.js.  [respond] answers a connector call
    and may depend on all that happened before it; [wallclock t] is what
    the system clock reads at the instant [t], the value of [Date.now()]
    there, a time value; [toISOString] and [dateToString] are
    [Date.prototype.toISOString] and [Date.prototype.toString]; the last
    two fields are the variables read from [process.env]. *)
Record host : Type := {
  respond : list event -> connector -> string -> list value -> reply;
  wallclock : Z -> Z;
  toISOString : Z -> string;
  dateToString : Z -> string;
  NOTION_PROJECTS_DB_ID : value;
  NOTION_INCIDENTS_DB_ID : value
}.

(** The orchestrator object.  [automation] stands for the
    [WorkflowAutomation] built from the constructor's [config]. *)
Record WorkflowOrchestrator : Type := {
  github : connector;
  slack : connector;
  notion : connector;
  calendar : connector;
  automation : value;
  config : value;
  isInitialized : bool
}.

(** What a procedure can change or observe as it runs: the orchestrator
    object, the time that has passed ([clock], in milliseconds on a steady
    clock), and the calls and log lines so far. *)
Record state : Type := {
  this : WorkflowOrchestrator;
  clock : Z;
  trace : list event
}.

(** The own keys an object spread copies from a plain object; [undefined]
    and [null] give none.  (An array would give its indices and a string
    its characters: a [config] of the orchestrator is a plain object.) *)
Definition fields_of (v : value) : list (string * value) :=
  match v with VObj fs => fs | _ => [] end.

(** [new WorkflowOrchestrator(config)]; [defaultWorkflowConfig] comes from
    config/workflow-config.js. *)
Definition constructor (defaultWorkflowConfig cfg : value) : WorkflowOrchestrator :=
  let cfg := match cfg with VUndef => VObj [] | _ => cfg end in
  {| github := GitHubConnector;
     slack := SlackConnector;
     notion := NotionConnector;
     calendar := CalendarConnector;
     automation := VObj [("config", cfg)];
     config := VObj (object_spread (fields_of defaultWorkflowConfig) (fields_of cfg));
     isInitialized := false |}.

(* ================================================================= *)
(** ** Conversion to string *)

(** Whether [String(v)] returns.  The conversion of an object calls its
    [toString]: [Object.prototype.toString] unless the object has a key
    [toString] of its own, and what such a key holds cannot be called, so
    that the conversion ends in a [TypeError].  An array converts each of
    its elements but [undefined] and [null]. *)
Fixpoint stringable (v : value) : bool :=
  match v with
  | VObj fs => negb (has_key "toString" fs)
  | VArr l =>
      forallb (fun x => match x with
                        | VUndef | VNull => true
                        | _ => stringable x
                        end) l
  | _ => true
  end.

Section ToString.
Variable h : host.

(** What [String(v)] returns, where it returns ([stringable]). *)
Fixpoint to_string (v : value) : string :=
  match v with
  | VUndef => "undefined"
  | VNull => "null"
  | VBool true => "true"
  | VBool false => "false"
  | VNum n => number_to_string n
  | VStr s => s
  | VDate ms => dateToString h ms
  | VArr l =>
      String.concat ","
        (map (fun x => match x with
                       | VUndef | VNull => ""
                       | _ => to_string x
                       end) l)
  | VObj _ => "[object Object]"
  end.

(** What [l.join(sep)] returns, where it returns. *)
Definition Array_join (sep : string) (l : list value) : string :=
  String.concat sep
    (map (fun x => if nullish x then "" else to_string x) l).
End ToString.

(* ================================================================= *)
(** ** Computations: exceptions over the host and the mutable state *)

Inductive result (A : Type) : Type :=
| Ok (a : A)
| Throw (e : value).
Arguments Ok {A} a.
Arguments Throw {A} e.

(** A computation reads the host, may change the state, and either returns
    or throws a JavaScript value.  For an [async] procedure, [Ok] is the
    fulfilment of the promise it returns and [Throw] its rejection. *)
Definition M (A : Type) : Type := host -> state -> result A * state.

Definition ret {A} (a : A) : M A := fun _ s => (Ok a, s).

Definition throw {A} (e : value) : M A := fun _ s => (Throw e, s).

Definition bind {A B} (m : M A) (f : A -> M B) : M B :=
  fun h s =>
    match m h s with
    | (Ok a, s1) => f a h s1
    | (Throw e, s1) => (Throw e, s1)
    end.

(** [try { body } catch (error) { handler }]. *)
Definition try_catch {A} (body : M A) (handler : value -> M A) : M A :=
  fun h s =>
    match body h s with
    | (Ok a, s1) => (Ok a, s1)
    | (Throw e, s1) => handler e h s1
    end.

Declare Scope js_scope.
Delimit Scope js_scope with js.
Notation "x <- m ;; k" := (bind m (fun x => k))
  (at level 61, m at next level, right associativity) : js_scope.
Notation "m ;; k" := (bind m (fun _ => k))
  (at level 61, right associativity) : js_scope.
Local Open Scope js_scope.

(** The error a failed property access, method call or conversion throws:
    an [Error] object with a [message].  The wording of the messages is
    V8's; it shows in the runs evaluated below and nowhere else. *)
Definition TypeError (msg : string) : value :=
  VObj [("name", VStr "TypeError"); ("message", VStr msg)].

Definition describe (v : value) : string :=
  match v with VNull => "null" | _ => "undefined" end.

(** [v.k]. *)
Definition get (v : value) (k : string) : M value :=
  if nullish v
  then throw (TypeError ("Cannot read properties of " ++ describe v
                           ++ " (reading '" ++ k ++ "')"))
  else ret (prop v k).

(** [e.k] for an expression [e]. *)
Definition member (e : M value) (k : string) : M value :=
  v <- e ;; get v k.
Notation "e .> k" := (member e k) (at level 40, left associativity) : js_scope.

(** [v.name(...)] for a built-in method: [impl] is the method where the
    receiver has it. *)
Definition method (v : value) (name : string) (impl : value -> option (M value))
  : M value :=
  if nullish v
  then throw (TypeError ("Cannot read properties of " ++ describe v
                           ++ " (reading '" ++ name ++ "')"))
  else match impl v with
       | Some m => m
       | None => throw (TypeError (name ++ " is not a function"))
       end.

Fixpoint sequence {A} (ms : list (M A)) : M (list A) :=
  match ms with
  | [] => ret []
  | m :: ms' => a <- m ;; r <- sequence ms' ;; ret (a :: r)
  end.

(** [String(v)], the conversion a template literal applies to each of its
    substitutions. *)
Definition ToString (v : value) : M string :=
  fun h s =>
    if stringable v
    then (Ok (to_string h v), s)
    else (Throw (TypeError "Cannot convert object to primitive value"), s).

(** Template literals: the parts are evaluated left to right. *)
Definition lit (s : string) : M string := ret s.
Definition sub (e : M value) : M string := v <- e ;; ToString v.
Definition tpl (parts : list (M string)) : M value :=
  l <- sequence parts ;; ret (VStr (String.concat "" l)).

(** Object literals [{k1: e1, ...}]. *)
Definition obj (fields : list (string * M value)) : M value :=
  l <- sequence (map (fun kv => v <- snd kv ;; ret (fst kv, v)) fields) ;;
  ret (VObj l).

(** Array literals [[e1, ...spread, ...]]. *)
Definition item (e : M value) : M (list value) := v <- e ;; ret [v].

Definition spread (e : M value) : M (list value) :=
  v <- e ;;
  match v with
  | VArr l => ret l
  | VStr s => ret (chars_of s)
  | _ => throw (TypeError "Spread syntax requires ...iterable[Symbol.iterator] to be a function")
  end.

Definition arr (parts : list (M (list value))) : M value :=
  l <- sequence parts ;; ret (VArr (List.concat l)).

(** [v.map(f)]. *)
Definition Array_map (v : value) (f : value -> M value) : M value :=
  method v "map" (fun v =>
    match v with
    | VArr l => Some (r <- sequence (map f l) ;; ret (VArr r))
    | _ => None
    end).

(** [v.filter(Boolean)]. *)
Definition Array_filter_Boolean (v : value) : M value :=
  method v "filter" (fun v =>
    match v with
    | VArr l => Some (ret (VArr (filter truthy l)))
    | _ => None
    end).

(** [v.join(sep)]: the elements are converted as [String(v)] converts
    them. *)
Definition join (v : value) (sep : string) : M value :=
  method v "join" (fun v =>
    match v with
    | VArr l =>
        Some (fun h s =>
                if stringable v
                then (Ok (VStr (Array_join h sep l)), s)
                else (Throw (TypeError "Cannot convert object to primitive value"), s))
    | _ => None
    end).

(** [v.toLowerCase()]. *)
Definition toLowerCase (v : value) : M value :=
  method v "toLowerCase" (fun v =>
    match v with
    | VStr s => Some (ret (VStr (String_toLowerCase s)))
    | _ => None
    end).

(** [v.replace(/[^a-z0-9-]/g, '-')]. *)
Definition replace (v : value) : M value :=
  method v "replace" (fun v =>
    match v with
    | VStr s => Some (ret (VStr (replace_non_slug s)))
    | _ => None
    end).

(** [v.substring(0, n)]. *)
Definition substring0 (v : value) (n : nat) : M value :=
  method v "substring" (fun v =>
    match v with
    | VStr s => Some (ret (VStr (String_take n s)))
    | _ => None
    end).

(** [v.slice(0, n)], which strings and arrays both have. *)
Definition slice0 (v : value) (n : nat) : M value :=
  method v "slice" (fun v =>
    match v with
    | VStr s => Some (ret (VStr (String_take n s)))
    | VArr l => Some (ret (VArr (firstn n l)))
    | _ => None
    end).

(** [v.slice(-n)]. *)
Definition slice_last (v : value) (n : nat) : M value :=
  method v "slice" (fun v =>
    match v with
    | VStr s => Some (ret (VStr (String_last n s)))
    | VArr l => Some (ret (VArr (skipn (List.length l - n) l)))
    | _ => None
    end).

(** [v.split('@')[0]]. *)
Definition split_at_0 (v : value) : M value :=
  method v "split" (fun v =>
    match v with
    | VStr s => Some (ret (VStr (before_at s)))
    | _ => None
    end).

(** [v.toString()], which the source applies to a number. *)
Definition Number_toString (v : value) : M value :=
  method v "toString" (fun v => Some (s <- ToString v ;; ret (VStr s))).

(** [a + b] and [a - b] on numbers. *)
Definition plus (a : value) (n : Z) : value :=
  match a with VNum x => VNum (x + n) | _ => VUndef end.
Definition minus (a b : value) : value :=
  match a, b with VNum x, VNum y => VNum (x - y) | _, _ => VUndef end.

(** [v === 'lit']. *)
Definition strict_eq (v : value) (lit : string) : bool :=
  match v with VStr s => (s =? lit)%string | _ => false end.

(** [Date.now()], [new Date()] and [new Date(ms)]. *)
Definition Date_now : M value := fun h s => (Ok (VNum (wallclock h (clock s))), s).
Definition new_Date : M value := fun h s => (Ok (VDate (wallclock h (clock s))), s).
Definition Date_of (v : value) : value :=
  match v with VNum ms => VDate ms | _ => VUndef end.
Definition Date_toISOString (v : value) : M value :=
  fun h s => (Ok (VStr (match v with VDate ms => toISOString h ms | _ => "" end)), s).

(** [process.env.NAME]. *)
Definition env (name : host -> value) : M value := fun h s => (Ok (name h), s).

(** [a || b] on expressions: [b] is evaluated only when [a] is falsy. *)
Definition orE (a b : M value) : M value :=
  x <- a ;; if truthy x then ret x else b.

Definition orB (a b : M bool) : M bool :=
  x <- a ;; if x then ret true else b.

(** [const [x0, x1] = v] reads [index v 0] and [index v 1]. *)
Definition index (v : value) (i : nat) : value :=
  match v with VArr l => nth i l VUndef | _ => VUndef end.

(** A line break inside a template. *)
Definition nl : string := String (ascii_of_nat 10) EmptyString.

(* ================================================================= *)
(** ** Promises, connector calls, logger *)

Record promise : Type := { settles : Z; settlement : settled }.

Definition with_trace (s : state) (t : list event) : state :=
  {| this := this s; clock := clock s; trace := t |}.

Definition with_clock (s : state) (t : Z) : state :=
  {| this := this s; clock := t; trace := trace s |}.

Definition with_this (s : state) (o : WorkflowOrchestrator) : state :=
  {| this := o; clock := clock s; trace := trace s |}.

(** [this.<target>.<method>(args)]: the arguments are evaluated left to
    right, the call is issued at once and its promise returned. *)
Definition invoke (target : WorkflowOrchestrator -> connector) (name : string)
                  (args : list (M value)) : M promise :=
  a <- sequence args ;;
  fun h s =>
    let c := target (this s) in
    let r := respond h (trace s) c name a in
    (Ok {| settles := clock s + Z.of_N (latency r); settlement := outcome r |},
     with_trace s (trace s ++ [Call (clock s) c name a r])).

(** [await p]: resume when [p] has settled, with its value or its reason. *)
Definition await (p : promise) : M value :=
  fun _ s =>
    let s' := with_clock s (Z.max (clock s) (settles p)) in
    match settlement p with
    | Fulfilled v => (Ok v, s')
    | Rejected e => (Throw e, s')
    end.

(** [await this.<target>.<method>(args)]. *)
Definition call (target : WorkflowOrchestrator -> connector) (name : string)
                (args : list (M value)) : M value :=
  p <- invoke target name args ;; await p.

(** The earliest rejection among [ps]; of two at the same instant, the one
    listed first. *)
Fixpoint first_rejection (ps : list promise) : option promise :=
  match ps with
  | [] => None
  | p :: ps' =>
      match settlement p, first_rejection ps' with
      | Rejected _, Some q => if settles p <=? settles q then Some p else Some q
      | Rejected _, None => Some p
      | Fulfilled _, r => r
      end
  end.

Definition fulfilment (p : promise) : value :=
  match settlement p with Fulfilled v => v | Rejected _ => VUndef end.

(** [Promise.all(ps)]: rejected as soon as one of [ps] is, fulfilled with
    the array of values once all are. *)
Definition Promise_all (ps : list promise) : M promise :=
  fun _ s =>
    (Ok match first_rejection ps with
        | Some p => p
        | None => {| settles := fold_right Z.max (clock s) (map settles ps);
                     settlement := Fulfilled (VArr (map fulfilment ps)) |}
        end, s).

(** [await Promise.all([c1, c2, ...])]: the calls are issued one after the
    other in the same instant, and the procedure resumes when their join
    has settled. *)
Definition await_all (calls : list (M promise)) : M value :=
  ps <- sequence calls ;; p <- Promise_all ps ;; await p.

(** [logger.<level>(text, meta)]. *)
Definition logger (level text : string) (meta : M value) : M unit :=
  m <- meta ;;
  fun _ s => (Ok tt, with_trace s (trace s ++ [Log level text m])).

(* ================================================================= *)
(** ** The orchestrator *)

(** The object every workflow returns.  [details = None] is the absence
    of the [details] key. *)
Record ResultEnvelope : Type := {
  success : bool;
  message : string;
  executionTime : string;
  details : option value
}.

Definition str (s : string) : M value := ret (VStr s).
Definition num (n : Z) : M value := ret (VNum n).
Definition boolean (b : bool) : M value := ret (VBool b).

Definition text_of (v : value) : string :=
  match v with VStr s => s | _ => "" end.

(** A template literal used where the model keeps a Rocq [string]. *)
Definition tpl_s (parts : list (M string)) : M string :=
  v <- tpl parts ;; ret (text_of v).

(** [async initialize()], lines 23-33. *)
Definition initialize : M unit :=
  logger "info" "Initializing WorkflowOrchestrator..." (ret VUndef) ;;
  call github "initialize" [] ;;
  call slack "initialize" [] ;;
  call notion "initialize" [] ;;
  call calendar "initialize" [] ;;
  (fun _ s =>
     let o := this s in
     (Ok tt, with_this s {| github := github o; slack := slack o; notion := notion o;
                            calendar := calendar o; automation := automation o;
                            config := config o; isInitialized := true |})) ;;
  logger "info" "WorkflowOrchestrator initialized successfully" (ret VUndef).

(** Lines 63-67: the attendees of the review meeting. *)
Definition attendeeSet (args prDetails : value) : M value :=
  l <- arr [spread (r <- get prDetails "requestedReviewers" ;;
                    Array_map r (fun r => get r "email"));
            item (get prDetails "author" .> "email");
            spread (orE (get args "additional_attendees") (ret (VArr [])))] ;;
  Array_filter_Boolean l.

(** Line 84: the name of the review channel. *)
Definition reviewChannelName (args prDetails : value) : M value :=
  s <- tpl [lit "pr-"; sub (get args "pr_number"); lit "-";
            sub (t <- get prDetails "title" ;; l <- toLowerCase t ;; replace l)] ;;
  substring0 s 80.

(** [meeting.hangoutLink || meeting.htmlLink]. *)
Definition joinLink (meeting : value) : M value :=
  orE (get meeting "hangoutLink") (get meeting "htmlLink").

(** [prDetails.requestedReviewers.map(r => r.name).join(', ')]. *)
Definition reviewerNames (prDetails : value) : M value :=
  r <- get prDetails "requestedReviewers" ;;
  n <- Array_map r (fun r => get r "name") ;;
  join n ", ".

(** [async scheduleCodeReview(args, userContext, requestId)], lines 35-288. *)
Definition scheduleCodeReview (args userContext requestId : value) : M ResultEnvelope :=
  startTime <- Date_now ;;
  try_catch
    (logger "info" "Starting code review workflow"
       (obj [("requestId", ret requestId);
             ("repository", get args "repository");
             ("prNumber", get args "pr_number");
             ("issueNumber", get args "issue_number")]) ;;
     (* 1. Get PR and related issue details *)
     both <- await_all
       [invoke github "getPullRequest"
          [get args "repository"; get args "pr_number";
           get userContext "githubToken"; ret requestId];
        invoke github "getIssue"
          [get args "repository"; get args "issue_number";
           get userContext "githubToken"; ret requestId]] ;;
     let prDetails := index both 0 in
     let issueDetails := index both 1 in
     (* 2. Find optimal meeting time for all reviewers *)
     attendees <- attendeeSet args prDetails ;;
     meetingTime <- call calendar "findOptimalTime"
       [ret attendees; get userContext "calendarToken"; ret requestId;
        obj [("duration", orE (get args "duration") (num 30));
             ("timeMin", n <- Date_now ;; ret (Date_of (plus n (30 * 60 * 1000))));
             ("timeMax", n <- Date_now ;; ret (Date_of (plus n (24 * 60 * 60 * 1000))));
             ("workingHours", obj [("start", num 9); ("end", num 17)]);
             ("bufferMinutes", num 15)]] ;;
     (* 3. Create Slack channel for discussion *)
     channelData <- obj
       [("name", reviewChannelName args prDetails);
        ("type", str "review");
        ("topic", tpl [lit "Code review for PR #"; sub (get args "pr_number");
                       lit ": "; sub (get prDetails "title")]);
        ("purpose", tpl [lit "Review: "; sub (get prDetails "title");
                         lit " (Fixes #"; sub (get args "issue_number"); lit ")"]);
        ("private", boolean false);
        ("members", Array_map attendees split_at_0);
        ("context", obj
           [("purpose", tpl [lit "Code review for "; sub (get args "repository");
                             lit " PR #"; sub (get args "pr_number")]);
            ("prNumber", get args "pr_number");
            ("issueNumber", get args "issue_number");
            ("repository", get args "repository");
            ("links", arr
               [item (obj [("title", tpl [lit "Pull Request #"; sub (get args "pr_number")]);
                           ("url", get prDetails "urls" .> "html")]);
                item (obj [("title", tpl [lit "Issue #"; sub (get args "issue_number")]);
                           ("url", get issueDetails "html_url")])])])] ;;
     channel <- call slack "createReviewChannel"
       [ret channelData; get userContext "slackToken"; ret requestId] ;;
     (* 4. Schedule Google Meet *)
     meeting <- call calendar "createMeeting"
       [obj [("title", tpl [lit "Code Review: "; sub (get prDetails "title")]);
             ("description", tpl
                [lit "Code review for PR #"; sub (get args "pr_number");
                 lit " (Fixes #"; sub (get args "issue_number"); lit (")" ++ nl ++ nl);
                 lit "Pull Request: "; sub (get prDetails "urls" .> "html"); lit nl;
                 lit "Issue: "; sub (get issueDetails "html_url"); lit nl;
                 lit "Slack Channel: "; sub (get channel "webUrl"); lit (nl ++ nl);
                 lit ("Changes Summary:" ++ nl);
                 lit "- Files changed: "; sub (get prDetails "stats" .> "changedFiles"); lit nl;
                 lit "- Additions: +"; sub (get prDetails "stats" .> "additions"); lit nl;
                 lit "- Deletions: -"; sub (get prDetails "stats" .> "deletions");
                 lit (nl ++ nl);
                 lit "Please review the changes before the meeting."]);
             ("startTime", get meetingTime "start");
             ("endTime", get meetingTime "end");
             ("attendees", ret attendees);
             ("location", get channel "webUrl");
             ("conferenceData", obj
                [("createRequest", obj
                    [("requestId", tpl [lit "pr-"; sub (get args "pr_number")])])])];
        get userContext "calendarToken"; ret requestId] ;;
     (* 5. Create Notion page for meeting notes *)
     notionPage <- call notion "createDocument"
       [env NOTION_PROJECTS_DB_ID;
        obj [("title", tpl [lit "Code Review: "; sub (get prDetails "title")]);
             ("type", str "Meeting Notes");
             ("content", tpl
                [lit ("# Code Review Meeting Notes" ++ nl ++ nl);
                 lit ("## Pull Request Details" ++ nl);
                 lit "- PR: #"; sub (get args "pr_number"); lit " - ";
                 sub (get prDetails "title"); lit nl;
                 lit "- Author: "; sub (get prDetails "author" .> "name"); lit nl;
                 lit "- Reviewers: "; sub (reviewerNames prDetails); lit nl;
                 lit "- Issue: #"; sub (get args "issue_number"); lit (nl ++ nl);
                 lit ("## Links" ++ nl);
                 lit "- [Pull Request]("; sub (get prDetails "urls" .> "html"); lit (")" ++ nl);
                 lit "- [Issue]("; sub (get issueDetails "html_url"); lit (")" ++ nl);
                 lit "- [Slack Channel]("; sub (get channel "webUrl"); lit (")" ++ nl);
                 lit ("- [Meeting Recording](TBD)" ++ nl ++ nl);
                 lit ("## Agenda" ++ nl);
                 lit ("1. PR Overview by Author" ++ nl);
                 lit ("2. Technical Implementation Review" ++ nl);
                 lit ("3. Testing Strategy Discussion" ++ nl);
                 lit ("4. Action Items" ++ nl ++ nl);
                 lit ("## Notes" ++ nl);
                 lit ("(To be filled during the meeting)" ++ nl ++ nl);
                 lit ("## Action Items" ++ nl);
                 lit ("- [ ] Review comments addressed" ++ nl);
                 lit ("- [ ] Tests updated/added" ++ nl);
                 lit ("- [ ] Documentation updated" ++ nl ++ nl);
                 lit ("## Next Steps" ++ nl);
                 lit "(To be determined during the meeting)"]);
             ("owners", ret attendees)];
        get userContext "notionToken"; ret requestId] ;;
     (* 6. Send comprehensive Slack notification *)
     call slack "sendMessage"
       [get channel "id";
        obj [("text", tpl
                [lit "🔍 *Code Review Scheduled: "; sub (get prDetails "title");
                 lit ("*" ++ nl ++ nl);
                 lit "*Pull Request:* #"; sub (get args "pr_number"); lit nl;
                 lit "*Fixes Issue:* #"; sub (get args "issue_number"); lit nl;
                 lit "*Author:* "; sub (get prDetails "author" .> "name"); lit (nl ++ nl);
                 lit "*Meeting Scheduled:* "; sub (get meetingTime "formatted"); lit nl;
                 lit "*Join:* "; sub (joinLink meeting)]);
             ("blocks", arr
                [item (obj [("type", str "header");
                            ("text", obj [("type", str "plain_text");
                                          ("text", tpl [lit "🔍 Code Review: ";
                                                        sub (get prDetails "title")])])]);
                 item (obj [("type", str "section");
                            ("fields", arr
                               [item (obj [("type", str "mrkdwn");
                                           ("text", tpl [lit ("*Pull Request:*" ++ nl ++ "<");
                                                         sub (get prDetails "urls" .> "html");
                                                         lit "|#"; sub (get args "pr_number");
                                                         lit ">"])]);
                                item (obj [("type", str "mrkdwn");
                                           ("text", tpl [lit ("*Fixes Issue:*" ++ nl ++ "<");
                                                         sub (get issueDetails "html_url");
                                                         lit "|#"; sub (get args "issue_number");
                                                         lit ">"])])])]);
                 item (obj [("type", str "section");
                            ("fields", arr
                               [item (obj [("type", str "mrkdwn");
                                           ("text", tpl [lit ("*Author:*" ++ nl);
                                                         sub (get prDetails "author" .> "name")])]);
                                item (obj [("type", str "mrkdwn");
                                           ("text", tpl [lit ("*Reviewers:*" ++ nl);
                                                         sub (reviewerNames prDetails)])])])]);
                 item (obj [("type", str "section");
                            ("fields", arr
                               [item (obj [("type", str "mrkdwn");
                                           ("text", tpl [lit ("*Meeting Time:*" ++ nl);
                                                         sub (get meetingTime "formatted")])]);
                                item (obj [("type", str "mrkdwn");
                                           ("text", tpl [lit ("*Changes:*" ++ nl);
                                                         sub (get prDetails "stats" .> "changedFiles");
                                                         lit " files (+";
                                                         sub (get prDetails "stats" .> "additions");
                                                         lit ", -";
                                                         sub (get prDetails "stats" .> "deletions");
                                                         lit ")"])])])]);
                 item (obj [("type", str "section");
                            ("text", obj
                               [("type", str "mrkdwn");
                                ("text", tpl [lit ("*Important Links:*" ++ nl ++ "• <");
                                              sub (joinLink meeting);
                                              lit ("|Join Meeting>" ++ nl ++ "• <");
                                              sub (get notionPage "url");
                                              lit ("|Meeting Notes>" ++ nl ++ "• <");
                                              sub (get prDetails "urls" .> "html");
                                              lit ("|Pull Request>" ++ nl ++ "• <");
                                              sub (get issueDetails "html_url");
                                              lit "|Issue>"])])]);
                 item (obj [("type", str "context");
                            ("elements", arr
                               [item (obj [("type", str "mrkdwn");
                                           ("text", str "🔔 You'll receive a calendar invitation shortly. Please review the PR before the meeting.")])])])])];
        get userContext "slackToken"; ret requestId] ;;
     executionTime <- (n <- Date_now ;; ret (minus n startTime)) ;;
     msg <- tpl_s [lit "Code review scheduled for PR #"; sub (get args "pr_number")] ;;
     elapsed <- tpl_s [sub (ret executionTime); lit "ms"] ;;
     d <- obj [("repository", get args "repository");
               ("pr_number", get args "pr_number");
               ("issue_number", get args "issue_number");
               ("slack_channel", tpl [lit "#"; sub (get channel "name")]);
               ("slack_url", get channel "webUrl");
               ("github_pr", get prDetails "urls" .> "html");
               ("github_issue", get issueDetails "html_url");
               ("meeting", obj [("time", get meetingTime "formatted");
                                ("url", joinLink meeting);
                                ("attendees", ret attendees)]);
               ("notion", obj [("title", tpl [lit "Code Review: ";
                                              sub (get prDetails "title")]);
                               ("url", get notionPage "url")])] ;;
     ret {| success := true; message := msg; executionTime := elapsed;
            details := Some d |})
    (fun error =>
       logger "error" "Code review workflow failed"
         (obj [("requestId", ret requestId); ("error", get error "message")]) ;;
       msg <- tpl_s [lit "Failed to schedule code review: "; sub (get error "message")] ;;
       elapsed <- tpl_s [sub (n <- Date_now ;; ret (minus n startTime)); lit "ms"] ;;
       ret {| success := false; message := msg; executionTime := elapsed;
              details := None |}).

(** Line 310: the name of the repository of a new project. *)
Definition repoName (args : value) : M value :=
  p <- get args "project_name" ;; l <- toLowerCase p ;; replace l.

(** [async createProjectKickoff(args, userContext, requestId)], lines 290-464. *)
Definition createProjectKickoff (args userContext requestId : value) : M ResultEnvelope :=
  startTime <- Date_now ;;
  try_catch
    (logger "info" "Starting project kickoff workflow"
       (obj [("requestId", ret requestId);
             ("projectName", get args "project_name");
             ("teamSize", get args "team_members" .> "length")]) ;;
     (* 1. Create Notion project space *)
     notionProject <- call notion "createProjectPage"
       [obj [("name", get args "project_name");
             ("databaseId", env NOTION_PROJECTS_DB_ID);
             ("teamMembers", get args "team_members");
             ("deadline", get args "deadline");
             ("description", get args "description")];
        get userContext "notionToken"; ret requestId] ;;
     (* 2. Create GitHub repository *)
     repo <- repoName args ;;
     repository <- call github "createRepository"
       [obj [("name", ret repo);
             ("description", get args "description");
             ("private", boolean true);
             ("team", get args "team_members")];
        get userContext "githubToken"; ret requestId] ;;
     (* 3. Create Slack channel *)
     channelData <- obj
       [("name", tpl [lit "proj-"; sub (ret repo)]);
        ("topic", tpl [sub (get args "project_name"); lit " - Project Discussion"]);
        ("purpose", get args "description");
        ("private", boolean false);
        ("members", get args "team_members")] ;;
     channel <- call slack "createReviewChannel"
       [ret channelData; get userContext "slackToken"; ret requestId] ;;
     (* 4. Schedule kickoff meeting *)
     kickoffTime <- call calendar "findOptimalTime"
       [get args "team_members"; get userContext "calendarToken"; ret requestId;
        obj [("duration", num 60);
             ("timeMin", new_Date);
             ("timeMax", n <- Date_now ;; ret (Date_of (plus n (2 * 24 * 60 * 60 * 1000))));
             ("workingHours", obj [("start", num 9); ("end", num 17)])]] ;;
     meeting <- call calendar "createMeeting"
       [obj [("title", tpl [sub (get args "project_name"); lit " - Project Kickoff"]);
             ("description", tpl
                [lit "Project kickoff meeting for "; sub (get args "project_name");
                 lit (nl ++ nl ++ "Notion: "); sub (get notionProject "projectPageUrl");
                 lit (nl ++ "GitHub: "); sub (get repository "html_url");
                 lit (nl ++ "Slack: "); sub (get channel "webUrl")]);
             ("startTime", get kickoffTime "start");
             ("endTime", get kickoffTime "end");
             ("attendees", get args "team_members");
             ("location", get channel "webUrl")];
        get userContext "calendarToken"; ret requestId] ;;
     (* 5. Send welcome message in Slack *)
     call slack "sendMessage"
       [get channel "id";
        obj [("text", tpl
                [lit "🚀 *Project "; sub (get args "project_name");
                 lit (" has been created!*" ++ nl ++ nl);
                 lit ("*Resources:*" ++ nl);
                 lit "• Notion Workspace: "; sub (get notionProject "projectPageUrl"); lit nl;
                 lit "• GitHub Repository: "; sub (get repository "html_url"); lit nl;
                 lit "• Kickoff Meeting: "; sub (get meeting "htmlLink"); lit (nl ++ nl);
                 lit "Please review the project documentation in Notion and we'll discuss everything in detail during the kickoff meeting."]);
             ("blocks", arr
                [item (obj [("type", str "header");
                            ("text", obj [("type", str "plain_text");
                                          ("text", tpl [lit "🚀 Project ";
                                                        sub (get args "project_name");
                                                        lit " has been created!"])])]);
                 item (obj [("type", str "section");
                            ("text", obj [("type", str "mrkdwn");
                                          ("text", str "Welcome to the project channel! All project-related discussions will happen here.")])]);
                 item (obj [("type", str "section");
                            ("text", obj [("type", str "mrkdwn");
                                          ("text", str "*Important Links:*")])]);
                 item (obj [("type", str "section");
                            ("fields", arr
                               [item (obj [("type", str "mrkdwn");
                                           ("text", tpl [lit ("*📝 Notion Workspace*" ++ nl ++ "<");
                                                         sub (get notionProject "projectPageUrl");
                                                         lit "|Open Documentation>"])]);
                                item (obj [("type", str "mrkdwn");
                                           ("text", tpl [lit ("*📊 GitHub Repository*" ++ nl ++ "<");
                                                         sub (get repository "html_url");
                                                         lit "|"; sub (get repository "name");
                                                         lit ">"])])])]);
                 item (obj [("type", str "section");
                            ("text", obj [("type", str "mrkdwn");
                                          ("text", tpl [lit ("*🗓 Kickoff Meeting*" ++ nl);
                                                        sub (get meeting "summary"); lit nl;
                                                        sub (get meeting "htmlLink")])])])])];
        get userContext "slackToken"; ret requestId] ;;
     executionTime <- (n <- Date_now ;; ret (minus n startTime)) ;;
     logger "info" "Project kickoff completed successfully"
       (obj [("requestId", ret requestId);
             ("projectName", get args "project_name");
             ("notionPageId", get notionProject "projectPageId");
             ("repoName", get repository "name");
             ("slackChannel", get channel "name");
             ("executionTime", tpl [sub (ret executionTime); lit "ms"])]) ;;
     msg <- tpl_s [lit "Project "; sub (get args "project_name");
                   lit " created successfully"] ;;
     elapsed <- tpl_s [sub (ret executionTime); lit "ms"] ;;
     d <- obj [("notion", obj [("pageId", get notionProject "projectPageId");
                               ("url", get notionProject "projectPageUrl")]);
               ("github", obj [("name", get repository "name");
                               ("url", get repository "html_url")]);
               ("slack", obj [("channel", get channel "name");
                              ("url", get channel "webUrl")]);
               ("meeting", obj [("id", get meeting "id");
                                ("time", get meeting "start" .> "dateTime");
                                ("url", get meeting "htmlLink")])] ;;
     ret {| success := true; message := msg; executionTime := elapsed;
            details := Some d |})
    (fun error =>
       executionTime <- (n <- Date_now ;; ret (minus n startTime)) ;;
       logger "error" "Project kickoff workflow failed"
         (obj [("requestId", ret requestId);
               ("error", get error "message");
               ("projectName", get args "project_name")]) ;;
       msg <- tpl_s [lit "Failed to create project: "; sub (get error "message")] ;;
       elapsed <- tpl_s [sub (ret executionTime); lit "ms"] ;;
       ret {| success := false; message := msg; executionTime := elapsed;
              details := None |}).

(** Lines 590-624: the escalation of an incident. *)
Definition escalate (args userContext requestId notionIncident issue channel : value)
  : M unit :=
  meeting <- call calendar "createMeeting"
    [obj [("title", tpl [lit "🚨 Incident Response: "; sub (get args "title")]);
          ("description", tpl
             [lit ("Emergency response meeting for ongoing incident" ++ nl ++ nl);
              lit "Notion: "; sub (get notionIncident "url"); lit nl;
              lit "GitHub: "; sub (get issue "html_url"); lit nl;
              lit "Slack: "; sub (get channel "webUrl")]);
          ("startTime", new_Date);
          ("endTime", n <- Date_now ;; ret (Date_of (plus n (30 * 60 * 1000))));
          ("attendees", get args "responders");
          ("location", get channel "webUrl");
          ("conferenceData", obj
             [("createRequest", obj
                 [("requestId", tpl [lit "incident-"; sub Date_now])])])];
     get userContext "calendarToken"; ret requestId] ;;
  (* Send meeting notification *)
  call slack "sendMessage"
    [get channel "id";
     obj [("text", tpl [lit ("🚪 *Emergency Response Meeting*" ++ nl ++ nl);
                        lit "Join now: "; sub (joinLink meeting)]);
          ("blocks", arr
             [item (obj [("type", str "section");
                         ("text", obj
                            [("type", str "mrkdwn");
                             ("text", tpl
                                [lit ("🚪 *Emergency Response Meeting Created*" ++ nl ++ nl);
                                 lit "Please join immediately: ";
                                 sub (joinLink meeting)])])])])];
     get userContext "slackToken"; ret requestId] ;;
  ret tt.

(** [async handleIncidentResponse(args, userContext, requestId)], lines 466-671. *)
Definition handleIncidentResponse (args userContext requestId : value) : M ResultEnvelope :=
  startTime <- Date_now ;;
  try_catch
    (logger "info" "Starting incident response workflow"
       (obj [("requestId", ret requestId);
             ("severity", get args "severity");
             ("description", get args "description")]) ;;
     (* 1. Create Notion incident page *)
     notionIncident <- call notion "createDocument"
       [env NOTION_INCIDENTS_DB_ID;
        obj [("title", tpl [lit "Incident: "; sub (get args "title")]);
             ("type", str "Incident Report");
             ("content", get args "description");
             ("owners", get args "responders")];
        get userContext "notionToken"; ret requestId] ;;
     (* 2. Create GitHub issue *)
     issueData <- obj
       [("title", tpl [lit "[INCIDENT] "; sub (get args "title")]);
        ("body", tpl
           [lit ("## Incident Report" ++ nl ++ nl); sub (get args "description");
            lit (nl ++ nl);
            lit "**Severity:** "; sub (get args "severity"); lit nl;
            lit "**Started:** "; sub (d <- new_Date ;; Date_toISOString d); lit (nl ++ nl);
            lit ("### Links" ++ nl);
            lit "- [Incident Doc]("; sub (get notionIncident "url"); lit (")" ++ nl)]);
        ("labels", arr [item (str "incident");
                        item (tpl [lit "severity:"; sub (get args "severity")])]);
        ("assignees", r <- get args "responders" ;; Array_map r split_at_0)] ;;
     issue <- call github "createIssue"
       [get args "repository"; ret issueData; get userContext "githubToken";
        ret requestId] ;;
     (* 3. Create Slack channel for incident coordination *)
     channelData <- obj
       [("name", tpl [lit "incident-";
                      sub (n <- Date_now ;; s <- Number_toString n ;; slice_last s 6)]);
        ("topic", tpl [lit "🚨 Active Incident: "; sub (get args "title")]);
        ("purpose", tpl [lit "Incident coordination - ";
                         sub (d <- get args "description" ;; slice0 d 100);
                         lit "..."]);
        ("private", boolean true);
        ("members", arr [spread (get args "responders");
                         spread (orE (get args "stakeholders") (ret (VArr [])))])] ;;
     channel <- call slack "createReviewChannel"
       [ret channelData; get userContext "slackToken"; ret requestId] ;;
     (* 4. Send initial incident notification *)
     call slack "sendMessage"
       [get channel "id";
        obj [("text", tpl
                [lit ("🚨 *New Incident Reported*" ++ nl ++ nl);
                 lit "*Title:* "; sub (get args "title"); lit nl;
                 lit "*Severity:* "; sub (get args "severity"); lit (nl ++ nl);
                 lit ("*Description:*" ++ nl); sub (get args "description"); lit (nl ++ nl);
                 lit ("*Resources:*" ++ nl);
                 lit "• Incident Doc: "; sub (get notionIncident "url"); lit nl;
                 lit "• GitHub Issue: "; sub (get issue "html_url")]);
             ("blocks", arr
                [item (obj [("type", str "header");
                            ("text", obj [("type", str "plain_text");
                                          ("text", str "🚨 New Incident Reported")])]);
                 item (obj [("type", str "section");
                            ("fields", arr
                               [item (obj [("type", str "mrkdwn");
                                           ("text", tpl [lit ("*Title:*" ++ nl);
                                                         sub (get args "title")])]);
                                item (obj [("type", str "mrkdwn");
                                           ("text", tpl [lit ("*Severity:*" ++ nl);
                                                         sub (get args "severity")])])])]);
                 item (obj [("type", str "section");
                            ("text", obj [("type", str "mrkdwn");
                                          ("text", tpl [lit ("*Description:*" ++ nl);
                                                        sub (get args "description")])])]);
                 item (obj [("type", str "section");
                            ("text", obj [("type", str "mrkdwn");
                                          ("text", str "*Resources:*")])]);
                 item (obj [("type", str "section");
                            ("fields", arr
                               [item (obj [("type", str "mrkdwn");
                                           ("text", tpl [lit ("*📝 Incident Doc*" ++ nl ++ "<");
                                                         sub (get notionIncident "url");
                                                         lit "|View Documentation>"])]);
                                item (obj [("type", str "mrkdwn");
                                           ("text", tpl [lit ("*📊 GitHub Issue*" ++ nl ++ "<");
                                                         sub (get issue "html_url");
                                                         lit "|#"; sub (get issue "number");
                                                         lit ">"])])])])])];
        get userContext "slackToken"; ret requestId] ;;
     (* 5. If high severity, trigger immediate meeting *)
     severe <- orB (v <- get args "severity" ;; ret (strict_eq v "high"))
                   (v <- get args "severity" ;; ret (strict_eq v "critical")) ;;
     (if severe : bool
      then escalate args userContext requestId notionIncident issue channel
      else ret tt) ;;
     executionTime <- (n <- Date_now ;; ret (minus n startTime)) ;;
     logger "info" "Incident response workflow completed"
       (obj [("requestId", ret requestId);
             ("incidentId", get notionIncident "id");
             ("issueNumber", get issue "number");
             ("slackChannel", get channel "name");
             ("executionTime", tpl [sub (ret executionTime); lit "ms"])]) ;;
     msg <- tpl_s [lit "Incident response initiated: "; sub (get args "title")] ;;
     elapsed <- tpl_s [sub (ret executionTime); lit "ms"] ;;
     d <- obj [("notion", obj [("documentId", get notionIncident "id");
                               ("url", get notionIncident "url")]);
               ("github", obj [("issueNumber", get issue "number");
                               ("url", get issue "html_url")]);
               ("slack", obj [("channel", get channel "name");
                              ("url", get channel "webUrl")])] ;;
     ret {| success := true; message := msg; executionTime := elapsed;
            details := Some d |})
    (fun error =>
       executionTime <- (n <- Date_now ;; ret (minus n startTime)) ;;
       logger "error" "Incident response workflow failed"
         (obj [("requestId", ret requestId); ("error", get error "message")]) ;;
       msg <- tpl_s [lit "Failed to initiate incident response: ";
                     sub (get error "message")] ;;
       elapsed <- tpl_s [sub (ret executionTime); lit "ms"] ;;
       ret {| success := false; message := msg; executionTime := elapsed;
              details := None |}).

(** What [cleanup] finds in the four connector fields.  The constructor
    fills them and no method of the class empties one: that is the
    orchestrator [WorkflowOrchestrator] describes, and the one the
    workflows and [initialize] run on.  [cleanup] alone provides for a
    field that holds nothing, so it is given what each field holds:
    [Some] connector, or [None] for a field that is [undefined] or
    [null]. *)
Record ConnectorFields : Type := {
  github_field : option connector;
  slack_field : option connector;
  notion_field : option connector;
  calendar_field : option connector
}.

(** The fields of an orchestrator as its constructor built it. *)
Definition fields_set (o : WorkflowOrchestrator) : ConnectorFields :=
  {| github_field := Some (github o);
     slack_field := Some (slack o);
     notion_field := Some (notion o);
     calendar_field := Some (calendar o) |}.

(** [if (this.<connector>) { await this.<connector>.cleanup(); }]. *)
Definition cleanup_connector (field : option connector) : M unit :=
  match field with
  | Some c => call (fun _ => c) "cleanup" [] ;; ret tt
  | None => ret tt
  end.

(** [async cleanup()], lines 673-693, on an orchestrator whose connector
    fields hold [f]. *)
Definition cleanup (f : ConnectorFields) : M unit :=
  logger "info" "Cleaning up WorkflowOrchestrator..." (ret VUndef) ;;
  cleanup_connector (github_field f) ;;
  cleanup_connector (slack_field f) ;;
  cleanup_connector (notion_field f) ;;
  cleanup_connector (calendar_field f) ;;
  logger "info" "WorkflowOrchestrator cleanup complete" (ret VUndef).


(* ================================================================= *)
(** ** Judgements on computations *)

(** The reasons of the connector calls of a trace that were rejected. *)
Definition rejection (ev : event) : list value :=
  match ev with
  | Call _ _ _ _ r =>
      match outcome r with Rejected e => [e] | Fulfilled _ => [] end
  | Log _ _ _ => []
  end.

Definition rejections (tr : list event) : list value := flat_map rejection tr.

(** The rejection that comes first among the calls of a trace, with the
    instant at which it comes: a call issued at [t] is rejected at [t] plus
    its latency.  Of two rejections at the same instant, the one of the
    call issued first. *)
Fixpoint first_rejected (tr : list event) : option (Z * value) :=
  match tr with
  | [] => None
  | Call t _ _ _ r :: rest =>
      match outcome r, first_rejected rest with
      | Rejected e, Some (t', e') =>
          if t + Z.of_N (latency r) <=? t'
          then Some (t + Z.of_N (latency r), e)
          else Some (t', e')
      | Rejected e, None => Some (t + Z.of_N (latency r), e)
      | Fulfilled _, later => later
      end
  | Log _ _ _ :: rest => first_rejected rest
  end.

(** Its reason. *)
Definition first_reason (tr : list event) : option value :=
  match first_rejected tr with Some (_, e) => Some e | None => None end.

Definition is_TypeError (e : value) : Prop := exists msg, e = TypeError msg.

(** An expression: it leaves the state alone and throws nothing but a
    [TypeError]. *)
Definition pure {A} (m : M A) : Prop :=
  forall h s,
    snd (m h s) = s /\
    match fst (m h s) with Ok _ => True | Throw e => is_TypeError e end.

(** The answer a recorded call carries is the one the host gave. *)
Definition from_host (h : host) (ev : event) : Prop :=
  match ev with
  | Call _ c name a r => exists tr, r = respond h tr c name a
  | Log _ _ _ => True
  end.

(** What a run from [s] to [s'] that added the events [new] may have done
    and thrown: the orchestrator object is untouched, the clock did not
    run backwards, the calls were answered by the host, a normal return
    saw no rejection, and a thrown value is a [TypeError] of the
    procedure's own or the reason of the call that was rejected first. *)
Definition contains {A} (h : host) (s : state) (r : result A) (s' : state)
                    (new : list event) : Prop :=
  this s' = this s /\ clock s <= clock s' /\ trace s' = (trace s ++ new)%list /\
  Forall (from_host h) new /\
  match r with
  | Ok _ => rejections new = []
  | Throw e => (rejections new = [] /\ is_TypeError e) \/ first_reason new = Some e
  end.

Definition contained {A} (m : M A) : Prop :=
  forall h s, exists new, contains h s (fst (m h s)) (snd (m h s)) new.

(** Issuing a call: once the arguments are evaluated, the host's answer is
    recorded in the trace and the promise settles as it says. *)
Definition issue (h : host) (s : state) (c : connector) (name : string)
                 (a : list value) : event :=
  Call (clock s) c name a (respond h (trace s) c name a).

Definition promise_of (h : host) (s : state) (c : connector) (name : string)
                      (a : list value) : promise :=
  let r := respond h (trace s) c name a in
  {| settles := clock s + Z.of_N (latency r); settlement := outcome r |}.

(** How an awaited promise resumes the procedure. *)
Definition settle {A} (r : settled) (k : value -> A) (s : state) : result A * state :=
  match r with
  | Fulfilled v => (Ok (k v), s)
  | Rejected e => (Throw e, s)
  end.

(** The envelope a workflow's [catch] block builds from the error [e],
    [elapsed] milliseconds after entry by the system clock. *)
Definition failure (prefix : string) (h : host) (e : value) (elapsed : Z)
  : ResultEnvelope :=
  {| success := false;
     message := prefix ++ to_string h (prop e "message");
     executionTime := number_to_string elapsed ++ "ms";
     details := None |}.

(** The difference of the readings [Date.now()] gives at [s'] and at [s]. *)
Definition elapsed (h : host) (s s' : state) : Z :=
  wallclock h (clock s') - wallclock h (clock s).

(** A system clock that is never set back. *)
Definition never_set_back (h : host) : Prop :=
  forall t t', t <= t' -> wallclock h t <= wallclock h t'.

(** How an invocation that ran from [s] to [s'] and added the events [new]
    ended.  Either every step went through and the envelope reports
    success, or a step threw [e] and the [catch] block ran: it returns the
    failure envelope when it can read [e.message] and convert it to a
    string and [guard] holds, and throws otherwise. *)
Definition workflow_outcome (prefix : string) (guard : bool) (h : host)
    (s : state) (r : result ResultEnvelope) (s' : state) (new : list event) : Prop :=
  this s' = this s /\ clock s <= clock s' /\ trace s' = (trace s ++ new)%list /\
  Forall (from_host h) new /\
  ((exists env, r = Ok env /\ success env = true /\
      executionTime env = number_to_string (elapsed h s s') ++ "ms" /\
      details env <> None /\ rejections new = [])
   \/
   (exists e, ((rejections new = [] /\ is_TypeError e) \/ first_reason new = Some e) /\
      (nullish e = false -> stringable (prop e "message") = true -> guard = true ->
       r = Ok (failure prefix h e (elapsed h s s'))) /\
      (nullish e = true \/ stringable (prop e "message") = false \/ guard = false ->
       exists x, r = Throw x))).

(** The three workflow procedures of the orchestrator's public surface. *)
Inductive workflow : Type := CodeReview | ProjectKickoff | IncidentResponse.

Definition procedure (w : workflow) : value -> value -> value -> M ResultEnvelope :=
  match w with
  | CodeReview => scheduleCodeReview
  | ProjectKickoff => createProjectKickoff
  | IncidentResponse => handleIncidentResponse
  end.

(** What each [catch] block puts before the error text. *)
Definition failure_prefix (w : workflow) : string :=
  match w with
  | CodeReview => "Failed to schedule code review: "
  | ProjectKickoff => "Failed to create project: "
  | IncidentResponse => "Failed to initiate incident response: "
  end.

(** The [catch] block of [createProjectKickoff] reads [args.project_name]. *)
Definition catch_guard (w : workflow) (args : value) : bool :=
  match w with
  | ProjectKickoff => negb (nullish args)
  | _ => true
  end.

(** What the [catch] blocks need of the reason [e] of a rejection:
    [e.message] can be read, and converted to a string. *)
Definition readable (e : value) : Prop :=
  nullish e = false /\ stringable (prop e "message") = true.

(** No connector rejects with a reason that is not [readable]. *)
Definition readable_reasons (h : host) : Prop :=
  forall tr c name a,
    match outcome (respond h tr c name a) with
    | Rejected e => readable e
    | Fulfilled _ => True
    end.

(** [is_suffix t s]: [s] ends with [t]. *)
Fixpoint is_suffix (t s : string) : bool :=
  (t =? s)%string ||
  match s with
  | EmptyString => false
  | String _ s' => is_suffix t s'
  end.

(* ================================================================= *)
(** ** Sample hosts and requests *)

(** A host whose connectors answer by method name alone, each call taking
    [lat] milliseconds. *)
Definition host_of (answer : string -> settled) (lat : N) : host :=
  {| respond := fun _ _ name _ => {| latency := lat; outcome := answer name |};
     wallclock := fun t => t;
     toISOString := fun _ => "2024-01-01T00:00:00.000Z";
     dateToString := fun _ => "Mon Jan 01 2024 00:00:00 GMT+0000";
     NOTION_PROJECTS_DB_ID := VStr "projects-db";
     NOTION_INCIDENTS_DB_ID := VStr "incidents-db" |}.

Definition Error (msg : string) : value :=
  VObj [("name", VStr "Error"); ("message", VStr msg)].

(** The host [h] with its system clock set back by [ms] milliseconds
    right after the instant [t0]. *)
Definition set_back (h : host) (t0 ms : Z) : host :=
  {| respond := respond h;
     wallclock := fun t => if t <=? t0 then wallclock h t else wallclock h t - ms;
     toISOString := toISOString h;
     dateToString := dateToString h;
     NOTION_PROJECTS_DB_ID := NOTION_PROJECTS_DB_ID h;
     NOTION_INCIDENTS_DB_ID := NOTION_INCIDENTS_DB_ID h |}.

(** Both fetches are rejected: the pull request after 300 ms, the linked
    issue after 100 ms. *)
Definition slow_pull_request : host :=
  {| respond := fun _ _ name _ =>
       if (name =? "getPullRequest")%string
       then {| latency := 300; outcome := Rejected (Error "pull request: timeout") |}
       else {| latency := 100; outcome := Rejected (Error "issue: not found") |};
     wallclock := fun t => t;
     toISOString := fun _ => "2024-01-01T00:00:00.000Z";
     dateToString := fun _ => "Mon Jan 01 2024 00:00:00 GMT+0000";
     NOTION_PROJECTS_DB_ID := VStr "projects-db";
     NOTION_INCIDENTS_DB_ID := VStr "incidents-db" |}.

Definition samplePullRequest : value :=
  VObj [("title", VStr "Fix: Parser BUG #12");
        ("author", VObj [("name", VStr "Bo"); ("email", VStr "b@x.com")]);
        ("requestedReviewers",
         VArr [VObj [("name", VStr "Al"); ("email", VStr "a@x.com")];
               VObj [("name", VStr "Cy"); ("email", VUndef)]]);
        ("urls", VObj [("html", VStr "https://git.example/o/r/pull/42")]);
        ("stats", VObj [("changedFiles", VNum 3); ("additions", VNum 10);
                        ("deletions", VNum 2)])].

(** Every call is fulfilled, with what section 6 of the spec lists. *)
Definition obliging (name : string) : settled :=
  Fulfilled
    (if (name =? "getPullRequest")%string then samplePullRequest
     else if (name =? "getIssue")%string then
       VObj [("html_url", VStr "https://git.example/o/r/issues/7")]
     else if (name =? "createIssue")%string then
       VObj [("html_url", VStr "https://git.example/o/r/issues/8"); ("number", VNum 8)]
     else if (name =? "createRepository")%string then
       VObj [("name", VStr "repo"); ("html_url", VStr "https://git.example/o/repo")]
     else if (name =? "createReviewChannel")%string then
       VObj [("id", VStr "C1"); ("name", VStr "chan");
             ("webUrl", VStr "https://chat.example/C1")]
     else if (name =? "createDocument")%string then
       VObj [("id", VStr "D1"); ("url", VStr "https://docs.example/D1")]
     else if (name =? "createProjectPage")%string then
       VObj [("projectPageId", VStr "P1");
             ("projectPageUrl", VStr "https://docs.example/P1")]
     else if (name =? "findOptimalTime")%string then
       VObj [("start", VDate 3600000); ("end", VDate 5400000);
             ("formatted", VStr "10:00-10:30")]
     else if (name =? "createMeeting")%string then
       VObj [("id", VStr "M1"); ("htmlLink", VStr "https://cal.example/M1");
             ("start", VObj [("dateTime", VStr "2024-01-01T10:00:00Z")]);
             ("summary", VStr "Meeting")]
     else VObj [("ok", VBool true)]).

(** Every call is rejected with [reason]. *)
Definition rejecting (reason : value) (name : string) : settled := Rejected reason.

(** The scheduler finds no slot; every other call is fulfilled. *)
Definition no_slot (name : string) : settled :=
  if (name =? "findOptimalTime")%string
  then Rejected (Error "no slot available")
  else obliging name.

Definition state0 : state :=
  {| this := constructor (VObj []) VUndef; clock := 1000; trace := [] |}.

Definition userContext0 : value :=
  VObj [("githubToken", VStr "gh"); ("slackToken", VStr "sl");
        ("notionToken", VStr "no"); ("calendarToken", VStr "ca")].

Definition reviewRequest : value :=
  VObj [("repository", VStr "o/r"); ("pr_number", VNum 42); ("issue_number", VNum 7);
        ("additional_attendees", VArr [VStr "c@x.com"])].

Definition kickoffRequest (name : string) : value :=
  VObj [("project_name", VStr name);
        ("team_members", VArr [VStr "a@x.com"; VStr "b@x.com"]);
        ("deadline", VStr "2024-06-30"); ("description", VStr "A new project")].

Definition incidentRequest (severity : string) : value :=
  VObj [("title", VStr "DB down"); ("severity", VStr severity);
        ("description", VStr "Primary database unreachable");
        ("repository", VStr "o/r");
        ("responders", VArr [VStr "a@x.com"; VStr "b@x.com"])].

(* ================================================================= *)
(** ** Slugs *)

Fixpoint String_forall (p : ascii -> bool) (s : string) : bool :=
  match s with
  | EmptyString => true
  | String c s' => p c && String_forall p s'
  end.

(** The pattern [^[a-z0-9-]+$]. *)
Definition matches_slug_pattern (s : string) : bool :=
  negb (s =? "")%string && String_forall slug_char s.

(** The slug rule in the spec's words: lowercase, every character outside
    [[a-z0-9-]] replaced with ['-'], truncated to 80 characters. *)
Definition slugify (s : string) : string :=
  String_take 80 (replace_non_slug (String_toLowerCase s)).

(** The characters of a rendered integer. *)
Definition digit_or_dash (c : ascii) : bool :=
  let n := nat_of_ascii c in ((48 <=? n) && (n <=? 57))%nat || (n =? 45)%nat.

Fixpoint String_repeat (c : ascii) (n : nat) : string :=
  match n with
  | O => EmptyString
  | S n' => String c (String_repeat c n')
  end.

(* ================================================================= *)
(** ** Reading a trace *)

(** The methods called, in order. *)
Definition method_of (ev : event) : list string :=
  match ev with Call _ _ name _ _ => [name] | Log _ _ _ => [] end.

Definition methods (tr : list event) : list string := flat_map method_of tr.

(** The calls to [name]: when each was issued, and with what arguments. *)
Definition call_to (name : string) (ev : event) : list (Z * list value) :=
  match ev with
  | Call t _ name' a _ => if (name =? name')%string then [(t, a)] else []
  | Log _ _ _ => []
  end.

Definition calls_to (name : string) (tr : list event) : list (Z * list value) :=
  flat_map (call_to name) tr.

(** The [text] of each message sent. *)
Definition notifications (tr : list event) : list value :=
  map (fun ta => prop (nth 1 (snd ta) VUndef) "text") (calls_to "sendMessage" tr).

(** [args.severity === 'high' || args.severity === 'critical']. *)
Definition severe (args : value) : bool :=
  strict_eq (prop args "severity") "high" || strict_eq (prop args "severity") "critical".

Fixpoint field {A} (k : string) (fs : list (string * A)) : option A :=
  match fs with
  | [] => None
  | (k', v) :: fs' => if (k =? k')%string then Some v else field k fs'
  end.

(** A step that calls no connector and takes no time. *)
Definition quiet {A} (m : M A) : Prop :=
  forall h s, exists logs,
    trace (snd (m h s)) = (trace s ++ logs)%list /\ methods logs = []
    /\ clock (snd (m h s)) = clock s.

(* ================================================================= *)
(** ** Well-formed requests and answers *)

(** Data no part of which fails to convert to a string: no object in it
    has a key [toString]. *)
Fixpoint printable (v : value) : bool :=
  match v with
  | VObj fs =>
      negb (has_key "toString" fs)
      && forallb (fun kv : string * value => let (_, x) := kv in printable x) fs
  | VArr l => forallb printable l
  | _ => true
  end.

(** An address: a string, or absent. *)
Definition address (v : value) : Prop := truthy v = false \/ exists s, v = VStr s.

Definition person (v : value) : Prop := nullish v = false /\ address (prop v "email").

(** What the source-control connector returns for a pull request: title,
    author, requested reviewers, URLs, diff statistics. *)
Definition pullRequest (v : value) : Prop :=
  (exists t, prop v "title" = VStr t)
  /\ (exists rs, prop v "requestedReviewers" = VArr rs /\ Forall person rs)
  /\ person (prop v "author")
  /\ nullish (prop v "urls") = false
  /\ nullish (prop v "stats") = false.

(** What a fulfilled call returns, by method: section 6 of the spec.  A
    meeting has its start; every other answer but the acknowledgement of
    a message is an object. *)
Definition well_formed_reply (name : string) (v : value) : Prop :=
  if (name =? "getPullRequest")%string then pullRequest v
  else if (name =? "createMeeting")%string then
    nullish v = false /\ nullish (prop v "start") = false
  else if (name =? "sendMessage")%string then True
  else nullish v = false.

(** Connectors that never fail, and answer with [printable] data. *)
Definition obliging_host (h : host) : Prop :=
  forall tr c name a,
    exists v, outcome (respond h tr c name a) = Fulfilled v
              /\ well_formed_reply name v /\ printable v = true.

Definition addresses (v : value) : Prop :=
  exists l, v = VArr l /\ Forall (fun x => exists s, x = VStr s) l.

Definition optional_addresses (v : value) : Prop :=
  truthy v = false \/ exists l, v = VArr l /\ Forall address l.

(** A well-formed request of each workflow: [printable] data with the
    fields the workflow takes apart. *)
Definition well_formed_request (w : workflow) (args : value) : Prop :=
  nullish args = false /\ printable args = true /\
  match w with
  | CodeReview => optional_addresses (prop args "additional_attendees")
  | ProjectKickoff =>
      (exists p, prop args "project_name" = VStr p)
      /\ nullish (prop args "team_members") = false
  | IncidentResponse =>
      addresses (prop args "responders")
      /\ (exists d, prop args "description" = VStr d)
      /\ (truthy (prop args "stakeholders") = false
          \/ exists l, prop args "stakeholders" = VArr l)
  end.

(** The keys of [details] in each workflow's success envelope. *)
Definition detail_keys (w : workflow) : list string :=
  match w with
  | CodeReview =>
      ["repository"; "pr_number"; "issue_number"; "slack_channel"; "slack_url";
       "github_pr"; "github_issue"; "meeting"; "notion"]
  | ProjectKickoff => ["notion"; "github"; "slack"; "meeting"]
  | IncidentResponse => ["notion"; "github"; "slack"]
  end.

(** An expression that evaluates, to a value that satisfies [Q]. *)
Definition evaluates {A} (h : host) (m : M A) (Q : A -> Prop) : Prop :=
  forall s, exists a, m h s = (Ok a, s) /\ Q a.

Definition ok {A} (h : host) (m : M A) : Prop := evaluates h m (fun _ => True).

(** An expression that evaluates, to [printable] data. *)
Definition plain (h : host) (m : M value) : Prop :=
  evaluates h m (fun v => printable v = true).

(** A step that goes through, with a result that satisfies [Q]. *)
Definition runs {A} (h : host) (m : M A) (Q : A -> Prop) : Prop :=
  forall s, exists a s', m h s = (Ok a, s') /\ Q a.


(* ================================================================= *)
(** ** Reading a trace *)

(** The connectors the calls of a trace went to, in order. *)
Definition target_of (ev : event) : list connector :=
  match ev with Call _ c _ _ _ => [c] | Log _ _ _ => [] end.

Definition targets (tr : list event) : list connector := flat_map target_of tr.

(** The connectors of an orchestrator, in the order [initialize] and
    [cleanup] go through them. *)
Definition connectors (o : WorkflowOrchestrator) : list connector :=
  [github o; slack o; notion o; calendar o].

(** The connectors [cleanup] finds, in the order it goes through the
    fields. *)
Definition held (field : option connector) : list connector :=
  match field with Some c => [c] | None => [] end.

Definition connectors_held (f : ConnectorFields) : list connector :=
  (held (github_field f) ++ held (slack_field f)
   ++ held (notion_field f) ++ held (calendar_field f))%list.

(** A host on which every call to the connector [down] is rejected with
    [reason], and every other call is fulfilled after [lat] ms. *)
Definition same_connector (a b : connector) : bool :=
  match a, b with
  | GitHubConnector, GitHubConnector | SlackConnector, SlackConnector
  | NotionConnector, NotionConnector | CalendarConnector, CalendarConnector => true
  | _, _ => false
  end.

Definition host_without (down : connector) (reason : value) (lat : N) : host :=
  {| respond := fun _ c name _ =>
       {| latency := lat;
          outcome := if same_connector c down then Rejected reason else obliging name |};
     wallclock := fun t => t;
     toISOString := fun _ => "2024-01-01T00:00:00.000Z";
     dateToString := fun _ => "Mon Jan 01 2024 00:00:00 GMT+0000";
     NOTION_PROJECTS_DB_ID := VStr "projects-db";
     NOTION_INCIDENTS_DB_ID := VStr "incidents-db" |}.

(** The arguments of the calls of a trace, in order. *)
Definition arguments_of (ev : event) : list (list value) :=
  match ev with Call _ _ _ a _ => [a] | Log _ _ _ => [] end.

Definition arguments (tr : list event) : list (list value) := flat_map arguments_of tr.

(** How the calls to [name] ended. *)
Definition outcome_of (name : string) (ev : event) : list settled :=
  match ev with
  | Call _ _ name' _ r => if (name =? name')%string then [outcome r] else []
  | Log _ _ _ => []
  end.

Definition outcomes (name : string) (tr : list event) : list settled :=
  flat_map (outcome_of name) tr.

(** The part of each address before its ['@']. *)
Definition local_parts (l : list string) : list value :=
  map (fun a => VStr (before_at a)) l.

(** A call that was rejected. *)
Definition rejected (ev : event) : bool :=
  match ev with
  | Call _ _ _ _ r => match outcome r with Rejected _ => true | Fulfilled _ => false end
  | Log _ _ _ => false
  end.

(** No call follows a rejected call. *)
Fixpoint ends_at_rejection (tr : list event) : bool :=
  match tr with
  | [] => true
  | ev :: rest =>
      if rejected ev
      then match methods rest with [] => true | _ :: _ => false end
      else ends_at_rejection rest
  end.

(** A step that stops at the first rejected call, and returns only when
    there was none. *)
Definition fail_fast {A} (m : M A) : Prop :=
  forall h s, exists new,
    trace (snd (m h s)) = (trace s ++ new)%list
    /\ ends_at_rejection new = true
    /\ match fst (m h s) with Ok _ => rejections new = [] | Throw _ => True end.

(** An expression: it leaves the state alone, and what it evaluates to
    does not depend on the orchestrator object. *)
Definition expression {A} (m : M A) : Prop :=
  forall h s,
    snd (m h s) = s /\ forall o, fst (m h (with_this s o)) = fst (m h s).

(** A step that reads nothing of the orchestrator object but its
    connectors, and leaves it as it is. *)
Definition oblivious {A} (m : M A) : Prop :=
  forall h s,
    this (snd (m h s)) = this s /\
    forall o, connectors o = connectors (this s) ->
              m h (with_this s o) = (fst (m h s), with_this (snd (m h s)) o).

(** The four connectors, as the workflows reach them. *)
Definition connector_field (target : WorkflowOrchestrator -> connector) : Prop :=
  forall o o', connectors o = connectors o' -> target o = target o'.

(** When each call of a trace was issued, and how long each took. *)
Definition instant_of (ev : event) : list Z :=
  match ev with Call t _ _ _ _ => [t] | Log _ _ _ => [] end.

Definition instants (tr : list event) : list Z := flat_map instant_of tr.

Definition latency_of (ev : event) : list Z :=
  match ev with Call _ _ _ _ r => [Z.of_N (latency r)] | Log _ _ _ => [] end.

Definition latencies (tr : list event) : list Z := flat_map latency_of tr.

(** The envelope a run returned. *)
Definition returned (r : result ResultEnvelope) : ResultEnvelope :=
  match r with
  | Ok env => env
  | Throw _ => {| success := false; message := EmptyString;
                  executionTime := EmptyString; details := None |}
  end.

(** Whether a string has an ['@']. *)
Fixpoint has_at (s : string) : bool :=
  match s with
  | EmptyString => false
  | String c s' => (c =? "@")%char || has_at s'
  end.

(** A step of [cleanup]: it calls [cleanup], without arguments, on the
    connectors [cs] in turn and leaves the orchestrator as it is; the first
    call that is rejected ends it, with the reason thrown. *)
Definition cleans_up (cs : list connector) (m : M unit) : Prop :=
  forall h s, exists new,
    trace (snd (m h s)) = (trace s ++ new)%list
    /\ this (snd (m h s)) = this s
    /\ Forall (fun name => name = "cleanup") (methods new)
    /\ Forall (fun a => a = []) (arguments new)
    /\ match fst (m h s) with
       | Ok _ => targets new = cs /\ rejections new = []
       | Throw e =>
           rejections new = [e]
           /\ (exists done t c r, new = (done ++ [Call t c "cleanup" [] r])%list
                                  /\ outcome r = Rejected e)
           /\ exists later, (targets new ++ later)%list = cs
       end.


(* ================================================================= *)
(** ** Expressions are pure *)

Lemma pure_ret {A} (a : A) : pure (ret a).
Proof. intros h s; split; [reflexivity | exact I]. Qed.

Lemma pure_throw {A} msg : pure (@throw A (TypeError msg)).
Proof. intros h s; split; [reflexivity | exists msg; reflexivity]. Qed.

Lemma pure_bind {A B} (m : M A) (f : A -> M B) :
  pure m -> (forall a, pure (f a)) -> pure (bind m f).
Proof.
  intros Hm Hf h s. unfold bind.
  destruct (Hm h s) as [Hs He].
  destruct (m h s) as [[a | e] s1]; cbn in *; subst s1.
  - apply Hf.
  - split; [reflexivity | exact He].
Qed.

Lemma pure_get v k : pure (get v k).
Proof. unfold get; destruct (nullish v); [apply pure_throw | apply pure_ret]. Qed.

Lemma pure_member e k : pure e -> pure (e .> k).
Proof. intro He; apply pure_bind; [exact He | intro; apply pure_get]. Qed.

Lemma pure_method v name impl :
  (forall m, impl v = Some m -> pure m) -> pure (method v name impl).
Proof.
  intro H; unfold method. destruct (nullish v); [apply pure_throw | ].
  destruct (impl v) as [m | ]; [apply H; reflexivity | apply pure_throw].
Qed.

Lemma pure_sequence {A} (ms : list (M A)) : Forall pure ms -> pure (sequence ms).
Proof.
  induction 1 as [ | m ms Hm _ IH]; cbn [sequence]; [apply pure_ret | ].
  apply pure_bind; [exact Hm | intro a].
  apply pure_bind; [exact IH | intro r; apply pure_ret].
Qed.

Lemma pure_read {A} (f : host -> state -> A) : pure (fun h s => (Ok (f h s), s)).
Proof. intros h s; split; [reflexivity | exact I]. Qed.

Lemma pure_lit s : pure (lit s).
Proof. apply pure_ret. Qed.

Lemma pure_ToString v : pure (ToString v).
Proof.
  intros h s. unfold ToString. destruct (stringable v); cbn [fst snd].
  - split; [reflexivity | exact I].
  - split; [reflexivity | eexists; reflexivity].
Qed.

Lemma pure_sub e : pure e -> pure (sub e).
Proof. intro He; apply pure_bind; [exact He | intro; apply pure_ToString]. Qed.

Lemma pure_tpl parts : Forall pure parts -> pure (tpl parts).
Proof.
  intro H; apply pure_bind; [apply pure_sequence, H | intro; apply pure_ret].
Qed.

Lemma pure_tpl_s parts : Forall pure parts -> pure (tpl_s parts).
Proof.
  intro H; apply pure_bind; [apply pure_tpl, H | intro; apply pure_ret].
Qed.

Lemma pure_obj fields : Forall (fun kv => pure (snd kv)) fields -> pure (obj fields).
Proof.
  intro H; apply pure_bind; [ | intro; apply pure_ret].
  apply pure_sequence. induction H as [ | kv l Hkv _ IH]; cbn [map]; constructor.
  - apply pure_bind; [exact Hkv | intro; apply pure_ret].
  - exact IH.
Qed.

Lemma pure_item e : pure e -> pure (item e).
Proof. intro H; apply pure_bind; [exact H | intro; apply pure_ret]. Qed.

Lemma pure_spread e : pure e -> pure (spread e).
Proof.
  intro H; apply pure_bind; [exact H | intro v].
  destruct v; first [apply pure_ret | apply pure_throw].
Qed.

Lemma pure_arr parts : Forall pure parts -> pure (arr parts).
Proof.
  intro H; apply pure_bind; [apply pure_sequence, H | intro; apply pure_ret].
Qed.

Lemma pure_Array_map v f : (forall x, pure (f x)) -> pure (Array_map v f).
Proof.
  intro H; apply pure_method. intros m Hm.
  destruct v; try discriminate. injection Hm as <-.
  apply pure_bind; [ | intro; apply pure_ret].
  apply pure_sequence, Forall_forall. intros x Hx.
  apply in_map_iff in Hx as (y & <- & _). apply H.
Qed.

Ltac pure_builtin :=
  apply pure_method;
  let m := fresh "m" in let Hm := fresh "Hm" in
  intros m Hm;
  match goal with
  | v : value |- _ =>
      destruct v; try discriminate; injection Hm as <-;
      first [apply pure_ret | apply pure_read]
  end.

Lemma pure_Array_filter_Boolean v : pure (Array_filter_Boolean v).
Proof. pure_builtin. Qed.

Lemma pure_join v sep : pure (join v sep).
Proof.
  apply pure_method. intros m Hm. destruct v; try discriminate. injection Hm as <-.
  intros h s. cbv beta.
  match goal with |- context [if ?c then _ else _] => destruct c end; cbn [fst snd].
  - split; [reflexivity | exact I].
  - split; [reflexivity | eexists; reflexivity].
Qed.

Lemma pure_toLowerCase v : pure (toLowerCase v).
Proof. pure_builtin. Qed.

Lemma pure_replace v : pure (replace v).
Proof. pure_builtin. Qed.

Lemma pure_substring0 v n : pure (substring0 v n).
Proof. pure_builtin. Qed.

Lemma pure_slice0 v n : pure (slice0 v n).
Proof. pure_builtin. Qed.

Lemma pure_slice_last v n : pure (slice_last v n).
Proof. pure_builtin. Qed.

Lemma pure_split_at_0 v : pure (split_at_0 v).
Proof. pure_builtin. Qed.

Lemma pure_Number_toString v : pure (Number_toString v).
Proof.
  apply pure_method. intros m [= <-].
  apply pure_bind; [apply pure_ToString | intro; apply pure_ret].
Qed.

Lemma pure_Date_now : pure Date_now.
Proof. apply pure_read. Qed.

Lemma pure_new_Date : pure new_Date.
Proof. apply pure_read. Qed.

Lemma pure_Date_toISOString v : pure (Date_toISOString v).
Proof. apply pure_read. Qed.

Lemma pure_env name : pure (env name).
Proof. apply pure_read. Qed.

Lemma pure_orE a b : pure a -> pure b -> pure (orE a b).
Proof.
  intros Ha Hb; apply pure_bind; [exact Ha | intro x].
  destruct (truthy x); [apply pure_ret | exact Hb].
Qed.

Lemma pure_orB a b : pure a -> pure b -> pure (orB a b).
Proof.
  intros Ha Hb; apply pure_bind; [exact Ha | intro x].
  destruct x; [apply pure_ret | exact Hb].
Qed.

(** Decides [pure e] for an expression built from the combinators above. *)
Ltac purity :=
  repeat first
    [ assumption
    | apply pure_ret | apply pure_throw | apply pure_read
    | apply pure_get | apply pure_lit | apply pure_ToString
    | apply pure_Date_now | apply pure_new_Date
    | apply pure_env | apply pure_Number_toString | apply pure_Date_toISOString
    | apply pure_Array_filter_Boolean | apply pure_join | apply pure_toLowerCase
    | apply pure_replace | apply pure_substring0 | apply pure_slice0
    | apply pure_slice_last | apply pure_split_at_0
    | apply pure_member | apply pure_sub | apply pure_item | apply pure_spread
    | apply pure_tpl | apply pure_tpl_s | apply pure_obj | apply pure_arr
    | apply pure_Array_map; intro
    | apply pure_orE | apply pure_orB
    | apply pure_bind; [ | intro ]
    | apply Forall_cons | apply Forall_nil
    | progress cbn [snd fst]
    | progress unfold str, num, boolean, attendeeSet, reviewChannelName,
        joinLink, reviewerNames, repoName ].

Lemma pure_attendeeSet args pr : pure (attendeeSet args pr).
Proof. purity. Qed.

Lemma pure_reviewChannelName args pr : pure (reviewChannelName args pr).
Proof. purity. Qed.

Lemma pure_repoName args : pure (repoName args).
Proof. purity. Qed.

(** A pure computation run from [s] ends in [s]. *)
Lemma pure_state {A} (m : M A) h s r s' : pure m -> m h s = (r, s') -> s' = s.
Proof. intros Hp H; destruct (Hp h s) as [Hs _]; rewrite H in Hs; exact Hs. Qed.


(* ================================================================= *)
(** ** Steps of a workflow are contained *)

Lemma rejections_app a b : rejections (a ++ b) = (rejections a ++ rejections b)%list.
Proof. apply flat_map_app. Qed.

(** Events without a rejection do not change which rejection is first. *)
Lemma first_rejected_after a b :
  rejections a = [] -> first_rejected (a ++ b) = first_rejected b.
Proof.
  induction a as [ | ev a IH]; [reflexivity | ].
  cbn [rejections flat_map app first_rejected]. intro H.
  apply app_eq_nil in H as [Hev Ha].
  destruct ev as [t c name args r | ]; [ | exact (IH Ha)].
  cbn [rejection] in Hev. destruct (outcome r); [exact (IH Ha) | discriminate].
Qed.

Lemma first_rejected_before a b :
  rejections b = [] -> first_rejected (a ++ b) = first_rejected a.
Proof.
  intro Hb. induction a as [ | ev a IH]; cbn [app first_rejected].
  - rewrite <- (app_nil_r b), (first_rejected_after b [] Hb). reflexivity.
  - destruct ev; rewrite IH; reflexivity.
Qed.

Lemma first_reason_after a b :
  rejections a = [] -> first_reason (a ++ b) = first_reason b.
Proof. intro H; unfold first_reason; rewrite (first_rejected_after a b H); reflexivity. Qed.

Lemma first_reason_before a b :
  rejections b = [] -> first_reason (a ++ b) = first_reason a.
Proof. intro H; unfold first_reason; rewrite (first_rejected_before a b H); reflexivity. Qed.

(** The first rejection is one of the rejections. *)
Lemma first_rejected_In tr t e : first_rejected tr = Some (t, e) -> In e (rejections tr).
Proof.
  revert t e. induction tr as [ | ev tr IH]; [discriminate | ].
  intros t e. cbn [first_rejected rejections flat_map].
  destruct ev as [t0 c name args r | ]; [ | apply IH].
  cbn [rejection]. destruct (outcome r) as [v | e0]; [apply IH | ].
  destruct (first_rejected tr) as [[t' e'] | ].
  - destruct (_ <=? _); intros [= <- <-]; [left; reflexivity | right; eapply IH; reflexivity].
  - intros [= <- <-]. left; reflexivity.
Qed.

Lemma first_reason_In tr e : first_reason tr = Some e -> In e (rejections tr).
Proof.
  unfold first_reason. destruct (first_rejected tr) as [[t e'] | ] eqn:E; [ | discriminate].
  intros [= <-]. exact (first_rejected_In tr t e' E).
Qed.

Lemma first_reason_None tr : rejections tr = [] -> first_reason tr = None.
Proof.
  intro H. destruct (first_reason tr) as [e | ] eqn:E; [ | reflexivity].
  apply first_reason_In in E. rewrite H in E. destruct E.
Qed.

Lemma contains_pure {A} (m : M A) h s :
  pure m -> contains h s (fst (m h s)) (snd (m h s)) [].
Proof.
  intro Hp. destruct (Hp h s) as [Hs He]. rewrite Hs.
  repeat split; [lia | symmetry; apply app_nil_r | constructor | ].
  destruct (fst (m h s)); [reflexivity | left; split; [reflexivity | exact He]].
Qed.

Lemma contained_pure {A} (m : M A) : pure m -> contained m.
Proof. intros Hp h s; exists []; apply contains_pure, Hp. Qed.

Lemma contained_bind {A B} (m : M A) (f : A -> M B) :
  contained m -> (forall a, contained (f a)) -> contained (bind m f).
Proof.
  intros Hm Hf h s. unfold bind.
  destruct (Hm h s) as (n1 & Ht1 & Hc1 & Htr1 & Hh1 & Hr1).
  destruct (m h s) as [[a | e] s1]; cbn [fst snd] in *.
  - destruct (Hf a h s1) as (n2 & Ht2 & Hc2 & Htr2 & Hh2 & Hr2).
    exists (n1 ++ n2)%list. repeat split.
    + congruence.
    + lia.
    + rewrite Htr2, Htr1. symmetry; apply app_assoc.
    + apply Forall_app; split; assumption.
    + destruct (fst (f a h s1)) as [b | e].
      * rewrite rejections_app, Hr1. exact Hr2.
      * rewrite rejections_app, Hr1, (first_reason_after n1 n2 Hr1). exact Hr2.
  - exists n1. repeat split; assumption.
Qed.

Lemma contained_logger level text meta : pure meta -> contained (logger level text meta).
Proof.
  intros Hp h s. unfold logger, bind.
  pose proof (contains_pure meta h s Hp) as Hc.
  destruct (Hp h s) as [Hs _].
  destruct (meta h s) as [[m | e] s1]; cbn [fst snd] in *; subst s1.
  - exists [Log level text m]. repeat split; cbn; try lia.
    repeat constructor.
  - exists []. exact Hc.
Qed.

Lemma invoke_Ok target name args h s a :
  sequence args h s = (Ok a, s) ->
  invoke target name args h s =
    (Ok (promise_of h s (target (this s)) name a),
     with_trace s (trace s ++ [issue h s (target (this s)) name a])).
Proof. intro H; unfold invoke, bind; rewrite H; reflexivity. Qed.

Lemma invoke_Throw target name args h s e s' :
  sequence args h s = (Throw e, s') ->
  invoke target name args h s = (Throw e, s').
Proof. intro H; unfold invoke, bind; rewrite H; reflexivity. Qed.

Lemma sequence_pure_run {A} (ms : list (M A)) h s :
  Forall pure ms ->
  (exists a, sequence ms h s = (Ok a, s)) \/
  (exists e, sequence ms h s = (Throw e, s) /\ is_TypeError e).
Proof.
  intro Hp. destruct (pure_sequence ms Hp h s) as [Hs He].
  destruct (sequence ms h s) as [[a | e] s1]; cbn [fst snd] in *; subst s1.
  - left; exists a; reflexivity.
  - right; exists e; split; [reflexivity | exact He].
Qed.

Lemma call_Ok target name args h s a :
  sequence args h s = (Ok a, s) ->
  call target name args h s =
    let c := target (this s) in
    let r := respond h (trace s) c name a in
    settle (outcome r) (fun v => v)
      {| this := this s;
         clock := Z.max (clock s) (clock s + Z.of_N (latency r));
         trace := trace s ++ [issue h s c name a] |}.
Proof.
  intro H. unfold call, bind. rewrite (invoke_Ok _ _ _ _ _ _ H).
  unfold await, promise_of, settle; cbn [settlement settles].
  destruct (outcome _); reflexivity.
Qed.

Lemma call_Throw target name args h s e s' :
  sequence args h s = (Throw e, s') ->
  call target name args h s = (Throw e, s').
Proof.
  intro H. unfold call, bind. rewrite (invoke_Throw _ _ _ _ _ _ _ H). reflexivity.
Qed.

Lemma rejection_Call t c n a r :
  rejection (Call t c n a r) =
    match outcome r with Rejected e => [e] | Fulfilled _ => [] end.
Proof. reflexivity. Qed.

Ltac contains_tac :=
  unfold contains, issue, promise_of, settle in *;
  cbn [fst snd this clock trace with_trace with_clock settles settlement] in *;
  unfold rejections; cbn [flat_map]; rewrite ?rejection_Call;
  repeat match goal with H : outcome _ = _ |- _ => rewrite H end;
  cbn [fst snd this clock trace flat_map app In];
  rewrite ?rejection_Call;
  repeat match goal with H : outcome _ = _ |- _ => rewrite H end;
  cbn [app In]; rewrite <- ?app_assoc; cbn [app];
  repeat split; try lia; auto using app_nil_r;
  try solve [repeat constructor; eexists; reflexivity];
  try solve [right; unfold first_reason; cbn [first_rejected];
             repeat match goal with H : outcome _ = _ |- _ => rewrite H end;
             cbn [this clock trace with_trace];
             repeat match goal with H : (_ <=? _) = _ |- _ => rewrite H end;
             reflexivity].

Lemma contained_call target name args :
  Forall pure args -> contained (call target name args).
Proof.
  intros Hp h s.
  destruct (sequence_pure_run args h s Hp) as [[a Ha] | (e & He & Ht)].
  - rewrite (call_Ok _ _ _ _ _ _ Ha). cbv zeta.
    exists [issue h s (target (this s)) name a].
    destruct (outcome (respond h (trace s) (target (this s)) name a)) eqn:Ho;
      contains_tac.
  - rewrite (call_Throw _ _ _ _ _ _ _ He). exists []. contains_tac.
Qed.

(** The join of two calls: both are issued in the same instant, and the
    procedure resumes at the later of the two fulfilments or at the
    earlier rejection. *)
Lemma await_all2_Ok t1 n1 args1 t2 n2 args2 h s a1 a2 :
  sequence args1 h s = (Ok a1, s) ->
  (forall s', sequence args2 h s' = (Ok a2, s')) ->
  await_all [invoke t1 n1 args1; invoke t2 n2 args2] h s =
    let c1 := t1 (this s) in
    let c2 := t2 (this s) in
    let e1 := issue h s c1 n1 a1 in
    let s1 := with_trace s (trace s ++ [e1]) in
    let p1 := promise_of h s c1 n1 a1 in
    let p2 := promise_of h s1 c2 n2 a2 in
    let s2 := with_trace s (trace s ++ [e1; issue h s1 c2 n2 a2]) in
    match settlement p1, settlement p2 with
    | Fulfilled v1, Fulfilled v2 =>
        (Ok (VArr [v1; v2]),
         with_clock s2 (Z.max (clock s) (Z.max (settles p1) (Z.max (settles p2) (clock s)))))
    | Rejected e1, Fulfilled _ =>
        (Throw e1, with_clock s2 (Z.max (clock s) (settles p1)))
    | Fulfilled _, Rejected e2 =>
        (Throw e2, with_clock s2 (Z.max (clock s) (settles p2)))
    | Rejected e1, Rejected e2 =>
        if settles p1 <=? settles p2
        then (Throw e1, with_clock s2 (Z.max (clock s) (settles p1)))
        else (Throw e2, with_clock s2 (Z.max (clock s) (settles p2)))
    end.
Proof.
  intros H1 H2. unfold await_all. cbn [sequence]. unfold bind.
  rewrite (invoke_Ok _ _ _ _ _ _ H1).
  rewrite (invoke_Ok _ _ _ _ _ _ (H2 _)).
  unfold ret, Promise_all, await, promise_of, fulfilment, issue.
  cbn [first_rejection settlement settles map fold_right
       with_trace with_clock this clock trace].
  rewrite <- app_assoc. cbn [app].
  destruct (outcome (respond h (trace s) (t1 (this s)) n1 a1)),
           (outcome (respond h _ (t2 (this s)) n2 a2));
    cbn [settlement settles]; try reflexivity.
  match goal with |- context [if ?c then _ else _] => destruct c end; reflexivity.
Qed.

Lemma await_all2_Throw t1 n1 args1 t2 n2 args2 h s e s' :
  sequence args1 h s = (Throw e, s') ->
  await_all [invoke t1 n1 args1; invoke t2 n2 args2] h s = (Throw e, s').
Proof.
  intro H. unfold await_all. cbn [sequence]. unfold bind.
  rewrite (invoke_Throw _ _ _ _ _ _ _ H). reflexivity.
Qed.

Lemma contained_await_all2 t1 n1 args1 t2 n2 args2 :
  Forall pure args1 -> Forall pure args2 ->
  (forall h s a1, sequence args1 h s = (Ok a1, s) ->
                  exists a2, forall s', sequence args2 h s' = (Ok a2, s')) ->
  contained (await_all [invoke t1 n1 args1; invoke t2 n2 args2]).
Proof.
  intros Hp1 Hp2 Hargs h s.
  destruct (sequence_pure_run args1 h s Hp1) as [[a1 Ha1] | (e & He & Ht)].
  - destruct (Hargs h s a1 Ha1) as [a2 Ha2].
    rewrite (await_all2_Ok _ _ _ _ _ _ _ _ _ _ Ha1 Ha2). cbv zeta.
    exists [issue h s (t1 (this s)) n1 a1;
            issue h (with_trace s (trace s ++ [issue h s (t1 (this s)) n1 a1]))
                  (t2 (this s)) n2 a2].
    unfold promise_of; cbn [settlement settles].
    destruct (outcome (respond h (trace s) (t1 (this s)) n1 a1)) eqn:Ho1,
             (outcome (respond h _ (t2 (this s)) n2 a2)) eqn:Ho2;
      try match goal with |- context [if ?c then _ else _] => destruct c eqn:Hfirst end;
      contains_tac.
  - rewrite (await_all2_Throw _ _ _ _ _ _ _ _ _ _ He). exists []. contains_tac.
Qed.

Lemma contained_if {A} (c : bool) (a b : M A) :
  contained a -> contained b -> contained (if c then a else b).
Proof. destruct c; auto. Qed.


(* ================================================================= *)
(** ** The workflows, step by step *)

Lemma bind_run {A B} (m : M A) (f : A -> M B) h s :
  bind m f h s =
    match m h s with
    | (Ok a, s1) => f a h s1
    | (Throw e, s1) => (Throw e, s1)
    end.
Proof. reflexivity. Qed.

Lemma bind_Ok {A B} (m : M A) (f : A -> M B) h s b s' :
  bind m f h s = (Ok b, s') ->
  exists a s1, m h s = (Ok a, s1) /\ f a h s1 = (Ok b, s').
Proof.
  unfold bind. destruct (m h s) as [[a | e] s1]; [ | discriminate].
  intro H; exists a, s1; split; [reflexivity | exact H].
Qed.

Lemma try_catch_run {A} (body : M A) handler h s r s' :
  try_catch body handler h s = (r, s') ->
  (exists a, body h s = (Ok a, s') /\ r = Ok a) \/
  (exists e s1, body h s = (Throw e, s1) /\ handler e h s1 = (r, s')).
Proof.
  unfold try_catch. destruct (body h s) as [[a | e] s1]; intro H.
  - left; exists a. injection H as <- <-. split; reflexivity.
  - right; exists e, s1. split; [reflexivity | exact H].
Qed.

Lemma logger_Ok level text meta h s u s' :
  pure meta -> logger level text meta h s = (Ok u, s') ->
  this s' = this s /\ clock s' = clock s /\
  exists m, meta h s = (Ok m, s) /\ trace s' = (trace s ++ [Log level text m])%list.
Proof.
  intros Hp H. apply bind_Ok in H as (m & s1 & Hm & H).
  pose proof (pure_state _ _ _ _ _ Hp Hm); subst s1.
  injection H as _ <-. repeat split. exists m; split; [exact Hm | reflexivity].
Qed.

Ltac containment :=
  cbv zeta;
  lazymatch goal with
  | |- contained (bind _ _) => apply contained_bind; [ containment | intro; containment ]
  | |- contained (logger _ _ _) => apply contained_logger; purity
  | |- contained (call _ _ _) => apply contained_call; purity
  | |- contained (if _ then _ else _) => apply contained_if; containment
  | |- contained (escalate _ _ _ _ _ _) => unfold escalate; containment
  | |- contained _ => first [ assumption | apply contained_pure; purity ]
  end.

Lemma get_Ok v k h s r : get v k h s = (Ok r, s) -> nullish v = false.
Proof. unfold get. destruct (nullish v); [discriminate | reflexivity]. Qed.

Lemma get_throw v k :
  nullish v = true ->
  get v k = throw (TypeError ("Cannot read properties of " ++ describe v
                                ++ " (reading '" ++ k ++ "')")).
Proof. intro H; unfold get; rewrite H; reflexivity. Qed.

Lemma get_run v k : nullish v = false -> get v k = ret (prop v k).
Proof. intro H; unfold get; rewrite H; reflexivity. Qed.

(** The arguments of the second fetch evaluate whenever those of the
    first do: they read the same two objects. *)
Lemma fetch_arguments args uc rid k1 k2 h s a1 :
  sequence [get args "repository"; get args k1; get uc "githubToken"; ret rid] h s
    = (Ok a1, s) ->
  exists a2, forall s',
    sequence [get args "repository"; get args k2; get uc "githubToken"; ret rid] h s'
      = (Ok a2, s').
Proof.
  intro H. cbn [sequence] in H.
  destruct (nullish args) eqn:Ha.
  { unfold get at 1 in H. rewrite Ha in H. discriminate. }
  destruct (nullish uc) eqn:Hu.
  { rewrite !(get_run args) in H by exact Ha. unfold get in H. rewrite Hu in H.
    discriminate. }
  eexists. intro s'. cbn [sequence].
  rewrite !(get_run args) by exact Ha. rewrite (get_run uc) by exact Hu. reflexivity.
Qed.

Lemma contained_fetch args uc rid :
  contained (await_all
    [invoke github "getPullRequest"
       [get args "repository"; get args "pr_number"; get uc "githubToken"; ret rid];
     invoke github "getIssue"
       [get args "repository"; get args "issue_number"; get uc "githubToken"; ret rid]]).
Proof.
  apply contained_await_all2; [purity | purity | ].
  intros h s a1. apply fetch_arguments.
Qed.

Lemma contained_escalate args uc rid doc issue channel :
  contained (escalate args uc rid doc issue channel).
Proof. unfold escalate. containment. Qed.

Lemma elapsed_run k h s :
  tpl_s [sub (ret (VNum k)); lit "ms"] h s = (Ok (number_to_string k ++ "ms"), s).
Proof. reflexivity. Qed.

Lemma rejections_Log n level text m :
  rejections (n ++ [Log level text m]) = rejections n.
Proof. rewrite rejections_app. cbn. apply app_nil_r. Qed.

Lemma first_reason_Log n level text m :
  first_reason (n ++ [Log level text m]) = first_reason n.
Proof. apply first_reason_before. reflexivity. Qed.

Lemma thrown_Log new level text m e :
  (rejections new = [] /\ is_TypeError e) \/ first_reason new = Some e ->
  (rejections (new ++ [Log level text m]) = [] /\ is_TypeError e)
  \/ first_reason (new ++ [Log level text m]) = Some e.
Proof. rewrite rejections_Log, first_reason_Log. exact (fun H => H). Qed.

Lemma TypeError_readable e : is_TypeError e -> readable e.
Proof. intros [msg ->]; split; reflexivity. Qed.

Lemma TypeError_not_nullish e : is_TypeError e -> nullish e = false.
Proof. intros [msg ->]; reflexivity. Qed.

(** Steps of a successful run that do not matter for the envelope. *)
Ltac skip_to_tail H :=
  repeat (cbv zeta in H;
          lazymatch type of H with
          | bind (bind Date_now _) _ _ _ = _ => fail
          | bind _ _ _ _ = (Ok _, _) =>
              let a := fresh "a" in
              let s1 := fresh "s" in
              let H0 := fresh "H0" in
              apply bind_Ok in H; destruct H as (a & s1 & H0 & H); clear H0
          end).

(** A [catch] block does not return a success: [Hh] says that it returned
    an envelope, [Hs] that the envelope reports success. *)
Ltac catch_fails Hh Hs :=
  exfalso;
  repeat (cbv zeta in Hh;
          lazymatch type of Hh with
          | bind _ _ _ _ = (Ok _, _) =>
              let a := fresh "a" in
              let s1 := fresh "s" in
              let H0 := fresh "H0" in
              apply bind_Ok in Hh; destruct Hh as (a & s1 & H0 & Hh); clear H0
          end);
  let Hr := fresh "Hr" in
  injection Hh as Hr _; rewrite <- Hr in Hs; discriminate Hs.

Ltac pure_step H :=
  let a := fresh "a" in
  let s1 := fresh "s" in
  let H0 := fresh "H0" in
  apply bind_Ok in H; destruct H as (a & s1 & H0 & H);
  apply pure_state in H0; [subst s1 | purity].

(** The end of a [catch] block: the template around [error.message], then
    the envelope. *)
Ltac catch_block_end Hh Hst :=
  cbv [logger obj tpl_s tpl sub lit bind ret sequence map fst snd Date_now minus
       text_of ToString] in Hh;
  rewrite Hst in Hh;
  cbv [tpl_s tpl sub lit bind ret sequence map fst snd Date_now minus
       text_of ToString stringable] in Hh;
  injection Hh as <- <-.

Lemma scheduleCodeReview_run args uc rid h s :
  exists new,
    workflow_outcome "Failed to schedule code review: " true h s
      (fst (scheduleCodeReview args uc rid h s))
      (snd (scheduleCodeReview args uc rid h s)) new.
Proof.
  destruct (scheduleCodeReview args uc rid h s) as [r s'] eqn:E. cbn [fst snd].
  unfold scheduleCodeReview in E. rewrite bind_run in E.
  change (Date_now h s) with (Ok (VNum (wallclock h (clock s))), s) in E.
  cbv beta iota in E.
  apply try_catch_run in E as [(env & Hb & ->) | (e & s1 & Hb & Hh)].
  - match type of Hb with ?B h s = _ => assert (Hc : contained B) end.
    { pose proof (contained_fetch args uc rid). containment. }
    destruct (Hc h s) as (new & Hnew). rewrite Hb in Hnew. cbn [fst snd] in Hnew.
    destruct Hnew as (Ht & Hk & Htr & Hfh & Hr). clear Hc.
    exists new. repeat split; try assumption. left. exists env.
    skip_to_tail Hb.
    apply bind_Ok in Hb as (x & sx & Hx & Hb).
    cbv [bind Date_now ret minus] in Hx. injection Hx as <- <-.
    pure_step Hb. rewrite bind_run, elapsed_run in Hb. pure_step Hb.
    injection Hb as <- <-. cbn [success executionTime details].
    repeat split; [discriminate | exact Hr].
  - match type of Hb with ?B h s = _ => assert (Hc : contained B) end.
    { pose proof (contained_fetch args uc rid). containment. }
    destruct (Hc h s) as (new & Hnew). rewrite Hb in Hnew. cbn [fst snd] in Hnew.
    destruct Hnew as (Ht & Hk & Htr & Hfh & Hr). clear Hc Hb.
    destruct (nullish e) eqn:Hn.
    + rewrite (get_throw e) in Hh by exact Hn.
      cbv [logger obj bind throw ret sequence map fst snd] in Hh.
      injection Hh as Hr' Hs'. subst r s'.
      exists new. repeat split; try assumption. right. exists e.
      split; [exact Hr | split; [congruence | intros _; eexists; reflexivity]].
    + exists (new ++ [Log "error" "Code review workflow failed"
                       (VObj [("requestId", rid); ("error", prop e "message")])])%list.
      rewrite (get_run e) in Hh by exact Hn.
      destruct (stringable (prop e "message")) eqn:Hst; catch_block_end Hh Hst.
      * repeat split; cbn [this clock trace with_trace]; try assumption.
        -- rewrite Htr. symmetry; apply app_assoc.
        -- apply Forall_app; split; [exact Hfh | repeat constructor].
        -- right. exists e. split; [apply thrown_Log, Hr | ].
           split; [intros _ _ _; reflexivity | intros [? | [? | ?]]; congruence].
      * repeat split; cbn [this clock trace with_trace]; try assumption.
        -- rewrite Htr. symmetry; apply app_assoc.
        -- apply Forall_app; split; [exact Hfh | repeat constructor].
        -- right. exists e. split; [apply thrown_Log, Hr | ].
           split; [intros _ ? _; congruence | intros _; eexists; reflexivity].
Qed.


Lemma createProjectKickoff_run args uc rid h s :
  exists new,
    workflow_outcome "Failed to create project: " (negb (nullish args)) h s
      (fst (createProjectKickoff args uc rid h s))
      (snd (createProjectKickoff args uc rid h s)) new.
Proof.
  destruct (createProjectKickoff args uc rid h s) as [r s'] eqn:E. cbn [fst snd].
  unfold createProjectKickoff in E. rewrite bind_run in E.
  change (Date_now h s) with (Ok (VNum (wallclock h (clock s))), s) in E.
  cbv beta iota in E.
  apply try_catch_run in E as [(env & Hb & ->) | (e & s1 & Hb & Hh)].
  - match type of Hb with ?B h s = _ => assert (Hc : contained B) by containment end.
    destruct (Hc h s) as (new & Hnew). rewrite Hb in Hnew. cbn [fst snd] in Hnew.
    destruct Hnew as (Ht & Hk & Htr & Hfh & Hr). clear Hc.
    exists new. repeat split; try assumption. left. exists env.
    skip_to_tail Hb.
    apply bind_Ok in Hb as (x & sx & Hx & Hb).
    cbv [bind Date_now ret minus] in Hx. injection Hx as <- <-.
    apply bind_Ok in Hb as (u & sl & Hl & Hb).
    apply logger_Ok in Hl as (_ & Hclock & _); [ | purity].
    pure_step Hb. rewrite bind_run, elapsed_run in Hb. pure_step Hb.
    injection Hb as <- <-. cbn [success executionTime details]. unfold elapsed. rewrite Hclock.
    repeat split; [discriminate | exact Hr].
  - match type of Hb with ?B h s = _ => assert (Hc : contained B) by containment end.
    destruct (Hc h s) as (new & Hnew). rewrite Hb in Hnew. cbn [fst snd] in Hnew.
    destruct Hnew as (Ht & Hk & Htr & Hfh & Hr). clear Hc Hb.
    destruct (nullish e) eqn:Hn.
    + rewrite (get_throw e) in Hh by exact Hn.
      cbv [logger obj bind throw ret sequence map fst snd Date_now minus] in Hh.
      injection Hh as Hr' Hs'. subst r s'.
      exists new. repeat split; try assumption. right. exists e.
      split; [exact Hr | split; [congruence | intros _; eexists; reflexivity]].
    + destruct (nullish args) eqn:Ha.
      * rewrite (get_run e) in Hh by exact Hn.
        rewrite (get_throw args) in Hh by exact Ha.
        cbv [logger obj bind throw ret sequence map fst snd Date_now minus] in Hh.
        injection Hh as Hr' Hs'. subst r s'.
        exists new. repeat split; try assumption. right. exists e.
        split; [exact Hr | split; [ | intros _; eexists; reflexivity]].
        intros _ _ Hg. discriminate Hg.
      * exists (new ++ [Log "error" "Project kickoff workflow failed"
                         (VObj [("requestId", rid); ("error", prop e "message");
                                ("projectName", prop args "project_name")])])%list.
        rewrite (get_run e) in Hh by exact Hn.
        rewrite (get_run args) in Hh by exact Ha.
        destruct (stringable (prop e "message")) eqn:Hst; catch_block_end Hh Hst.
        -- repeat split; cbn [this clock trace with_trace]; try assumption.
           ++ rewrite Htr. symmetry; apply app_assoc.
           ++ apply Forall_app; split; [exact Hfh | repeat constructor].
           ++ right. exists e. split; [apply thrown_Log, Hr | ].
              split; [intros _ _ _; reflexivity
                     | intros [? | [? | Hg]]; [congruence | congruence | discriminate Hg]].
        -- repeat split; cbn [this clock trace with_trace]; try assumption.
           ++ rewrite Htr. symmetry; apply app_assoc.
           ++ apply Forall_app; split; [exact Hfh | repeat constructor].
           ++ right. exists e. split; [apply thrown_Log, Hr | ].
              split; [intros _ ? _; congruence | intros _; eexists; reflexivity].
Qed.

Lemma handleIncidentResponse_run args uc rid h s :
  exists new,
    workflow_outcome "Failed to initiate incident response: " true h s
      (fst (handleIncidentResponse args uc rid h s))
      (snd (handleIncidentResponse args uc rid h s)) new.
Proof.
  destruct (handleIncidentResponse args uc rid h s) as [r s'] eqn:E. cbn [fst snd].
  unfold handleIncidentResponse in E. rewrite bind_run in E.
  change (Date_now h s) with (Ok (VNum (wallclock h (clock s))), s) in E.
  cbv beta iota in E.
  apply try_catch_run in E as [(env & Hb & ->) | (e & s1 & Hb & Hh)].
  - match type of Hb with ?B h s = _ => assert (Hc : contained B) end.
    { containment. }
    destruct (Hc h s) as (new & Hnew). rewrite Hb in Hnew. cbn [fst snd] in Hnew.
    destruct Hnew as (Ht & Hk & Htr & Hfh & Hr). clear Hc.
    exists new. repeat split; try assumption. left. exists env.
    skip_to_tail Hb.
    apply bind_Ok in Hb as (x & sx & Hx & Hb).
    cbv [bind Date_now ret minus] in Hx. injection Hx as <- <-.
    apply bind_Ok in Hb as (u & sl & Hl & Hb).
    apply logger_Ok in Hl as (_ & Hclock & _); [ | purity].
    pure_step Hb. rewrite bind_run, elapsed_run in Hb. pure_step Hb.
    injection Hb as <- <-. cbn [success executionTime details]. unfold elapsed. rewrite Hclock.
    repeat split; [discriminate | exact Hr].
  - match type of Hb with ?B h s = _ => assert (Hc : contained B) end.
    { containment. }
    destruct (Hc h s) as (new & Hnew). rewrite Hb in Hnew. cbn [fst snd] in Hnew.
    destruct Hnew as (Ht & Hk & Htr & Hfh & Hr). clear Hc Hb.
    destruct (nullish e) eqn:Hn.
    + rewrite (get_throw e) in Hh by exact Hn.
      cbv [logger obj bind throw ret sequence map fst snd Date_now minus] in Hh.
      injection Hh as Hr' Hs'. subst r s'.
      exists new. repeat split; try assumption. right. exists e.
      split; [exact Hr | split; [congruence | intros _; eexists; reflexivity]].
    + exists (new ++ [Log "error" "Incident response workflow failed"
                       (VObj [("requestId", rid); ("error", prop e "message")])])%list.
      rewrite (get_run e) in Hh by exact Hn.
      destruct (stringable (prop e "message")) eqn:Hst; catch_block_end Hh Hst.
      * repeat split; cbn [this clock trace with_trace]; try assumption.
        -- rewrite Htr. symmetry; apply app_assoc.
        -- apply Forall_app; split; [exact Hfh | repeat constructor].
        -- right. exists e. split; [apply thrown_Log, Hr | ].
           split; [intros _ _ _; reflexivity | intros [? | [? | ?]]; congruence].
      * repeat split; cbn [this clock trace with_trace]; try assumption.
        -- rewrite Htr. symmetry; apply app_assoc.
        -- apply Forall_app; split; [exact Hfh | repeat constructor].
        -- right. exists e. split; [apply thrown_Log, Hr | ].
           split; [intros _ ? _; congruence | intros _; eexists; reflexivity].
Qed.


(* ================================================================= *)
(** ** Every workflow, from entry to return *)

Lemma procedure_run w args uc rid h s :
  exists new,
    workflow_outcome (failure_prefix w) (catch_guard w args) h s
      (fst (procedure w args uc rid h s))
      (snd (procedure w args uc rid h s)) new.
Proof.
  destruct w; cbn [procedure failure_prefix catch_guard].
  - apply scheduleCodeReview_run.
  - apply createProjectKickoff_run.
  - apply handleIncidentResponse_run.
Qed.

Lemma createProjectKickoff_without_request args uc rid h s :
  nullish args = true -> snd (createProjectKickoff args uc rid h s) = s.
Proof.
  intro Ha. unfold createProjectKickoff.
  rewrite !(get_throw args) by exact Ha.
  cbv [bind try_catch logger obj throw ret sequence map fst snd Date_now minus get
       nullish TypeError].
  reflexivity.
Qed.

Lemma rejection_readable h new e :
  readable_reasons h -> Forall (from_host h) new -> In e (rejections new) ->
  readable e.
Proof.
  intros Hr Hf He. unfold rejections in He. apply in_flat_map in He as (ev & Hev & He).
  rewrite Forall_forall in Hf. specialize (Hf ev Hev).
  destruct ev as [t c name a r | ]; cbn in He; [ | contradiction].
  destruct Hf as [tr ->]. specialize (Hr tr c name a).
  destruct (outcome (respond h tr c name a)); cbn in He; [contradiction | ].
  destruct He as [<- | []]. exact Hr.
Qed.

Lemma is_suffix_app a t : is_suffix t (a ++ t) = true.
Proof.
  induction a as [ | c a IH]; cbn [append is_suffix].
  - destruct t; cbn [is_suffix]; rewrite String.eqb_refl; reflexivity.
  - rewrite IH. apply orb_true_r.
Qed.


(* ================================================================= *)
(** ** Containment of failures (C1, C2), elapsed time (C8), frame (C10) *)

(** C1: each workflow runs inside one [try]/[catch] that turns a failure
    into an envelope, and yet a workflow can throw, from the [catch]
    block itself.  [createProjectKickoff] called without a request throws
    where its two siblings return the failure envelope: its [catch] block
    reads [args.project_name] for the log line (line 455).  And in every
    workflow the [catch] block reads [error.message] and puts it in a
    template: a connector that rejects with [undefined], or with a reason
    whose message does not convert to a string, makes it throw. *)
Lemma workflow_can_throw :
  fst (createProjectKickoff VUndef userContext0 (VStr "req-1") (host_of obliging 100) state0)
    = Throw (TypeError "Cannot read properties of undefined (reading 'project_name')")
  /\
  (exists env,
     fst (scheduleCodeReview VUndef userContext0 (VStr "req-1") (host_of obliging 100) state0)
       = Ok env /\ success env = false)
  /\
  (exists env,
     fst (handleIncidentResponse VUndef userContext0 (VStr "req-1") (host_of obliging 100)
            state0)
       = Ok env /\ success env = false)
  /\
  fst (scheduleCodeReview reviewRequest userContext0 (VStr "req-1")
         (host_of (rejecting VUndef) 100) state0)
    = Throw (TypeError "Cannot read properties of undefined (reading 'message')")
  /\
  fst (handleIncidentResponse (incidentRequest "low") userContext0 (VStr "req-1")
         (host_of (rejecting (VObj [("message", VObj [("toString", VNum 1)])])) 100) state0)
    = Throw (TypeError "Cannot convert object to primitive value").
Proof.
  split; [vm_compute; reflexivity | ].
  split; [eexists; split; vm_compute; reflexivity | ].
  split; [eexists; split; vm_compute; reflexivity | ].
  split; vm_compute; reflexivity.
Qed.

(** What the [catch] blocks do contain: when the reasons the connectors
    reject with are [readable] and, for [createProjectKickoff], the
    request is not [null] or [undefined], each of the three workflow
    procedures returns a [ResultEnvelope] and does not throw, whatever
    the request's fields, the user context, the correlation id and the
    connectors' answers are. *)
Lemma readable_workflow_returns_envelope w args uc rid h s :
  readable_reasons h ->
  (w = ProjectKickoff -> nullish args = false) ->
  exists env, fst (procedure w args uc rid h s) = Ok env.
Proof.
  intros Hread Hargs.
  destruct (procedure_run w args uc rid h s) as (new & _ & _ & _ & Hfh & Hout).
  destruct Hout as [(env & Hr & _) | (e & He & Hok & _)].
  - exists env; exact Hr.
  - assert (Hre : readable e).
    { destruct He as [[_ Ht] | Hin].
      - apply TypeError_readable, Ht.
      - apply (rejection_readable h new); [assumption | assumption | ].
        apply first_reason_In, Hin. }
    eexists. apply Hok; [apply Hre | apply Hre | ].
    destruct w; try reflexivity. cbn. rewrite Hargs; reflexivity.
Qed.

(** C2, as stated, fails on the form of the message: when the scheduler
    rejects with "no slot available", the message is "Failed to schedule
    code review: no slot available", which is not some action followed
    by " failed: " and the error text. *)
Lemma failure_message_form :
  exists env,
    fst (scheduleCodeReview reviewRequest userContext0 (VStr "req-1")
           (host_of no_slot 100) state0) = Ok env /\
    message env = "Failed to schedule code review: no slot available" /\
    ~ exists action, message env = action ++ " failed: " ++ "no slot available".
Proof.
  eexists. split; [vm_compute; reflexivity | ]. split; [reflexivity | ].
  intros [action H]. cbn [message] in H.
  pose proof (is_suffix_app action (" failed: " ++ "no slot available")) as Hs.
  rewrite <- H in Hs. vm_compute in Hs. discriminate Hs.
Qed.

(** C2, amended: whenever a connector call of a workflow is rejected, the
    reasons being [readable], the workflow returns the envelope with
    [success = false], no [details], the elapsed time, and the message
    "Failed to schedule code review: ", "Failed to create project: " or
    "Failed to initiate incident response: " followed by
    [String(e.message)], where [e] is the reason of the call that was
    rejected first ([first_reason]: of the two fetches of the code
    review, when both are rejected, the one rejected earlier, and the
    pull-request fetch when both are rejected at the same instant). *)
Theorem rejected_call_gives_failure_envelope w args uc rid h s new :
  readable_reasons h ->
  trace (snd (procedure w args uc rid h s)) = (trace s ++ new)%list ->
  rejections new <> [] ->
  exists e,
    first_reason new = Some e /\
    fst (procedure w args uc rid h s) =
      Ok {| success := false;
            message := failure_prefix w ++ to_string h (prop e "message");
            executionTime :=
              number_to_string (elapsed h s (snd (procedure w args uc rid h s))) ++ "ms";
            details := None |}.
Proof.
  intros Hread Htr Hrej.
  destruct (procedure_run w args uc rid h s) as (new' & _ & _ & Htr' & Hfh & Hout).
  rewrite Htr in Htr'. apply app_inv_head in Htr'. subst new'.
  destruct Hout as [(env & _ & _ & _ & _ & Hnone) | (e & He & Hok & _)];
    [contradiction | ].
  destruct He as [[Hnone _] | Hfirst]; [contradiction | ].
  exists e. split; [exact Hfirst | ].
  assert (Hre : readable e).
  { apply (rejection_readable h new); [assumption | assumption | ].
    apply first_reason_In, Hfirst. }
  apply Hok; [apply Hre | apply Hre | ].
  destruct w; try reflexivity. cbn. destruct (nullish args) eqn:Ha; [ | reflexivity].
  cbn [procedure] in Htr.
  rewrite (createProjectKickoff_without_request args uc rid h s Ha) in Htr.
  rewrite <- (app_nil_r (trace s)) in Htr at 1. apply app_inv_head in Htr.
  subst new. contradiction Hrej. reflexivity.
Qed.

Lemma rejected_call_gives_failure_envelope_witness :
  exists e,
    first_reason (trace (snd (procedure CodeReview reviewRequest userContext0
                                (VStr "req-1") (host_of no_slot 100) state0))) = Some e /\
    fst (procedure CodeReview reviewRequest userContext0 (VStr "req-1")
           (host_of no_slot 100) state0) =
      Ok {| success := false;
            message := failure_prefix CodeReview
                         ++ to_string (host_of no_slot 100) (prop e "message");
            executionTime :=
              number_to_string
                (elapsed (host_of no_slot 100) state0
                   (snd (procedure CodeReview reviewRequest userContext0
                           (VStr "req-1") (host_of no_slot 100) state0))) ++ "ms";
            details := None |}.
Proof.
  apply rejected_call_gives_failure_envelope.
  - intros tr c name a. cbv [host_of respond outcome no_slot obliging].
    destruct (name =? "findOptimalTime")%string; [split; reflexivity | exact I].
  - reflexivity.
  - vm_compute. discriminate.
Defined.

(** When both fetches of the code review are rejected, the envelope
    carries the reason of the one that is rejected earlier, here the
    linked-issue fetch, which is issued second. *)
Example earlier_rejection_is_reported :
  exists env,
    fst (scheduleCodeReview reviewRequest userContext0 (VStr "req-1") slow_pull_request
           state0) = Ok env
    /\ message env = "Failed to schedule code review: issue: not found"
    /\ rejections (trace (snd (scheduleCodeReview reviewRequest userContext0 (VStr "req-1")
                                 slow_pull_request state0)))
       = [Error "pull request: timeout"; Error "issue: not found"].
Proof. eexists. split; [vm_compute; reflexivity | split; reflexivity]. Qed.

(** C8, as stated, fails: the elapsed time is the difference of two
    readings of the system clock, and it is negative when the clock was
    set back in between.  Here it is set back by five seconds during a
    kickoff that takes 600 ms. *)
Lemma executionTime_can_be_negative :
  exists env,
    fst (createProjectKickoff (kickoffRequest "Apollo") userContext0 (VStr "req-1")
           (set_back (host_of obliging 100) 1000 5000) state0) = Ok env
    /\ success env = true
    /\ executionTime env = "-4400ms"
    /\ clock (snd (createProjectKickoff (kickoffRequest "Apollo") userContext0
                     (VStr "req-1") (set_back (host_of obliging 100) 1000 5000) state0))
       - clock state0 = 600.
Proof. eexists. split; [vm_compute; reflexivity | repeat split]. Qed.

(** C8, amended: the envelope a workflow returns, on the success path and
    on the failure path alike, carries the difference between what
    [Date.now()] reads at the return and what it read at the entry of the
    invocation ([startTime]), rendered as ["<n>ms"]; that difference is
    not negative when the system clock is never set back. *)
Theorem executionTime_is_elapsed_time w args uc rid h s env :
  fst (procedure w args uc rid h s) = Ok env ->
  executionTime env =
    number_to_string
      (wallclock h (clock (snd (procedure w args uc rid h s))) - wallclock h (clock s))
    ++ "ms"
  /\ (never_set_back h ->
      0 <= wallclock h (clock (snd (procedure w args uc rid h s))) - wallclock h (clock s)).
Proof.
  intro Hr.
  destruct (procedure_run w args uc rid h s) as (new & _ & Hclock & _ & _ & Hout).
  split; [ | intro Hmono; specialize (Hmono _ _ Hclock); lia].
  destruct Hout as [(env' & Hr' & _ & He & _) | (e & _ & Hok & Hthrow)].
  - rewrite Hr in Hr'. injection Hr' as ->. exact He.
  - destruct (nullish e) eqn:Hn.
    { destruct Hthrow as [x Hx]; [left; reflexivity | ]. congruence. }
    destruct (stringable (prop e "message")) eqn:Hst.
    2:{ destruct Hthrow as [x Hx]; [right; left; reflexivity | ]. congruence. }
    destruct (catch_guard w args) eqn:Hg.
    + rewrite (Hok eq_refl eq_refl eq_refl) in Hr. injection Hr as <-. reflexivity.
    + destruct Hthrow as [x Hx]; [right; right; reflexivity | ]. congruence.
Qed.

Lemma executionTime_is_elapsed_time_witness :
  executionTime
    {| success := false;
       message := "Failed to schedule code review: no slot available";
       executionTime := "200ms";
       details := None |} =
    number_to_string
      (wallclock (host_of no_slot 100)
         (clock (snd (procedure CodeReview reviewRequest userContext0 (VStr "req-1")
                        (host_of no_slot 100) state0)))
       - wallclock (host_of no_slot 100) (clock state0)) ++ "ms"
  /\ (never_set_back (host_of no_slot 100) ->
      0 <= wallclock (host_of no_slot 100)
             (clock (snd (procedure CodeReview reviewRequest userContext0 (VStr "req-1")
                            (host_of no_slot 100) state0)))
           - wallclock (host_of no_slot 100) (clock state0)).
Proof.
  apply executionTime_is_elapsed_time. vm_compute. reflexivity.
Defined.

(** The sample hosts have a clock that is never set back. *)
Example sample_clock_never_set_back answer lat : never_set_back (host_of answer lat).
Proof. intros t t' H. exact H. Qed.

(** [initialize] does change the orchestrator: it sets [isInitialized]. *)
Example initialize_sets_isInitialized :
  isInitialized (this (snd (initialize (host_of obliging 100) state0))) = true
  /\ isInitialized (this state0) = false.
Proof. split; reflexivity. Qed.

(** C10: no workflow invocation changes the orchestrator: on return,
    successful or not, [this] has the fields ([github], [slack], [notion],
    [calendar], [automation], [config], [isInitialized]) it had at entry;
    in particular nothing of [userContext] is stored in it. *)
Theorem workflow_leaves_orchestrator_unchanged w args uc rid h s :
  this (snd (procedure w args uc rid h s)) = this s.
Proof.
  destruct (procedure_run w args uc rid h s) as (new & Hthis & _).
  exact Hthis.
Qed.


(* ================================================================= *)
(** ** The attendee set (C3) *)

Lemma bind_ret_l {A B} (a : A) (f : A -> M B) : bind (ret a) f = f a.
Proof. reflexivity. Qed.

Lemma emails_run (rs : list value) h s :
  Forall (fun r => nullish r = false) rs ->
  sequence (map (fun r => get r "email") rs) h s
    = (Ok (map (fun r => prop r "email") rs), s).
Proof.
  induction 1 as [ | r rs Hr _ IH]; [reflexivity | ].
  cbn [map sequence]. rewrite (get_run r) by exact Hr. rewrite bind_ret_l.
  rewrite bind_run, IH. reflexivity.
Qed.

(** C3: the attendees of [scheduleCodeReview] (lines 63-67) are the
    [email] of each requested reviewer in order, then the author's
    [email], then the additional attendees of the request in order (none
    when the request has no such field), with every falsy entry dropped.
    The witness is the spec's example: reviewers a@x.com and [undefined],
    author b@x.com, extras c@x.com give a@x.com, b@x.com, c@x.com. *)
Theorem attendeeSet_reviewers_author_extras args pr h s rs extras :
  nullish args = false ->
  prop pr "requestedReviewers" = VArr rs ->
  Forall (fun r => nullish r = false) rs ->
  nullish (prop pr "author") = false ->
  or_else (prop args "additional_attendees") (VArr []) = VArr extras ->
  attendeeSet args pr h s =
    (Ok (VArr (filter truthy
                 (map (fun r => prop r "email") rs
                  ++ [prop (prop pr "author") "email"]
                  ++ extras))), s).
Proof.
  intros Hargs Hrs Hobj Hauthor Hextras.
  assert (Hpr : nullish pr = false).
  { destruct pr; try reflexivity; discriminate Hrs. }
  unfold attendeeSet, arr, spread, item, member, orE, Array_map.
  rewrite !(get_run pr) by exact Hpr. rewrite (get_run args) by exact Hargs.
  rewrite !bind_ret_l, Hrs. rewrite (get_run _ "email") by exact Hauthor.
  rewrite bind_ret_l. unfold method. cbn [nullish sequence].
  rewrite !bind_run, (emails_run rs h s Hobj). cbn [ret].
  replace (if truthy (prop args "additional_attendees")
           then ret (prop args "additional_attendees") else ret (VArr []))
    with (@ret value (VArr extras)).
  2:{ rewrite <- Hextras. unfold or_else.
      destruct (truthy (prop args "additional_attendees")); reflexivity. }
  cbn [ret bind List.concat]. unfold Array_filter_Boolean, method. cbn [nullish].
  rewrite app_nil_r. reflexivity.
Qed.

Lemma attendeeSet_reviewers_author_extras_witness :
  attendeeSet
    (VObj [("additional_attendees", VArr [VStr "c@x.com"])])
    (VObj [("requestedReviewers",
            VArr [VObj [("email", VStr "a@x.com")]; VObj [("email", VUndef)]]);
           ("author", VObj [("email", VStr "b@x.com")])])
    (host_of obliging 100) state0
  = (Ok (VArr [VStr "a@x.com"; VStr "b@x.com"; VStr "c@x.com"]), state0).
Proof.
  apply (attendeeSet_reviewers_author_extras
           (VObj [("additional_attendees", VArr [VStr "c@x.com"])])
           (VObj [("requestedReviewers",
                   VArr [VObj [("email", VStr "a@x.com")]; VObj [("email", VUndef)]]);
                  ("author", VObj [("email", VStr "b@x.com")])])
           (host_of obliging 100) state0
           [VObj [("email", VStr "a@x.com")]; VObj [("email", VUndef)]]
           [VStr "c@x.com"]).
  - reflexivity.
  - reflexivity.
  - repeat constructor.
  - reflexivity.
  - reflexivity.
Defined.

(** The attendees are what the scheduler, the meeting and the document
    receive: in a run of the workflow on the spec's example, the three
    calls carry the same three addresses. *)
Example scheduleCodeReview_passes_attendees :
  let tr := trace (snd (scheduleCodeReview reviewRequest userContext0 (VStr "req-1")
                          (host_of obliging 100) state0)) in
  let attendees := VArr [VStr "a@x.com"; VStr "b@x.com"; VStr "c@x.com"] in
  (exists t r rest, nth_error tr 3
     = Some (Call t CalendarConnector "findOptimalTime" (attendees :: rest) r)) /\
  (exists t r spec rest, nth_error tr 5
     = Some (Call t CalendarConnector "createMeeting" (spec :: rest) r)
     /\ prop spec "attendees" = attendees).
Proof.
  cbv zeta. split.
  - do 3 eexists. vm_compute. reflexivity.
  - do 4 eexists. split; vm_compute; reflexivity.
Qed.


(* ================================================================= *)
(** ** Channel and repository names (C4, C5) *)

Lemma String_map_app f a b : String_map f (a ++ b) = String_map f a ++ String_map f b.
Proof. induction a as [ | c a IH]; cbn; [reflexivity | rewrite IH; reflexivity]. Qed.

Lemma String_map_length f s : String.length (String_map f s) = String.length s.
Proof. induction s as [ | c s IH]; cbn; [reflexivity | rewrite IH; reflexivity]. Qed.

Lemma String_map_fixed p f s :
  (forall c, p c = true -> f c = c) -> String_forall p s = true -> String_map f s = s.
Proof.
  intro Hf. induction s as [ | c s IH]; cbn; [reflexivity | ].
  intro H. apply andb_true_iff in H as [Hc Hs]. rewrite (Hf c Hc), (IH Hs). reflexivity.
Qed.

Lemma String_forall_app p a b :
  String_forall p (a ++ b) = String_forall p a && String_forall p b.
Proof.
  induction a as [ | c a IH]; cbn; [reflexivity | ].
  rewrite IH. apply andb_assoc.
Qed.

Lemma String_forall_take p n s :
  String_forall p s = true -> String_forall p (String_take n s) = true.
Proof.
  unfold String_take. revert n. induction s as [ | c s IH]; intros [ | n] H;
    cbn in *; try reflexivity.
  apply andb_true_iff in H as [Hc Hs]. rewrite Hc. apply IH, Hs.
Qed.

Lemma String_take_length n s : (String.length (String_take n s) <= n)%nat.
Proof.
  unfold String_take. revert n. induction s as [ | c s IH]; intros [ | n]; cbn;
    try lia.
  specialize (IH n). lia.
Qed.

Lemma replace_non_slug_pattern s : String_forall slug_char (replace_non_slug s) = true.
Proof.
  unfold replace_non_slug. induction s as [ | c s IH]; cbn; [reflexivity | ].
  rewrite IH. destruct (slug_char c) eqn:Hc; [rewrite Hc | ]; reflexivity.
Qed.

Lemma replace_non_slug_length s : String.length (replace_non_slug s) = String.length s.
Proof. apply String_map_length. Qed.

Lemma digit_or_dash_plain c :
  digit_or_dash c = true -> lower_char c = c /\ slug_char c = true.
Proof.
  destruct c as [[ | ] [ | ] [ | ] [ | ] [ | ] [ | ] [ | ] [ | ]];
    intro H; try discriminate H; split; reflexivity.
Qed.

Lemma string_of_uint_digits d :
  String_forall digit_or_dash (NilEmpty.string_of_uint d) = true.
Proof. induction d; cbn; try reflexivity; exact IHd. Qed.

Lemma string_of_uint_nil_zero_digits d :
  String_forall digit_or_dash (NilZero.string_of_uint d) = true.
Proof. destruct d; try reflexivity; apply (string_of_uint_digits (_ d)). Qed.

Lemma number_to_string_digits n : String_forall digit_or_dash (number_to_string n) = true.
Proof.
  unfold number_to_string, NilZero.string_of_int.
  destruct (Z.to_int n) as [d | d]; [ | cbn [String_forall]; cbn [andb digit_or_dash]];
    apply string_of_uint_nil_zero_digits.
Qed.

Lemma slug_app a b :
  replace_non_slug (String_toLowerCase (a ++ b))
    = replace_non_slug (String_toLowerCase a) ++ replace_non_slug (String_toLowerCase b).
Proof. unfold replace_non_slug, String_toLowerCase. rewrite !String_map_app. reflexivity. Qed.

(** A rendered integer is left as it is by lowercasing and by the
    replacement. *)
Lemma slug_number n :
  replace_non_slug (String_toLowerCase (number_to_string n)) = number_to_string n.
Proof.
  unfold replace_non_slug, String_toLowerCase.
  rewrite (String_map_fixed digit_or_dash lower_char (number_to_string n));
    [ | intros c Hc; apply digit_or_dash_plain, Hc | apply number_to_string_digits].
  apply (String_map_fixed digit_or_dash); [ | apply number_to_string_digits].
  intros c Hc. destruct (digit_or_dash_plain c Hc) as [_ ->]. reflexivity.
Qed.

Lemma reviewChannelName_run args pr h s n t :
  prop args "pr_number" = VNum n ->
  prop pr "title" = VStr t ->
  reviewChannelName args pr h s =
    (Ok (VStr (String_take 80 ("pr-" ++ number_to_string n ++ "-"
                                 ++ replace_non_slug (String_toLowerCase t)))), s).
Proof.
  intros Hn Ht.
  assert (Hargs : nullish args = false) by (destruct args; try reflexivity; discriminate Hn).
  assert (Hpr : nullish pr = false) by (destruct pr; try reflexivity; discriminate Ht).
  unfold reviewChannelName, tpl, sub, lit, toLowerCase, replace, substring0.
  rewrite (get_run args) by exact Hargs. rewrite (get_run pr) by exact Hpr.
  rewrite Hn, Ht. reflexivity.
Qed.

(** C4: the name of the review channel (line 84) is a function of the PR
    number and the title alone, the same on every host and at every time:
    it is [pr-<number>-<title>] lowercased, with every character outside
    [[a-z0-9-]] replaced by ['-'], cut to 80 characters; it matches
    [^[a-z0-9-]+$] and has at most 80 characters.  The PR number is an
    integer that [String] renders in decimal. *)
Theorem reviewChannelName_is_slug args pr h s n t :
  prop args "pr_number" = VNum n ->
  prop pr "title" = VStr t ->
  Z.abs n < 10 ^ 21 ->
  reviewChannelName args pr h s
    = (Ok (VStr (slugify ("pr-" ++ number_to_string n ++ "-" ++ t))), s)
  /\ matches_slug_pattern (slugify ("pr-" ++ number_to_string n ++ "-" ++ t)) = true
  /\ (String.length (slugify ("pr-" ++ number_to_string n ++ "-" ++ t)) <= 80)%nat.
Proof.
  intros Hn Ht _.
  assert (Hslug : slugify ("pr-" ++ number_to_string n ++ "-" ++ t)
                  = String_take 80 ("pr-" ++ number_to_string n ++ "-"
                                      ++ replace_non_slug (String_toLowerCase t))).
  { unfold slugify. f_equal.
    rewrite (slug_app "pr-"), (slug_app (number_to_string n)), (slug_app "-").
    rewrite slug_number. reflexivity. }
  split; [rewrite Hslug; apply reviewChannelName_run; assumption | ].
  split; [ | apply String_take_length].
  unfold matches_slug_pattern. apply andb_true_iff. split.
  - rewrite Hslug. reflexivity.
  - unfold slugify. apply String_forall_take, replace_non_slug_pattern.
Qed.

Lemma reviewChannelName_is_slug_witness :
  reviewChannelName reviewRequest samplePullRequest (host_of obliging 100) state0
    = (Ok (VStr (slugify ("pr-" ++ number_to_string 42 ++ "-" ++ "Fix: Parser BUG #12"))),
       state0)
  /\ matches_slug_pattern
       (slugify ("pr-" ++ number_to_string 42 ++ "-" ++ "Fix: Parser BUG #12")) = true
  /\ (String.length
        (slugify ("pr-" ++ number_to_string 42 ++ "-" ++ "Fix: Parser BUG #12")) <= 80)%nat.
Proof.
  apply reviewChannelName_is_slug; [reflexivity | reflexivity | reflexivity].
Defined.

Example reviewChannelName_sample :
  fst (reviewChannelName reviewRequest samplePullRequest (host_of obliging 100) state0)
    = Ok (VStr "pr-42-fix--parser-bug--12").
Proof. reflexivity. Qed.

(** C5, as stated, fails: the repository name is not truncated.  For a
    project named with 81 letters [a], [createProjectKickoff] asks for a
    repository whose name has all 81, where the slug rule of the review
    channel would keep 80. *)
Lemma repository_name_is_not_truncated :
  exists t spec rest r,
    nth_error (trace (snd (createProjectKickoff (kickoffRequest (String_repeat "a" 81))
                             userContext0 (VStr "req-1") (host_of obliging 100) state0)))
              2
      = Some (Call t GitHubConnector "createRepository" (spec :: rest) r)
    /\ prop spec "name" = VStr (String_repeat "a" 81)
    /\ String.length (String_repeat "a" 81) = 81%nat
    /\ slugify (String_repeat "a" 81) = String_repeat "a" 80.
Proof.
  do 4 eexists. split; [vm_compute; reflexivity | ].
  split; [reflexivity | ]. split; reflexivity.
Qed.

(** C5, amended: the repository name of [createProjectKickoff] (line 310)
    is the project name lowercased, with every character outside
    [[a-z0-9-]] replaced by ['-'], and not truncated: each character of
    the lowercased project name gives one character of the repository
    name. *)
Theorem repoName_is_untruncated_slug args h s p :
  prop args "project_name" = VStr p ->
  repoName args h s = (Ok (VStr (replace_non_slug (String_toLowerCase p))), s)
  /\ String_forall slug_char (replace_non_slug (String_toLowerCase p)) = true
  /\ String.length (replace_non_slug (String_toLowerCase p))
     = String.length (String_toLowerCase p).
Proof.
  intro Hp.
  assert (Hargs : nullish args = false) by (destruct args; try reflexivity; discriminate Hp).
  split; [ | split].
  - unfold repoName, toLowerCase, replace.
    rewrite (get_run args) by exact Hargs. rewrite Hp. reflexivity.
  - apply replace_non_slug_pattern.
  - apply replace_non_slug_length.
Qed.

Lemma repoName_is_untruncated_slug_witness :
  repoName (kickoffRequest "Apollo Program") (host_of obliging 100) state0
    = (Ok (VStr (replace_non_slug (String_toLowerCase "Apollo Program"))), state0)
  /\ String_forall slug_char (replace_non_slug (String_toLowerCase "Apollo Program")) = true
  /\ String.length (replace_non_slug (String_toLowerCase "Apollo Program"))
     = String.length (String_toLowerCase "Apollo Program").
Proof. apply repoName_is_untruncated_slug. reflexivity. Defined.

Example repoName_sample :
  fst (repoName (kickoffRequest "Apollo Program") (host_of obliging 100) state0)
    = Ok (VStr "apollo-program").
Proof. reflexivity. Qed.


(* ================================================================= *)
(** ** The incident workflow and its escalation (C6) *)

Lemma call_inv target name args h s v s' :
  Forall pure args ->
  call target name args h s = (Ok v, s') ->
  exists a,
    sequence args h s = (Ok a, s) /\
    outcome (respond h (trace s) (target (this s)) name a) = Fulfilled v /\
    this s' = this s /\ clock s <= clock s' /\
    trace s' = (trace s ++ [issue h s (target (this s)) name a])%list.
Proof.
  intros Hp H.
  destruct (sequence_pure_run args h s Hp) as [[a Ha] | (e & He & _)].
  - rewrite (call_Ok _ _ _ _ _ _ Ha) in H. cbv zeta in H. unfold settle in H.
    exists a. split; [exact Ha | ].
    destruct (outcome (respond h (trace s) (target (this s)) name a));
      [ | discriminate H].
    injection H as <- <-. cbn [this clock trace]. repeat split. lia.
  - rewrite (call_Throw _ _ _ _ _ _ _ He) in H. discriminate H.
Qed.

(** A field of an object literal holds what its expression evaluates to. *)
Lemma obj_field fields h s v s' k m :
  Forall (fun kv => pure (snd kv)) fields ->
  obj fields h s = (Ok v, s') ->
  field k fields = Some m ->
  exists x, m h s = (Ok x, s) /\ prop v k = x.
Proof.
  intros Hp H Hk. apply bind_Ok in H as (l & s1 & Hl & H).
  injection H as <- <-. cbn [prop].
  revert l s1 Hl. induction Hp as [ | [k' m'] fs Hm _ IH]; intros l s1 Hl;
    [discriminate Hk | ].
  cbn [map sequence fst snd] in Hl. cbn [field] in Hk.
  apply bind_Ok in Hl as (kv & s2 & Hkv & Hl).
  apply bind_Ok in Hkv as (x & s3 & Hx & Hkv). injection Hkv as <- <-.
  pose proof (pure_state _ _ _ _ _ Hm Hx); subst s3.
  apply bind_Ok in Hl as (r & s4 & Hr & Hl). injection Hl as <- <-.
  cbn [assoc]. destruct (k =? k')%string.
  - injection Hk as <-. exists x. split; [exact Hx | reflexivity].
  - apply (IH Hk r s4 Hr).
Qed.

Lemma methods_app a b : methods (a ++ b) = (methods a ++ methods b)%list.
Proof. apply flat_map_app. Qed.

Lemma calls_to_app name a b :
  calls_to name (a ++ b) = (calls_to name a ++ calls_to name b)%list.
Proof. apply flat_map_app. Qed.

Lemma strict_eq_spec v l : strict_eq v l = true <-> v = VStr l.
Proof.
  destruct v; cbn; try (split; [discriminate | discriminate]).
  rewrite String.eqb_eq. split; [intros -> | intros [= ->]]; reflexivity.
Qed.

(** [args.severity] is "high" or "critical", and nothing else. *)
Lemma severe_spec args :
  severe args = true <->
  prop args "severity" = VStr "high" \/ prop args "severity" = VStr "critical".
Proof. unfold severe. rewrite orb_true_iff, !strict_eq_spec. reflexivity. Qed.

Ltac call_step H v s1 a Hseq Hout Htr :=
  let Hc := fresh "Hc" in
  let Hthis := fresh "Hthis" in
  let Hclock := fresh "Hclock" in
  apply bind_Ok in H; destruct H as (v & s1 & Hc & H);
  apply call_inv in Hc; [ | purity];
  destruct Hc as (a & Hseq & Hout & Hthis & Hclock & Htr).

Lemma sequence_cons_inv {A} (m : M A) ms h s a s' :
  sequence (m :: ms) h s = (Ok a, s') ->
  exists x s1 r, m h s = (Ok x, s1) /\ sequence ms h s1 = (Ok r, s') /\ a = x :: r.
Proof.
  cbn [sequence]. intro H.
  apply bind_Ok in H as (x & s1 & Hx & H). apply bind_Ok in H as (r & s2 & Hr & H).
  injection H as <- <-. exists x, s1, r. repeat split; assumption.
Qed.

Ltac read_field H k x Hx Hk :=
  match type of H with
  | obj ?fs ?h ?s = _ =>
      let Hp := fresh "Hp" in
      assert (Hp : Forall (fun kv => pure (snd kv)) fs) by purity;
      destruct (obj_field fs h s _ _ k _ Hp H eq_refl) as (x & Hx & Hk); clear Hp
  end.

Lemma escalate_inv args uc rid doc iss channel h s u s' :
  nullish args = false ->
  escalate args uc rid doc iss channel h s = (Ok u, s') ->
  exists c1 spec rest1 r1 t2 c2 target msg rest2 r2 link,
    trace s' = (trace s ++ [Call (clock s) c1 "createMeeting" (spec :: rest1) r1;
                            Call t2 c2 "sendMessage" (target :: msg :: rest2) r2])%list
    /\ prop spec "startTime" = VDate (wallclock h (clock s))
    /\ prop spec "endTime" = VDate (wallclock h (clock s) + 30 * 60 * 1000)
    /\ prop spec "attendees" = prop args "responders"
    /\ prop msg "text"
       = VStr ("🚪 *Emergency Response Meeting*" ++ nl ++ nl ++ "Join now: " ++ link).
Proof.
  intros Hargs H. unfold escalate in H.
  call_step H meeting s1 a1 Hseq1 Hout1 Htr1.
  call_step H ack s2 a2 Hseq2 Hout2 Htr2.
  injection H as _ <-.
  apply sequence_cons_inv in Hseq1 as (spec & sa & rest1 & Hspec & _ & ->).
  apply sequence_cons_inv in Hseq2 as (target & sb & rest & Htarget & Hseq2 & ->).
  apply pure_state in Htarget; [subst sb | purity].
  apply sequence_cons_inv in Hseq2 as (msg & sc & rest2 & Hmsg & _ & ->).
  read_field Hspec "startTime" x1 Hx1 Hstart.
  read_field Hspec "endTime" x2 Hx2 Hend.
  read_field Hspec "attendees" x3 Hx3 Hatt.
  read_field Hmsg "text" x4 Hx4 Htext.
  injection Hx1 as <-. injection Hx2 as <-.
  rewrite (get_run args) in Hx3 by exact Hargs. injection Hx3 as <-.
  apply bind_Ok in Hx4 as (l & sd & Hl & Hx4). injection Hx4 as <- _.
  apply sequence_cons_inv in Hl as (p1 & se & l1 & Hp1 & Hl & ->).
  apply sequence_cons_inv in Hl as (p2 & sf & l2 & Hp2 & Hl & ->).
  apply sequence_cons_inv in Hl as (link & sg & l3 & _ & Hl & ->).
  injection Hp1 as <- _. injection Hp2 as <- _. injection Hl as <- _.
  do 10 eexists. exists link.
  split; [rewrite Htr2, Htr1, <- app_assoc; reflexivity | ].
  repeat split; assumption.
Qed.


Lemma count_occ_methods name tr :
  List.length (calls_to name tr) = count_occ string_dec (methods tr) name.
Proof.
  induction tr as [ | ev tr IH]; [reflexivity | ].
  change (calls_to name (ev :: tr)) with (call_to name ev ++ calls_to name tr)%list.
  change (methods (ev :: tr)) with (method_of ev ++ methods tr)%list.
  rewrite length_app, count_occ_app, IH. f_equal.
  destruct ev as [t c n a r | ]; [ | reflexivity]. cbn [call_to method_of count_occ].
  destruct (string_dec n name) as [-> | Hn].
  - rewrite String.eqb_refl. reflexivity.
  - destruct (String.eqb_spec name n) as [-> | _]; [contradiction Hn | ]; reflexivity.
Qed.

Lemma severity_run args h s sev s' :
  nullish args = false ->
  orB (v <- get args "severity" ;; ret (strict_eq v "high"))
      (v <- get args "severity" ;; ret (strict_eq v "critical")) h s = (Ok sev, s') ->
  sev = severe args /\ s' = s.
Proof.
  intros Hargs H. rewrite !(get_run args) in H by exact Hargs.
  cbv [orB bind ret] in H. unfold severe.
  destruct (strict_eq (prop args "severity") "high"); injection H as <- <-;
    split; reflexivity.
Qed.

(** The successful runs of the incident workflow, event by event. *)
Lemma handleIncidentResponse_trace args uc rid h s env s' :
  handleIncidentResponse args uc rid h s = (Ok env, s') ->
  success env = true ->
  exists m0 t1 c1 a1 r1 t2 c2 a2 r2 t3 c3 a3 r3 t4 c4 target alert rest r4 esc m1,
    trace s' =
      (trace s
       ++ [Log "info" "Starting incident response workflow" m0;
           Call t1 c1 "createDocument" a1 r1;
           Call t2 c2 "createIssue" a2 r2;
           Call t3 c3 "createReviewChannel" a3 r3;
           Call t4 c4 "sendMessage" (target :: alert :: rest) r4]
       ++ esc
       ++ [Log "info" "Incident response workflow completed" m1])%list
    /\ (severe args = false -> esc = [])
    /\ (severe args = true ->
        exists t5 c5 spec rest5 r5 t6 c6 target6 msg rest6 r6 link,
          esc = [Call t5 c5 "createMeeting" (spec :: rest5) r5;
                 Call t6 c6 "sendMessage" (target6 :: msg :: rest6) r6]
          /\ prop spec "startTime" = VDate (wallclock h t5)
          /\ prop spec "endTime" = VDate (wallclock h t5 + 30 * 60 * 1000)
          /\ prop spec "attendees" = prop args "responders"
          /\ prop msg "text"
             = VStr ("🚪 *Emergency Response Meeting*" ++ nl ++ nl ++ "Join now: "
                       ++ link)).
Proof.
  intros H Hs. unfold handleIncidentResponse in H. rewrite bind_run in H.
  change (Date_now h s) with (Ok (VNum (wallclock h (clock s))), s) in H. cbv beta iota in H.
  apply try_catch_run in H as [(env' & Hb & Henv) | (e & s1 & Hb & Hh)].
  2:{ clear Hb. catch_fails Hh Hs. }
  clear Henv.
  apply bind_Ok in Hb as (u & s0 & Hlog & Hb).
  apply logger_Ok in Hlog as (_ & _ & m0 & Hm0 & Htr0); [ | purity].
  assert (Hargs : nullish args = false).
  { destruct (nullish args) eqn:Hn; [ | reflexivity]. exfalso.
    rewrite !(get_throw args) in Hm0 by exact Hn.
    cbv [obj bind throw ret sequence map fst snd] in Hm0. discriminate Hm0. }
  call_step Hb doc s1 a1 Hseq1 Hout1 Htr1.
  pure_step Hb.
  call_step Hb iss s2 a2 Hseq2 Hout2 Htr2.
  pure_step Hb.
  call_step Hb channel s3 a3 Hseq3 Hout3 Htr3.
  call_step Hb ack s4 a4 Hseq4 Hout4 Htr4.
  apply sequence_cons_inv in Hseq4 as (target & sa & rest & Htarget & Hseq4 & ->).
  apply sequence_cons_inv in Hseq4 as (alert & sb & rest4 & _ & _ & ->).
  apply bind_Ok in Hb as (sev & s5 & Hsev & Hb).
  apply severity_run in Hsev as [-> ->]; [ | exact Hargs].
  apply bind_Ok in Hb as (u' & s6 & Hesc & Hb).
  apply bind_Ok in Hb as (x & sx & Hx & Hb).
  cbv [bind Date_now ret minus] in Hx. injection Hx as _ <-.
  apply bind_Ok in Hb as (u'' & s7 & Hlog & Hb).
  apply logger_Ok in Hlog as (_ & _ & m1 & _ & Htr7); [ | purity].
  pure_step Hb. pure_step Hb. pure_step Hb. injection Hb as _ <-.
  unfold issue in *.
  destruct (severe args) eqn:Hsevere.
  - apply escalate_inv in Hesc
      as (c5 & spec & rest5 & r5 & t6 & c6 & target6 & msg & rest6 & r6 & link
          & Htr6 & Hstart & Hend & Hatt & Htext); [ | exact Hargs].
    do 19 eexists. eexists [_; _]. exists m1. split.
    + rewrite Htr7, Htr6, Htr4, Htr3, Htr2, Htr1, Htr0.
      rewrite <- !app_assoc. cbn [app]. reflexivity.
    + split; [discriminate | intros _].
      do 12 eexists. repeat split; eassumption.
  - injection Hesc as _ <-.
    do 19 eexists. exists [], m1. split.
    + rewrite Htr7, Htr4, Htr3, Htr2, Htr1, Htr0.
      rewrite <- !app_assoc. cbn [app]. reflexivity.
    + split; [reflexivity | discriminate].
Qed.


(** C6: in a successful run of [handleIncidentResponse], the escalation
    is done exactly when [args.severity] is the string "high" or the
    string "critical".  Then one meeting is created (it starts at the
    time the system clock reads when the call is issued, ends 30 minutes
    later, and its attendees are the responders) and one more message,
    "Join now: ...", is sent.
    For every other severity nothing of this happens: the run creates one
    channel, sends one message, the alert, and creates no meeting. *)
Theorem escalation_exactly_when_severe args uc rid h s env new :
  fst (handleIncidentResponse args uc rid h s) = Ok env ->
  success env = true ->
  trace (snd (handleIncidentResponse args uc rid h s)) = (trace s ++ new)%list ->
  (severe args = true <->
   prop args "severity" = VStr "high" \/ prop args "severity" = VStr "critical")
  /\ methods new
     = (["createDocument"; "createIssue"; "createReviewChannel"; "sendMessage"]
        ++ (if severe args then ["createMeeting"; "sendMessage"] else []))%list
  /\ List.length (calls_to "createReviewChannel" new) = 1%nat
  /\ List.length (calls_to "createMeeting" new) = (if severe args then 1 else 0)%nat
  /\ List.length (calls_to "sendMessage" new) = (if severe args then 2 else 1)%nat
  /\ Forall (fun ta =>
               exists spec,
                 nth_error (snd ta) 0 = Some spec
                 /\ prop spec "startTime" = VDate (wallclock h (fst ta))
                 /\ prop spec "endTime" = VDate (wallclock h (fst ta) + 30 * 60 * 1000)
                 /\ prop spec "attendees" = prop args "responders")
            (calls_to "createMeeting" new)
  /\ exists alert link,
       notifications new
       = alert :: (if severe args
                   then [VStr ("🚪 *Emergency Response Meeting*" ++ nl ++ nl
                                 ++ "Join now: " ++ link)]
                   else []).
Proof.
  intros Hrun Hsuccess Htrace.
  destruct (handleIncidentResponse args uc rid h s) as [r s'] eqn:E.
  cbn [fst snd] in *. subst r.
  destruct (handleIncidentResponse_trace _ _ _ _ _ _ _ E Hsuccess)
    as (m0 & t1 & c1 & a1 & r1 & t2 & c2 & a2 & r2 & t3 & c3 & a3 & r3 & t4 & c4
        & target & alert & rest & r4 & esc & m1 & Htr & Hcalm & Hsevere).
  rewrite Htrace in Htr. apply app_inv_head in Htr. subst new.
  split; [apply severe_spec | ].
  destruct (severe args).
  - destruct (Hsevere eq_refl)
      as (t5 & c5 & spec & rest5 & r5 & t6 & c6 & target6 & msg & rest6 & r6 & link
          & -> & Hstart & Hend & Hatt & Htext).
    repeat split; try reflexivity.
    + repeat constructor. exists spec. cbn [fst snd nth_error]. repeat split; assumption.
    + exists (prop alert "text"), link. cbn. rewrite Htext. reflexivity.
  - rewrite (Hcalm eq_refl).
    repeat split; try reflexivity.
    + constructor.
    + exists (prop alert "text"), "". reflexivity.
Qed.

Lemma escalation_exactly_when_severe_witness :
  let run := handleIncidentResponse (incidentRequest "critical") userContext0
               (VStr "req-1") (host_of obliging 100) state0 in
  let new := trace (snd run) in
  (severe (incidentRequest "critical") = true <->
   prop (incidentRequest "critical") "severity" = VStr "high"
   \/ prop (incidentRequest "critical") "severity" = VStr "critical")
  /\ methods new
     = (["createDocument"; "createIssue"; "createReviewChannel"; "sendMessage"]
        ++ (if severe (incidentRequest "critical")
            then ["createMeeting"; "sendMessage"] else []))%list
  /\ List.length (calls_to "createReviewChannel" new) = 1%nat
  /\ List.length (calls_to "createMeeting" new)
     = (if severe (incidentRequest "critical") then 1 else 0)%nat
  /\ List.length (calls_to "sendMessage" new)
     = (if severe (incidentRequest "critical") then 2 else 1)%nat
  /\ Forall (fun ta =>
               exists spec,
                 nth_error (snd ta) 0 = Some spec
                 /\ prop spec "startTime" = VDate (wallclock (host_of obliging 100) (fst ta))
                 /\ prop spec "endTime"
                    = VDate (wallclock (host_of obliging 100) (fst ta) + 30 * 60 * 1000)
                 /\ prop spec "attendees" = prop (incidentRequest "critical") "responders")
            (calls_to "createMeeting" new)
  /\ exists alert link,
       notifications new
       = alert :: (if severe (incidentRequest "critical")
                   then [VStr ("🚪 *Emergency Response Meeting*" ++ nl ++ nl
                                 ++ "Join now: " ++ link)]
                   else []).
Proof.
  cbv zeta.
  eapply (escalation_exactly_when_severe (incidentRequest "critical") userContext0
            (VStr "req-1") (host_of obliging 100) state0).
  - vm_compute. reflexivity.
  - reflexivity.
  - vm_compute. reflexivity.
Defined.

(** The two runs of the spec: severity "low" and severity "critical". *)
Example incident_low_and_critical :
  let calls severity :=
    methods (trace (snd (handleIncidentResponse (incidentRequest severity) userContext0
                           (VStr "req-1") (host_of obliging 100) state0))) in
  calls "low" = ["createDocument"; "createIssue"; "createReviewChannel"; "sendMessage"]
  /\ calls "critical"
     = ["createDocument"; "createIssue"; "createReviewChannel"; "sendMessage";
        "createMeeting"; "sendMessage"]
  /\ calls "CRITICAL" = calls "low".
Proof. cbv zeta. repeat split; vm_compute; reflexivity. Qed.


(* ================================================================= *)
(** ** The two fetches of the code review (C9) *)

Lemma logger_run level text meta h s m :
  meta h s = (Ok m, s) ->
  logger level text meta h s = (Ok tt, with_trace s (trace s ++ [Log level text m])).
Proof. intro H. unfold logger, bind. rewrite H. reflexivity. Qed.

(** After an expression, the first event of a step that starts with a
    call is that call, issued at the instant the step starts. *)
Lemma call_comes_first {X A} (e : M X) target name (args : X -> list (M value))
      (k : X -> value -> M A) h s :
  pure e -> (forall x, Forall pure (args x)) -> (forall x v, contained (k x v)) ->
  exists rest,
    trace (snd (bind e (fun x => bind (call target name (args x)) (k x)) h s))
      = (trace s ++ rest)%list
    /\ match rest with
       | [] => True
       | Call t _ n _ _ :: _ => t = clock s /\ n = name
       | Log _ _ _ :: _ => False
       end.
Proof.
  intros He Hargs Hk. rewrite bind_run.
  destruct (He h s) as [Hs _].
  destruct (e h s) as [[x | err] s1]; cbn [fst snd] in *; subst s1;
    [ | exists []; split; [symmetry; apply app_nil_r | exact I]].
  rewrite bind_run.
  destruct (sequence_pure_run (args x) h s (Hargs x)) as [[a Ha] | (err & Herr & _)].
  - rewrite (call_Ok _ _ _ _ _ _ Ha). cbv zeta. unfold settle.
    destruct (outcome (respond h (trace s) (target (this s)) name a)) as [v | err].
    + match goal with |- context [k x v h ?s1] =>
        destruct (Hk x v h s1) as (new & _ & _ & Htr & _)
      end.
      cbn [trace] in Htr.
      exists (issue h s (target (this s)) name a :: new). split.
      * rewrite Htr, <- app_assoc. reflexivity.
      * split; reflexivity.
    + exists [issue h s (target (this s)) name a]. split; [reflexivity | ].
      split; reflexivity.
  - rewrite (call_Throw _ _ _ _ _ _ _ Herr).
    exists []; split; [symmetry; apply app_nil_r | exact I].
Qed.


Lemma quiet_pure {A} (m : M A) : pure m -> quiet m.
Proof.
  intros Hp h s. destruct (Hp h s) as [-> _]. exists [].
  repeat split. symmetry; apply app_nil_r.
Qed.

Lemma quiet_bind {A B} (m : M A) (f : A -> M B) :
  quiet m -> (forall a, quiet (f a)) -> quiet (bind m f).
Proof.
  intros Hm Hf h s. rewrite bind_run.
  destruct (Hm h s) as (l1 & Ht1 & Hm1 & Hc1).
  destruct (m h s) as [[a | e] s1]; cbn [fst snd] in *.
  - destruct (Hf a h s1) as (l2 & Ht2 & Hm2 & Hc2).
    exists (l1 ++ l2)%list. repeat split.
    + rewrite Ht2, Ht1. symmetry; apply app_assoc.
    + rewrite methods_app, Hm1, Hm2. reflexivity.
    + congruence.
  - exists l1. repeat split; assumption.
Qed.

Lemma quiet_logger level text meta : pure meta -> quiet (logger level text meta).
Proof.
  intros Hp h s. unfold logger. rewrite bind_run.
  destruct (Hp h s) as [Hs _].
  destruct (meta h s) as [[m | e] s1]; cbn [fst snd] in *; subst s1.
  - exists [Log level text m]. repeat split.
  - exists []. repeat split. symmetry; apply app_nil_r.
Qed.

Ltac quietness :=
  lazymatch goal with
  | |- quiet (bind (logger _ _ _) _) =>
      apply quiet_bind; [apply quiet_logger; purity | intro; quietness]
  | |- quiet (bind _ _) => apply quiet_bind; [quietness | intro; quietness]
  | |- quiet _ => apply quiet_pure; purity
  end.

Lemma leb_add_l t a b : (t + a <=? t + b) = (a <=? b).
Proof. apply eq_true_iff_eq. rewrite !Z.leb_le. lia. Qed.

(** Lines 39-60: the start of the code review, up to the join of the two
    fetches, followed by any continuation [k]. *)
Lemma scheduleCodeReview_fetches {A} args uc rid (k : value -> M A) h s :
  nullish args = false -> nullish uc = false ->
  let m0 := VObj [("requestId", rid); ("repository", prop args "repository");
                  ("prNumber", prop args "pr_number");
                  ("issueNumber", prop args "issue_number")] in
  let start := Log "info" "Starting code review workflow" m0 in
  let c := github (this s) in
  let a1 := [prop args "repository"; prop args "pr_number"; prop uc "githubToken"; rid] in
  let a2 := [prop args "repository"; prop args "issue_number"; prop uc "githubToken"; rid] in
  let r1 := respond h (trace s ++ [start]) c "getPullRequest" a1 in
  let e1 := Call (clock s) c "getPullRequest" a1 r1 in
  let r2 := respond h (trace s ++ [start; e1]) c "getIssue" a2 in
  let e2 := Call (clock s) c "getIssue" a2 r2 in
  let l1 := Z.of_N (latency r1) in
  let l2 := Z.of_N (latency r2) in
  let at_ t := {| this := this s; clock := clock s + t;
                  trace := trace s ++ [start; e1; e2] |} in
  (logger "info" "Starting code review workflow"
     (obj [("requestId", ret rid);
           ("repository", get args "repository");
           ("prNumber", get args "pr_number");
           ("issueNumber", get args "issue_number")]) ;;
   both <- await_all
     [invoke github "getPullRequest"
        [get args "repository"; get args "pr_number"; get uc "githubToken"; ret rid];
      invoke github "getIssue"
        [get args "repository"; get args "issue_number"; get uc "githubToken";
         ret rid]] ;;
   k both) h s
  = match outcome r1, outcome r2 with
    | Fulfilled v1, Fulfilled v2 => k (VArr [v1; v2]) h (at_ (Z.max l1 l2))
    | Rejected x1, Fulfilled _ => (Throw x1, at_ l1)
    | Fulfilled _, Rejected x2 => (Throw x2, at_ l2)
    | Rejected x1, Rejected x2 =>
        if l1 <=? l2 then (Throw x1, at_ l1) else (Throw x2, at_ l2)
    end.
Proof.
  intros Hargs Huc. cbv zeta. rewrite bind_run.
  rewrite (logger_run _ _ _ h s
             (VObj [("requestId", rid); ("repository", prop args "repository");
                    ("prNumber", prop args "pr_number");
                    ("issueNumber", prop args "issue_number")]))
    by (rewrite !(get_run args) by exact Hargs; reflexivity).
  rewrite bind_run.
  rewrite (await_all2_Ok github "getPullRequest" _ github "getIssue" _ h _
             [prop args "repository"; prop args "pr_number"; prop uc "githubToken"; rid]
             [prop args "repository"; prop args "issue_number"; prop uc "githubToken"; rid])
    by (try intro; rewrite !(get_run args) by exact Hargs;
        rewrite (get_run uc) by exact Huc; reflexivity).
  cbv zeta. unfold promise_of, issue, with_trace, with_clock.
  cbn [settlement settles this clock trace].
  rewrite <- !app_assoc. cbn [app].
  destruct (outcome (respond h _ (github (this s)) "getPullRequest" _)),
           (outcome (respond h _ (github (this s)) "getIssue" _)).
  - f_equal. f_equal. lia.
  - do 2 f_equal. lia.
  - do 2 f_equal. lia.
  - rewrite leb_add_l.
    match goal with |- context [if ?b then _ else _] => destruct b end;
      do 2 f_equal; lia.
Qed.

(** C9: in [scheduleCodeReview] the pull request and the issue are fetched
    by two calls issued in the same instant, the entry of the workflow,
    whatever becomes of the first (lines 47-60).  When both are fulfilled,
    the workflow resumes when the later of the two has settled: its next
    call, [findOptimalTime], is issued [max l1 l2] milliseconds after the
    fetches (100 when each fetch takes 100).  When one is rejected, the
    workflow calls nothing more and returns when the first rejection has
    arrived. *)
Theorem fetches_are_issued_together_and_joined args uc rid h s new :
  nullish args = false -> nullish uc = false ->
  trace (snd (scheduleCodeReview args uc rid h s)) = (trace s ++ new)%list ->
  exists m0 c a1 r1 a2 r2 rest,
    new = Log "info" "Starting code review workflow" m0
          :: Call (clock s) c "getPullRequest" a1 r1
          :: Call (clock s) c "getIssue" a2 r2 :: rest
    /\ let l1 := Z.of_N (latency r1) in
       let l2 := Z.of_N (latency r2) in
       let returned := clock (snd (scheduleCodeReview args uc rid h s)) in
       match outcome r1, outcome r2 with
       | Fulfilled _, Fulfilled _ =>
           match rest with
           | Call t _ name _ _ :: _ =>
               name = "findOptimalTime" /\ t = clock s + Z.max l1 l2
           | _ => methods rest = []
           end
       | Rejected _, Fulfilled _ => methods rest = [] /\ returned = clock s + l1
       | Fulfilled _, Rejected _ => methods rest = [] /\ returned = clock s + l2
       | Rejected _, Rejected _ => methods rest = [] /\ returned = clock s + Z.min l1 l2
       end.
Proof.
  intros Hargs Huc Htrace.
  destruct (scheduleCodeReview args uc rid h s) as [r s'] eqn:E. cbn [snd] in *.
  unfold scheduleCodeReview in E. rewrite bind_run in E.
  change (Date_now h s) with (Ok (VNum (wallclock h (clock s))), s) in E. cbv beta iota in E.
  unfold try_catch in E.
  rewrite (scheduleCodeReview_fetches args uc rid _ h s Hargs Huc) in E.
  cbv zeta in E.
  assert (Hcatch : forall st e, quiet
            (logger "error" "Code review workflow failed"
               (obj [("requestId", ret rid); ("error", get e "message")]) ;;
             msg <- tpl_s [lit "Failed to schedule code review: ";
                           sub (get e "message")] ;;
             elapsed <- tpl_s [sub (n <- Date_now ;; ret (minus n st)); lit "ms"] ;;
             ret {| success := false; message := msg; executionTime := elapsed;
                    details := None |})) by (intros; quietness).
  match type of E with
  | context [match outcome ?r1 with
             | Fulfilled _ => match outcome ?r2 with _ => _ end
             | Rejected _ => _
             end] =>
      match r1 with
      | respond _ (_ ++ [Log _ _ ?m0])%list ?c _ ?a1 =>
          match r2 with
          | respond _ _ _ _ ?a2 => exists m0, c, a1, r1, a2, r2
          end
      end;
      destruct (outcome r1) as [v1 | x1], (outcome r2) as [v2 | x2]
  end.
  - match type of E with
    | context [bind ?e (fun x => bind (call ?t ?n (@?ar x)) (@?k x)) h ?s2] =>
        destruct (call_comes_first e t n ar k h s2) as (rest & Hrest & Hfirst);
          [purity | intro; purity | intros; containment | ];
          destruct (bind e (fun x => bind (call t n (ar x)) (k x)) h s2)
            as [[env | err] s1] eqn:Hbody
    end; cbn [snd trace clock] in Hrest.
    + injection E as _ <-. exists rest. split.
      * rewrite Hrest, <- !app_assoc in Htrace. apply app_inv_head in Htrace.
        subst new. reflexivity.
      * cbv zeta. destruct rest as [ | [t c n a r0 | ] rest]; try reflexivity;
          [ | contradiction].
        destruct Hfirst as [-> ->]. split; reflexivity.
    + destruct (Hcatch (VNum (wallclock h (clock s))) err h s1) as (logs & Hlogs & Hmeth & _).
      rewrite E in Hlogs. cbn [snd] in Hlogs.
      rewrite Hlogs, Hrest, <- !app_assoc in Htrace. apply app_inv_head in Htrace.
      exists (rest ++ logs)%list. split; [subst new; reflexivity | ].
      cbv zeta. destruct rest as [ | [t c n a r0 | ] rest]; cbn [app];
        [ | | contradiction].
      * destruct logs as [ | [t c n a r0 | ] logs];
          [exact Hmeth | discriminate Hmeth | exact Hmeth].
      * destruct Hfirst as [-> ->]. split; reflexivity.
  - match type of E with ?H0 _ h ?s2 = _ =>
      destruct (Hcatch (VNum (wallclock h (clock s))) x2 h s2) as (logs & Hlogs & Hmeth & Hclock)
    end.
    rewrite E in Hlogs, Hclock. cbn [snd trace clock] in Hlogs, Hclock.
    rewrite Hlogs, <- !app_assoc in Htrace. apply app_inv_head in Htrace.
    exists logs. split; [subst new; reflexivity | ].
    cbv zeta. split; assumption.
  - match type of E with ?H0 _ h ?s2 = _ =>
      destruct (Hcatch (VNum (wallclock h (clock s))) x1 h s2) as (logs & Hlogs & Hmeth & Hclock)
    end.
    rewrite E in Hlogs, Hclock. cbn [snd trace clock] in Hlogs, Hclock.
    rewrite Hlogs, <- !app_assoc in Htrace. apply app_inv_head in Htrace.
    exists logs. split; [subst new; reflexivity | ].
    cbv zeta. split; assumption.
  - match type of E with
    | context [if ?a <=? ?b then _ else _] =>
        destruct (Z.leb_spec a b) as [Hle | Hlt]
    end; cbv beta iota in E;
      match type of E with ?H0 h ?s2 = _ =>
        match type of E with context [get ?x "message"] =>
          destruct (Hcatch (VNum (wallclock h (clock s))) x h s2) as (logs & Hlogs & Hmeth & Hclock)
        end
      end;
      rewrite E in Hlogs, Hclock; cbn [snd trace clock] in Hlogs, Hclock;
      rewrite Hlogs, <- !app_assoc in Htrace; apply app_inv_head in Htrace;
      exists logs; (split; [subst new; reflexivity | ]);
      cbv zeta; (split; [assumption | rewrite Hclock; lia]).
Qed.

Lemma fetches_are_issued_together_and_joined_witness :
  let run := scheduleCodeReview reviewRequest userContext0 (VStr "req-1")
               (host_of obliging 100) state0 in
  exists m0 c a1 r1 a2 r2 rest,
    trace (snd run)
    = Log "info" "Starting code review workflow" m0
      :: Call (clock state0) c "getPullRequest" a1 r1
      :: Call (clock state0) c "getIssue" a2 r2 :: rest
    /\ let l1 := Z.of_N (latency r1) in
       let l2 := Z.of_N (latency r2) in
       let returned := clock (snd run) in
       match outcome r1, outcome r2 with
       | Fulfilled _, Fulfilled _ =>
           match rest with
           | Call t _ name _ _ :: _ =>
               name = "findOptimalTime" /\ t = clock state0 + Z.max l1 l2
           | _ => methods rest = []
           end
       | Rejected _, Fulfilled _ => methods rest = [] /\ returned = clock state0 + l1
       | Fulfilled _, Rejected _ => methods rest = [] /\ returned = clock state0 + l2
       | Rejected _, Rejected _ =>
           methods rest = [] /\ returned = clock state0 + Z.min l1 l2
       end.
Proof.
  cbv zeta.
  apply (fetches_are_issued_together_and_joined reviewRequest userContext0
           (VStr "req-1") (host_of obliging 100) state0).
  - reflexivity.
  - reflexivity.
  - vm_compute. reflexivity.
Defined.

(** Two fetches of 100 ms each, issued at 1000: the scheduler is asked at
    1100.  The calls of [createProjectKickoff], awaited in turn, are 100 ms
    apart. *)
Example joined_and_sequential_calls :
  let issued name w args :=
    map fst (calls_to name
               (trace (snd (procedure w args userContext0 (VStr "req-1")
                              (host_of obliging 100) state0)))) in
  issued "getPullRequest" CodeReview reviewRequest = [1000]
  /\ issued "getIssue" CodeReview reviewRequest = [1000]
  /\ issued "findOptimalTime" CodeReview reviewRequest = [1100]
  /\ issued "createProjectPage" ProjectKickoff (kickoffRequest "Apollo") = [1000]
  /\ issued "createRepository" ProjectKickoff (kickoffRequest "Apollo") = [1100]
  /\ issued "createReviewChannel" ProjectKickoff (kickoffRequest "Apollo") = [1200].
Proof. cbv zeta. repeat split; vm_compute; reflexivity. Qed.


(* ================================================================= *)
(** ** Runs in which every call succeeds (C7) *)

Section Success.
Variable h : host.

Lemma evaluates_weaken {A} (m : M A) (Q R : A -> Prop) :
  evaluates h m Q -> (forall a, Q a -> R a) -> evaluates h m R.
Proof. intros Hm HQ s. destruct (Hm s) as (a & Ha & Hq). exists a. auto. Qed.

Lemma evaluates_bind {A B} (m : M A) (f : A -> M B) (Q : A -> Prop) (R : B -> Prop) :
  evaluates h m Q -> (forall a, Q a -> evaluates h (f a) R) -> evaluates h (bind m f) R.
Proof.
  intros Hm Hf s. destruct (Hm s) as (a & Ha & Hq).
  rewrite bind_run, Ha. apply (Hf a Hq).
Qed.

Lemma evaluates_ret {A} (a : A) (Q : A -> Prop) : Q a -> evaluates h (ret a) Q.
Proof. intros Hq s. exists a. split; [reflexivity | exact Hq]. Qed.

Lemma evaluates_get v k (Q : value -> Prop) :
  nullish v = false -> Q (prop v k) -> evaluates h (get v k) Q.
Proof. intros Hv Hq. rewrite (get_run v k Hv). apply evaluates_ret, Hq. Qed.

Lemma ok_ret {A} (a : A) : ok h (ret a).
Proof. apply evaluates_ret. exact I. Qed.

Lemma ok_read {A} (f : host -> state -> A) : ok h (fun h s => (Ok (f h s), s)).
Proof. intro s. eexists. split; [reflexivity | exact I]. Qed.

Lemma ok_bind {A B} (m : M A) (f : A -> M B) :
  ok h m -> (forall a, ok h (f a)) -> ok h (bind m f).
Proof.
  intros Hm Hf. apply (evaluates_bind m f (fun _ => True)); [exact Hm | ].
  intros a _. apply Hf.
Qed.

Lemma ok_get v k : nullish v = false -> ok h (get v k).
Proof. intro Hv. apply evaluates_get; [exact Hv | exact I]. Qed.

Lemma ok_get_get v k1 k2 :
  nullish v = false -> nullish (prop v k1) = false -> ok h (get v k1 .> k2).
Proof.
  intros Hv Hk. unfold member. rewrite (get_run v k1 Hv), bind_ret_l.
  apply ok_get, Hk.
Qed.

Lemma ok_sequence {A} (ms : list (M A)) : Forall (ok h) ms -> ok h (sequence ms).
Proof.
  induction 1 as [ | m ms Hm _ IH]; cbn [sequence]; [apply ok_ret | ].
  apply ok_bind; [exact Hm | intro a].
  apply ok_bind; [exact IH | intro r; apply ok_ret].
Qed.

Lemma ok_lit s : ok h (lit s).
Proof. apply ok_ret. Qed.

Lemma stringable_item x :
  stringable x = true ->
  match x with VUndef | VNull => true | _ => stringable x end = true.
Proof. destruct x; auto. Qed.

(** Printable data converts to a string. *)
Lemma printable_stringable v : printable v = true -> stringable v = true.
Proof.
  revert v. fix IH 1. intros [ | | b | n | s | ms | l | fs]; try reflexivity.
  - cbn [printable stringable]. induction l as [ | x l IHl]; [reflexivity | ].
    cbn [forallb]. intro H. apply andb_true_iff in H as [Hx Hl].
    apply andb_true_iff. split; [apply stringable_item, IH, Hx | apply IHl, Hl].
  - cbn [printable stringable]. intro H. apply andb_true_iff in H as [H _]. exact H.
Qed.

Lemma printable_assoc k fs x :
  forallb (fun kv : string * value => let (_, x) := kv in printable x) fs = true ->
  assoc k fs = Some x -> printable x = true.
Proof.
  induction fs as [ | [k' v] fs IH]; [discriminate | ].
  cbn [forallb assoc]. intro H. apply andb_true_iff in H as [Hv Hfs].
  destruct (k =? k')%string; [intros [= <-]; exact Hv | apply IH, Hfs].
Qed.

(** Every field of printable data is printable. *)
Lemma printable_prop v k : printable v = true -> printable (prop v k) = true.
Proof.
  destruct v as [ | | b | n | s | ms | l | fs]; cbn [prop]; try reflexivity.
  - destruct (k =? "length")%string; reflexivity.
  - destruct (k =? "length")%string; reflexivity.
  - cbn [printable]. intro H. apply andb_true_iff in H as [_ H].
    destruct (assoc k fs) as [x | ] eqn:E; [ | reflexivity].
    exact (printable_assoc k fs x H E).
Qed.

Lemma printable_items l : printable (VArr l) = true -> Forall (fun x => printable x = true) l.
Proof. cbn [printable]. intro H. apply Forall_forall. apply forallb_forall, H. Qed.

(** [rs.map(r => r.k)] of printable data converts to a string. *)
Lemma stringable_fields rs k :
  Forall (fun x => printable x = true) rs ->
  stringable (VArr (map (fun r => prop r k) rs)) = true.
Proof.
  cbn [stringable]. induction 1 as [ | r rs Hr _ IH]; [reflexivity | ].
  cbn [map forallb]. apply andb_true_iff. split; [ | exact IH].
  apply stringable_item, printable_stringable, printable_prop, Hr.
Qed.

Lemma ok_plain e : plain h e -> ok h e.
Proof. intro H. apply (evaluates_weaken _ _ _ H). auto. Qed.

(** A substitution of a template goes through when its expression gives
    printable data. *)
Lemma ok_sub e : plain h e -> ok h (sub e).
Proof.
  intros He s. destruct (He s) as (v & Hv & Hp). unfold sub. rewrite bind_run, Hv.
  unfold ToString. rewrite (printable_stringable v Hp).
  eexists. split; [reflexivity | exact I].
Qed.

Lemma plain_ret v : printable v = true -> plain h (ret v).
Proof. intro H. exact (evaluates_ret v (fun v => printable v = true) H). Qed.

Lemma plain_get v k : nullish v = false -> printable v = true -> plain h (get v k).
Proof.
  intros Hv Hp.
  exact (evaluates_get v k (fun v => printable v = true) Hv (printable_prop v k Hp)).
Qed.

Lemma plain_get_get v k1 k2 :
  nullish v = false -> nullish (prop v k1) = false -> printable v = true ->
  plain h (get v k1 .> k2).
Proof.
  intros Hv Hk Hp. unfold member. rewrite (get_run v k1 Hv), bind_ret_l.
  apply plain_get; [exact Hk | apply printable_prop, Hp].
Qed.

Lemma plain_string e : evaluates h e (fun v => exists s, v = VStr s) -> plain h e.
Proof. intro H. apply (evaluates_weaken _ _ _ H). intros v [s ->]. reflexivity. Qed.

Lemma plain_orE a b : plain h a -> plain h b -> plain h (orE a b).
Proof.
  intros Ha Hb. apply (evaluates_bind _ _ _ _ Ha). intros x Hx.
  destruct (truthy x); [apply plain_ret, Hx | exact Hb].
Qed.

Lemma evaluates_tpl parts :
  Forall (ok h) parts -> evaluates h (tpl parts) (fun v => exists s, v = VStr s).
Proof.
  intro H. apply (evaluates_bind _ _ (fun _ => True)); [apply ok_sequence, H | ].
  intros l _. apply evaluates_ret. eexists; reflexivity.
Qed.

Lemma ok_tpl parts : Forall (ok h) parts -> ok h (tpl parts).
Proof. intro H. apply (evaluates_weaken _ _ _ (evaluates_tpl parts H)). auto. Qed.

Lemma ok_tpl_s parts : Forall (ok h) parts -> ok h (tpl_s parts).
Proof. intro H. apply ok_bind; [apply ok_tpl, H | intro; apply ok_ret]. Qed.

Lemma evaluates_obj fields :
  Forall (fun kv => ok h (snd kv)) fields ->
  evaluates h (obj fields) (fun v => exists l, v = VObj l /\ map fst l = map fst fields).
Proof.
  intro H. unfold obj.
  assert (Hs : evaluates h
            (sequence (map (fun kv => v <- snd kv ;; ret (fst kv, v)) fields))
            (fun l => map fst l = map fst fields)).
  { induction H as [ | [k m] fs Hm _ IH]; cbn [map sequence fst snd].
    - apply evaluates_ret. reflexivity.
    - intro s. destruct (Hm s) as (v & Hv & _). cbn [snd] in Hv.
      destruct (IH s) as (l & Hl & Hkeys).
      rewrite !bind_run, Hv. cbn [ret]. rewrite bind_run, Hl.
      eexists. split; [reflexivity | ]. cbn [map fst]. rewrite Hkeys. reflexivity. }
  apply (evaluates_bind _ _ _ _ Hs). intros l Hl. apply evaluates_ret.
  exists l. split; [reflexivity | exact Hl].
Qed.

Lemma ok_obj fields : Forall (fun kv => ok h (snd kv)) fields -> ok h (obj fields).
Proof. intro H. apply (evaluates_weaken _ _ _ (evaluates_obj fields H)). auto. Qed.

Lemma ok_item e : ok h e -> ok h (item e).
Proof. intro H. apply ok_bind; [exact H | intro; apply ok_ret]. Qed.

Lemma ok_arr parts : Forall (ok h) parts -> ok h (arr parts).
Proof. intro H. apply ok_bind; [apply ok_sequence, H | intro; apply ok_ret]. Qed.

Lemma ok_orE a b : ok h a -> ok h b -> ok h (orE a b).
Proof.
  intros Ha Hb. apply ok_bind; [exact Ha | intro x].
  destruct (truthy x); [apply ok_ret | exact Hb].
Qed.

Lemma ok_spread_array l : ok h (spread (ret (VArr l))).
Proof. unfold spread. rewrite bind_ret_l. apply ok_ret. Qed.

(** [l.map(email => email.split('@')[0])] on strings. *)
Lemma ok_local_parts l :
  Forall (fun x => exists s, x = VStr s) l -> ok h (Array_map (VArr l) split_at_0).
Proof.
  intro H. unfold Array_map, method. cbn [nullish].
  apply ok_bind; [ | intro; apply ok_ret]. apply ok_sequence.
  induction H as [ | x l [s ->] _ IH]; cbn [map]; constructor; [ | exact IH].
  unfold split_at_0, method. cbn [nullish]. apply ok_ret.
Qed.

Lemma runs_bind {A B} (m : M A) (f : A -> M B) (Q : A -> Prop) (R : B -> Prop) :
  runs h m Q -> (forall a, Q a -> runs h (f a) R) -> runs h (bind m f) R.
Proof.
  intros Hm Hf s. destruct (Hm s) as (a & s1 & Ha & Hq).
  rewrite bind_run, Ha. apply (Hf a Hq).
Qed.

Lemma runs_evaluates {A} (m : M A) (Q : A -> Prop) : evaluates h m Q -> runs h m Q.
Proof. intros Hm s. destruct (Hm s) as (a & Ha & Hq). exists a, s. auto. Qed.

Lemma runs_ret {A} (a : A) (Q : A -> Prop) : Q a -> runs h (ret a) Q.
Proof. intro Hq. apply runs_evaluates, evaluates_ret, Hq. Qed.

Lemma runs_logger level text meta :
  ok h meta -> runs h (logger level text meta) (fun _ => True).
Proof.
  intros Hm s. destruct (Hm s) as (m & Hmeta & _).
  rewrite (logger_run _ _ _ _ _ _ Hmeta). eexists _, _. split; [reflexivity | exact I].
Qed.

Hypothesis Hhost : obliging_host h.

Lemma runs_call target name args :
  Forall (ok h) args ->
  runs h (call target name args)
       (fun v => well_formed_reply name v /\ printable v = true).
Proof.
  intros Hargs s. destruct (ok_sequence args Hargs s) as (a & Ha & _).
  rewrite (call_Ok _ _ _ _ _ _ Ha). cbv zeta.
  destruct (Hhost (trace s) (target (this s)) name a) as (v & Hv & Hwf).
  rewrite Hv. eexists _, _. split; [reflexivity | exact Hwf].
Qed.

Lemma runs_await_all2 t1 n1 args1 t2 n2 args2 :
  Forall (ok h) args1 -> Forall (ok h) args2 ->
  runs h (await_all [invoke t1 n1 args1; invoke t2 n2 args2])
       (fun both => (well_formed_reply n1 (index both 0)
                     /\ printable (index both 0) = true)
                    /\ (well_formed_reply n2 (index both 1)
                        /\ printable (index both 1) = true)).
Proof.
  intros H1 H2 s. unfold await_all. cbn [sequence]. rewrite !bind_run.
  destruct (ok_sequence args1 H1 s) as (a1 & Ha1 & _).
  rewrite (invoke_Ok _ _ _ _ _ _ Ha1). rewrite !bind_run.
  match goal with |- context [invoke t2 n2 args2 h ?s1] =>
    destruct (ok_sequence args2 H2 s1) as (a2 & Ha2 & _);
    rewrite (invoke_Ok _ _ _ _ _ _ Ha2);
    destruct (Hhost (trace s1) (t2 (this s1)) n2 a2) as (v2 & Hv2 & Hwf2)
  end.
  destruct (Hhost (trace s) (t1 (this s)) n1 a1) as (v1 & Hv1 & Hwf1).
  unfold Promise_all, await, ret, promise_of, bind.
  cbn [first_rejection settlement settles map fulfilment].
  rewrite Hv1, Hv2. cbn [settlement]. 
  eexists _, _. split; [reflexivity | ]. cbn [index nth]. split; assumption.
Qed.

End Success.


Section Expressions.
Variable h : host.

Lemma ok_Date_now : ok h Date_now.
Proof. intro s. eexists. split; [reflexivity | exact I]. Qed.

Lemma ok_new_Date : ok h new_Date.
Proof. intro s. eexists. split; [reflexivity | exact I]. Qed.

Lemma ok_env name : ok h (env name).
Proof. intro s. eexists. split; [reflexivity | exact I]. Qed.

Lemma ok_Date_toISOString v : ok h (Date_toISOString v).
Proof. intro s. eexists. split; [reflexivity | exact I]. Qed.

Lemma plain_Date_now : plain h Date_now.
Proof. intro s. eexists. split; reflexivity. Qed.

(** [Date.now() - startTime]. *)
Lemma plain_elapsed st : plain h (n <- Date_now ;; ret (minus n st)).
Proof. intro s. eexists. split; [reflexivity | ]. destruct st; reflexivity. Qed.

(** [new Date().toISOString()]. *)
Lemma plain_started : plain h (d <- new_Date ;; Date_toISOString d).
Proof. intro s. eexists. split; reflexivity. Qed.

Lemma prop_nullish v k : nullish v = true -> prop v k = VUndef.
Proof. destruct v; try discriminate; reflexivity. Qed.

Lemma pullRequest_object v : pullRequest v -> nullish v = false.
Proof.
  intros [[t Ht] _]. destruct (nullish v) eqn:E; [ | reflexivity].
  rewrite (prop_nullish v _ E) in Ht. discriminate.
Qed.

Lemma address_truthy v : address v -> truthy v = true -> exists s, v = VStr s.
Proof. intros [Hf | Hs] Ht; [congruence | exact Hs]. Qed.

Lemma addresses_filter l :
  Forall address l -> Forall (fun x => exists s, x = VStr s) (filter truthy l).
Proof.
  intro H. apply Forall_forall. intros x Hx. apply filter_In in Hx as [Hin Ht].
  apply address_truthy; [ | exact Ht]. rewrite Forall_forall in H. apply H, Hin.
Qed.

Lemma fields_run k (rs : list value) s :
  Forall (fun r => nullish r = false) rs ->
  sequence (map (fun r => get r k) rs) h s = (Ok (map (fun r => prop r k) rs), s).
Proof.
  induction 1 as [ | r rs Hr _ IH]; [reflexivity | ].
  cbn [map sequence]. rewrite (get_run r) by exact Hr. rewrite bind_ret_l.
  rewrite bind_run, IH. reflexivity.
Qed.

(** Lines 63-67 on a well-formed pull request: the attendees are
    strings. *)
Lemma attendeeSet_evaluates args pr :
  nullish args = false -> optional_addresses (prop args "additional_attendees") ->
  pullRequest pr -> evaluates h (attendeeSet args pr) addresses.
Proof.
  intros Hargs Hextra Hpr s.
  pose proof (pullRequest_object pr Hpr) as Hobj.
  destruct Hpr as (_ & (rs & Hrs & Hpersons) & (Hauthor & Hmail) & _).
  assert (Hextras : exists extras,
            orE (get args "additional_attendees") (ret (VArr [])) = ret (VArr extras)
            /\ Forall address extras).
  { unfold orE. rewrite (get_run args _ Hargs), bind_ret_l.
    destruct Hextra as [Hf | (l & Hl & Hall)].
    - rewrite Hf. exists []. split; [reflexivity | constructor].
    - rewrite Hl. exists l. split; [reflexivity | exact Hall]. }
  destruct Hextras as (extras & Hextras & Hall).
  unfold attendeeSet, arr, spread, item, member, Array_map.
  rewrite Hextras. rewrite !(get_run pr) by exact Hobj.
  rewrite !bind_ret_l, Hrs. rewrite (get_run _ "email") by exact Hauthor.
  rewrite bind_ret_l. unfold method. cbn [nullish sequence].
  rewrite !bind_run, (fields_run "email" rs s).
  2:{ revert Hpersons. apply Forall_impl. intros r [Hr _]. exact Hr. }
  cbn [ret bind List.concat]. unfold Array_filter_Boolean, method. cbn [nullish].
  eexists. split; [reflexivity | ]. eexists. split; [reflexivity | ].
  apply addresses_filter. rewrite app_nil_r. apply Forall_app. split.
  - apply Forall_map. revert Hpersons. apply Forall_impl. intros r [_ Hr]. exact Hr.
  - constructor; [exact Hmail | exact Hall].
Qed.

Lemma ok_local_parts_of v : addresses v -> ok h (Array_map v split_at_0).
Proof. intros (l & -> & Hl). apply ok_local_parts, Hl. Qed.

Lemma plain_slug_of t : plain h (l <- toLowerCase (VStr t) ;; replace l).
Proof. intro s. eexists. split; reflexivity. Qed.

Lemma plain_title_slug pr :
  pullRequest pr -> plain h (t <- get pr "title" ;; l <- toLowerCase t ;; replace l).
Proof.
  intro Hpr. rewrite (get_run pr _ (pullRequest_object pr Hpr)), bind_ret_l.
  destruct Hpr as ((t & ->) & _). apply plain_slug_of.
Qed.

Lemma ok_substring0 s n : ok h (substring0 (VStr s) n).
Proof. intro s0. eexists. split; [reflexivity | exact I]. Qed.

Lemma ok_reviewChannelName args pr :
  nullish args = false -> printable args = true -> pullRequest pr ->
  ok h (reviewChannelName args pr).
Proof.
  intros Hargs Hplain Hpr. unfold reviewChannelName.
  eapply evaluates_bind.
  - apply evaluates_tpl. repeat apply Forall_cons; try apply Forall_nil; try apply ok_lit.
    + apply ok_sub, plain_get; assumption.
    + apply ok_sub, plain_title_slug, Hpr.
  - intros v [s ->]. apply ok_substring0.
Qed.

(** The reviewers' names, joined: the names of a printable pull request
    convert to strings. *)
Lemma plain_reviewerNames pr :
  pullRequest pr -> printable pr = true -> plain h (reviewerNames pr).
Proof.
  intros Hpr Hplain s. pose proof (pullRequest_object pr Hpr) as Hobj.
  destruct Hpr as (_ & (rs & Hrs & Hpersons) & _).
  unfold reviewerNames, Array_map, method.
  rewrite (get_run pr _ Hobj), bind_ret_l, Hrs. cbn [nullish].
  rewrite !bind_run, (fields_run "name" rs s).
  2:{ revert Hpersons. apply Forall_impl. intros r [Hr _]. exact Hr. }
  cbn [ret]. unfold join, method. cbn [nullish].
  rewrite (stringable_fields rs "name").
  2:{ apply printable_items. rewrite <- Hrs. apply printable_prop, Hplain. }
  eexists. split; reflexivity.
Qed.

Lemma ok_joinLink meeting : nullish meeting = false -> ok h (joinLink meeting).
Proof. intro H. apply ok_orE; apply ok_get, H. Qed.

Lemma plain_joinLink meeting :
  nullish meeting = false -> printable meeting = true -> plain h (joinLink meeting).
Proof. intros H Hp. apply plain_orE; apply plain_get; assumption. Qed.

Lemma plain_repoName args p :
  nullish args = false -> prop args "project_name" = VStr p -> plain h (repoName args).
Proof.
  intros Hargs Hp. unfold repoName. rewrite (get_run args _ Hargs), bind_ret_l, Hp.
  apply plain_slug_of.
Qed.

Lemma plain_timestamp_tail :
  plain h (n <- Date_now ;; s <- Number_toString n ;; slice_last s 6).
Proof. intro s. eexists. split; reflexivity. Qed.

Lemma plain_summary args d :
  nullish args = false -> prop args "description" = VStr d ->
  plain h (d <- get args "description" ;; slice0 d 100).
Proof.
  intros Hargs Hd. rewrite (get_run args _ Hargs), bind_ret_l, Hd.
  intro s. eexists. split; reflexivity.
Qed.

Lemma ok_assignees args :
  nullish args = false -> addresses (prop args "responders") ->
  ok h (r <- get args "responders" ;; Array_map r split_at_0).
Proof.
  intros Hargs Hr. rewrite (get_run args _ Hargs), bind_ret_l.
  apply ok_local_parts_of, Hr.
Qed.

Lemma ok_spread_responders args :
  nullish args = false -> addresses (prop args "responders") ->
  ok h (spread (get args "responders")).
Proof.
  intros Hargs (l & Hl & _). rewrite (get_run args _ Hargs), Hl. apply ok_spread_array.
Qed.

Lemma ok_spread_stakeholders args :
  nullish args = false ->
  (truthy (prop args "stakeholders") = false \/ exists l, prop args "stakeholders" = VArr l) ->
  ok h (spread (orE (get args "stakeholders") (ret (VArr [])))).
Proof.
  intros Hargs Hs. unfold orE. rewrite (get_run args _ Hargs), bind_ret_l.
  destruct Hs as [-> | (l & ->)]; apply ok_spread_array.
Qed.

Lemma ok_severity args :
  nullish args = false ->
  ok h (orB (v <- get args "severity" ;; ret (strict_eq v "high"))
            (v <- get args "severity" ;; ret (strict_eq v "critical"))).
Proof.
  intro Hargs. unfold orB. rewrite !(get_run args _ Hargs), !bind_ret_l.
  destruct (strict_eq _ "high"); apply ok_ret.
Qed.

End Expressions.

(** What a template substitutes is printable: a field of the request or of
    an answer, a string or a number the procedure made. *)
Ltac plainly :=
  first
    [ assumption
    | apply plain_get; assumption
    | apply plain_get_get; assumption
    | apply plain_ret; first [assumption | reflexivity]
    | apply plain_Date_now
    | apply plain_elapsed
    | apply plain_started
    | apply plain_timestamp_tail
    | apply plain_reviewerNames; assumption
    | apply plain_joinLink; assumption
    | eapply plain_summary; eassumption ].

(** An expression of the workflows evaluates: its property reads are on
    objects the context knows. *)
Ltac okay :=
  repeat first
    [ assumption
    | apply Forall_nil
    | apply Forall_cons
    | apply ok_ret
    | apply ok_Date_now
    | apply ok_new_Date
    | apply ok_env
    | apply ok_Date_toISOString
    | apply ok_severity
    | apply ok_reviewChannelName
    | apply ok_joinLink
    | apply ok_assignees
    | apply ok_spread_responders
    | apply ok_spread_stakeholders
    | apply ok_local_parts_of
    | apply ok_get
    | apply ok_get_get
    | apply ok_sub; plainly
    | apply ok_tpl
    | apply ok_tpl_s
    | apply ok_obj
    | apply ok_item
    | apply ok_arr
    | apply ok_orE
    | apply ok_bind; [ | intro ] ].

Lemma reply_pullRequest v : well_formed_reply "getPullRequest" v -> pullRequest v.
Proof. exact (fun H => H). Qed.

Lemma reply_meeting v :
  well_formed_reply "createMeeting" v -> nullish v = false /\ nullish (prop v "start") = false.
Proof. exact (fun H => H). Qed.

Lemma reply_object name v :
  well_formed_reply name v -> (name =? "sendMessage")%string = false -> nullish v = false.
Proof.
  unfold well_formed_reply. intros H Hn.
  destruct (name =? "getPullRequest")%string; [exact (pullRequest_object v H) | ].
  destruct (name =? "createMeeting")%string; [exact (proj1 H) | ].
  rewrite Hn in H. exact H.
Qed.

(** What the context learns from the answer of a call. *)
Ltac learn H :=
  lazymatch type of H with
  | well_formed_reply "getPullRequest" ?v =>
      pose proof (pullRequest_object v H);
      let H1 := fresh "Htitle" in let H2 := fresh "Hrs" in let H3 := fresh "Hauthor" in
      let H4 := fresh "Hurls" in let H5 := fresh "Hstats" in
      pose proof H as (H1 & H2 & (H3 & _) & H4 & H5);
      apply reply_pullRequest in H
  | well_formed_reply "createMeeting" ?v =>
      apply reply_meeting in H; destruct H
  | well_formed_reply "sendMessage" _ => clear H
  | well_formed_reply _ _ => apply reply_object in H; [ | reflexivity]
  end.

(** One statement of a workflow. *)
Ltac step :=
  lazymatch goal with
  | |- runs _ (bind (logger _ _ _) _) _ =>
      eapply runs_bind; [apply runs_logger; okay | intros _ _]
  | |- runs _ (bind (call _ _ _) _) _ =>
      eapply runs_bind;
      [ apply runs_call; [assumption | okay]
      | let v := fresh "v" in let H := fresh "H" in let Hp := fresh "Hplain" in
        intros v [H Hp]; learn H ]
  | |- runs _ (bind (attendeeSet _ _) _) _ =>
      eapply runs_bind;
      [ apply runs_evaluates, attendeeSet_evaluates; assumption
      | let v := fresh "attendees" in let H := fresh "H" in intros v H ]
  | |- runs _ (bind (obj _) (fun _ => ret _)) _ => fail
  | |- runs _ (bind (bind Date_now (fun n => ret (minus n _))) _) _ =>
      eapply runs_bind;
      [ apply runs_evaluates, plain_elapsed
      | let v := fresh "executionTime" in let H := fresh "Hplain" in intros v H ]
  | |- runs _ (bind (repoName _) _) _ =>
      eapply runs_bind;
      [ apply runs_evaluates; eapply plain_repoName; eassumption
      | let v := fresh "repo" in let H := fresh "Hplain" in intros v H ]
  | |- runs _ (bind (if ?b then _ else _) _) _ =>
      eapply runs_bind; [destruct b | intros _ _]
  | |- runs _ (bind _ _) _ =>
      eapply runs_bind;
      [ apply runs_evaluates; okay | let v := fresh "v" in intros v _ ]
  end.


Lemma try_catch_Ok {A} (body : M A) handler h s a s' :
  body h s = (Ok a, s') -> try_catch body handler h s = (Ok a, s').
Proof. intro H. unfold try_catch. rewrite H. reflexivity. Qed.

Lemma runs_escalate h args uc rid notionIncident issue channel :
  obliging_host h -> nullish args = false -> printable args = true ->
  nullish uc = false ->
  nullish notionIncident = false -> printable notionIncident = true ->
  nullish issue = false -> printable issue = true ->
  nullish channel = false -> printable channel = true ->
  runs h (escalate args uc rid notionIncident issue channel) (fun _ => True).
Proof.
  intros Hhost Hargs Hplain Huc Hdoc Hplain1 Hissue Hplain2 Hchannel Hplain3.
  unfold escalate.
  repeat step. apply runs_ret. exact I.
Qed.

Ltac finish :=
  eapply runs_bind;
  [ apply runs_evaluates, evaluates_obj; okay
  | let l := fresh "l" in let H := fresh "H" in
    intros ? (l & -> & H); apply runs_ret;
    split; [reflexivity | exists l; split; [reflexivity | exact H]] ].

Lemma scheduleCodeReview_succeeds h args uc rid s :
  obliging_host h -> well_formed_request CodeReview args -> nullish uc = false ->
  exists env s', scheduleCodeReview args uc rid h s = (Ok env, s')
    /\ success env = true
    /\ exists d, details env = Some (VObj d) /\ map fst d = detail_keys CodeReview.
Proof.
  intros Hhost (Hargs & Hplain & Hextra) Huc.
  unfold scheduleCodeReview. rewrite bind_run. unfold Date_now at 1. cbv beta iota.
  match goal with |- context [try_catch ?b _ _ _] =>
    assert (Hb : runs h b (fun env => success env = true /\
              exists d, details env = Some (VObj d) /\ map fst d = detail_keys CodeReview))
  end.
  { step.
    eapply runs_bind; [apply runs_await_all2; [exact Hhost | okay | okay] | ].
    intros both [[Hpr Hplain1] [Hissue Hplain2]]. cbv zeta. learn Hpr. learn Hissue.
    repeat step. finish. }
  destruct (Hb s) as (env & s' & Hrun & Henv).
  exists env, s'. split; [apply try_catch_Ok, Hrun | exact Henv].
Qed.

Lemma createProjectKickoff_succeeds h args uc rid s :
  obliging_host h -> well_formed_request ProjectKickoff args -> nullish uc = false ->
  exists env s', createProjectKickoff args uc rid h s = (Ok env, s')
    /\ success env = true
    /\ exists d, details env = Some (VObj d) /\ map fst d = detail_keys ProjectKickoff.
Proof.
  intros Hhost (Hargs & Hplain & (p & Hname) & Hteam) Huc.
  unfold createProjectKickoff. rewrite bind_run. unfold Date_now at 1. cbv beta iota.
  match goal with |- context [try_catch ?b _ _ _] =>
    assert (Hb : runs h b (fun env => success env = true /\
              exists d, details env = Some (VObj d)
                        /\ map fst d = detail_keys ProjectKickoff))
  end.
  { repeat step. finish. }
  destruct (Hb s) as (env & s' & Hrun & Henv).
  exists env, s'. split; [apply try_catch_Ok, Hrun | exact Henv].
Qed.

Lemma handleIncidentResponse_succeeds h args uc rid s :
  obliging_host h -> well_formed_request IncidentResponse args -> nullish uc = false ->
  exists env s', handleIncidentResponse args uc rid h s = (Ok env, s')
    /\ success env = true
    /\ exists d, details env = Some (VObj d) /\ map fst d = detail_keys IncidentResponse.
Proof.
  intros Hhost (Hargs & Hplain & Hresponders & (d & Hdescription) & Hstakeholders) Huc.
  unfold handleIncidentResponse. rewrite bind_run. unfold Date_now at 1. cbv beta iota.
  match goal with |- context [try_catch ?b _ _ _] =>
    assert (Hb : runs h b (fun env => success env = true /\
              exists d, details env = Some (VObj d)
                        /\ map fst d = detail_keys IncidentResponse))
  end.
  { do 9 step.
    - apply runs_escalate; assumption.
    - apply runs_ret. exact I.
    - repeat step. finish. }
  destruct (Hb s) as (env & s' & Hrun & Henv).
  exists env, s'. split; [apply try_catch_Ok, Hrun | exact Henv].
Qed.


(** The sample host is one whose connectors never fail. *)
Lemma obliging_host_sample lat : obliging_host (host_of obliging lat).
Proof.
  intros tr c name a. eexists. split; [reflexivity | ].
  split.
  2:{ unfold obliging.
      repeat match goal with |- context [if ?c then _ else _] => destruct c end;
        reflexivity. }
  unfold well_formed_reply.
  destruct (name =? "getPullRequest")%string eqn:E1.
  { apply String.eqb_eq in E1. subst name.
    change (pullRequest samplePullRequest). unfold pullRequest, person, address.
    split; [eexists; reflexivity | ].
    split; [eexists; split; [reflexivity | ] | ].
    - apply Forall_cons; [split; [reflexivity | right; eexists; reflexivity] | ].
      apply Forall_cons; [split; [reflexivity | left; reflexivity] | apply Forall_nil].
    - split; [split; [reflexivity | right; eexists; reflexivity] | ].
      split; reflexivity. }
  destruct (name =? "createMeeting")%string eqn:E2.
  { apply String.eqb_eq in E2. subst name. split; reflexivity. }
  destruct (name =? "sendMessage")%string; [exact I | ].
  repeat match goal with |- context [if ?c then _ else _] => destruct c end;
    reflexivity.
Qed.

(** C7, as stated, fails for an incident of severity [critical]: every
    call succeeds, the request is well formed, the workflow creates a
    meeting (lines 590-604), and [details] (lines 641-654) has the
    entries [notion], [github] and [slack] and none for the meeting. *)
Lemma incident_meeting_is_not_in_details :
  exists env d,
    fst (handleIncidentResponse (incidentRequest "critical") userContext0 (VStr "req-1")
           (host_of obliging 100) state0) = Ok env
    /\ success env = true
    /\ details env = Some (VObj d)
    /\ List.length (calls_to "createMeeting"
         (trace (snd (handleIncidentResponse (incidentRequest "critical") userContext0
                        (VStr "req-1") (host_of obliging 100) state0)))) = 1%nat
    /\ map fst d = ["notion"; "github"; "slack"]
    /\ has_key "meeting" d = false.
Proof.
  set (run := handleIncidentResponse _ _ _ _ _).
  let r := eval vm_compute in run in
  assert (Hrun : run = r) by (vm_compute; reflexivity).
  rewrite Hrun. clear Hrun run. cbn [fst snd].
  do 2 eexists. split; [reflexivity | ].
  cbn [success details]. repeat split; reflexivity.
Qed.

(** C7, amended: for each of the three workflows, when every connector
    call is fulfilled with a well-formed answer, and the request is well
    formed and the user context is an object, request and answers being
    data that converts to strings ([printable]), the procedure returns an
    envelope with [success = true] whose [details] is an object with
    exactly the keys of [detail_keys], in that order: for
    [scheduleCodeReview] repository, pr_number, issue_number,
    slack_channel, slack_url, github_pr, github_issue, meeting, notion;
    for [createProjectKickoff] notion, github, slack, meeting; for
    [handleIncidentResponse] notion, github, slack (the meeting of an
    escalated incident has no entry). *)
Theorem workflow_succeeds_with_details w args uc rid h s :
  obliging_host h -> well_formed_request w args -> nullish uc = false ->
  exists env d,
    fst (procedure w args uc rid h s) = Ok env
    /\ success env = true
    /\ details env = Some (VObj d)
    /\ map fst d = detail_keys w.
Proof.
  intros Hhost Hargs Huc.
  assert (H : exists env s', procedure w args uc rid h s = (Ok env, s')
                /\ success env = true
                /\ exists d, details env = Some (VObj d) /\ map fst d = detail_keys w).
  { destruct w; cbn [procedure].
    - apply scheduleCodeReview_succeeds; assumption.
    - apply createProjectKickoff_succeeds; assumption.
    - apply handleIncidentResponse_succeeds; assumption. }
  destruct H as (env & s' & Hrun & Hsuccess & d & Hd & Hkeys).
  exists env, d. rewrite Hrun. repeat split; assumption.
Qed.

Lemma workflow_succeeds_with_details_witness :
  exists env d,
    fst (procedure ProjectKickoff (kickoffRequest "Apollo") userContext0 (VStr "req-1")
           (host_of obliging 100) state0) = Ok env
    /\ success env = true
    /\ details env = Some (VObj d)
    /\ map fst d = ["notion"; "github"; "slack"; "meeting"].
Proof.
  apply (workflow_succeeds_with_details ProjectKickoff (kickoffRequest "Apollo")
           userContext0 (VStr "req-1") (host_of obliging 100) state0).
  - apply obliging_host_sample.
  - split; [reflexivity | ]. split; [reflexivity | ].
    split; [exists "Apollo"; reflexivity | reflexivity].
  - reflexivity.
Defined.

(** The three sample requests are well formed, and each run on the sample
    host has the [details] the theorem gives. *)
Example sample_requests_well_formed :
  well_formed_request CodeReview reviewRequest
  /\ well_formed_request ProjectKickoff (kickoffRequest "Apollo")
  /\ well_formed_request IncidentResponse (incidentRequest "low").
Proof.
  repeat split.
  - right. eexists. split; [reflexivity | ].
    apply Forall_cons; [right; eexists; reflexivity | apply Forall_nil].
  - eexists. reflexivity.
  - eexists. split; [reflexivity | ]. repeat constructor; eexists; reflexivity.
  - eexists. reflexivity.
  - left. reflexivity.
Qed.

(** A request whose title does not convert to a string is not well
    formed, and the workflow fails on it: the template of the incident
    document throws before any call is issued. *)
Example unprintable_title_fails :
  let args := VObj [("title", VObj [("toString", VNum 1)]); ("severity", VStr "low");
                    ("description", VStr "d"); ("repository", VStr "o/r");
                    ("responders", VArr [VStr "a@x.com"])] in
  printable args = false
  /\ exists env,
       fst (handleIncidentResponse args userContext0 (VStr "req-1") (host_of obliging 100)
              state0) = Ok env
       /\ success env = false
       /\ message env
          = "Failed to initiate incident response: Cannot convert object to primitive value"
       /\ methods (trace (snd (handleIncidentResponse args userContext0 (VStr "req-1")
                                 (host_of obliging 100) state0))) = [].
Proof. cbv zeta. split; [reflexivity | ]. eexists. repeat split. Qed.


(* ================================================================= *)
(** ** Life cycle: [constructor], [initialize], [cleanup] *)

(** [await this.<connector>.<name>()]: the call is recorded with the
    host's answer [r], and the procedure resumes when it has settled. *)
Lemma call0_run target name h s :
  exists r,
    r = respond h (trace s) (target (this s)) name []
    /\ call target name [] h s =
       settle (outcome r) (fun v => v)
         {| this := this s;
            clock := Z.max (clock s) (clock s + Z.of_N (latency r));
            trace := trace s ++ [Call (clock s) (target (this s)) name [] r] |}.
Proof. eexists. split; [reflexivity | ]. apply (call_Ok target name [] h s []). reflexivity. Qed.

Ltac call0 r Hr E :=
  rewrite bind_run;
  match goal with
  | |- context [call ?t ?n [] ?h ?s] =>
      let Hc := fresh "Hc" in
      destruct (call0_run t n h s) as (r & Hr & Hc); rewrite Hc; clear Hc
  end;
  cbn [this clock trace with_trace with_this] in *; unfold settle;
  destruct (outcome r) eqn:E.

(** X1: [initialize], lines 23-33, when the four connectors initialize: the
    calls go to github, slack, notion and calendar in this order, each
    without arguments, and [isInitialized] is set. *)
Theorem initialize_sets_flag_after_connectors h s :
  (forall tr c, exists v, outcome (respond h tr c "initialize" []) = Fulfilled v) ->
  exists s' t1 r1 t2 r2 t3 r3 t4 r4,
    initialize h s = (Ok tt, s')
    /\ isInitialized (this s') = true
    /\ connectors (this s') = connectors (this s)
    /\ config (this s') = config (this s)
    /\ automation (this s') = automation (this s)
    /\ trace s' =
       (trace s ++ [Log "info" "Initializing WorkflowOrchestrator..." VUndef;
                    Call t1 (github (this s)) "initialize" [] r1;
                    Call t2 (slack (this s)) "initialize" [] r2;
                    Call t3 (notion (this s)) "initialize" [] r3;
                    Call t4 (calendar (this s)) "initialize" [] r4;
                    Log "info" "WorkflowOrchestrator initialized successfully" VUndef])%list.
Proof.
  intro Hall.
  assert (Hno : forall r tr c e,
            r = respond h tr c "initialize" [] -> outcome r = Rejected e -> False).
  { intros r tr c e -> He. destruct (Hall tr c) as [v Hv]. congruence. }
  unfold initialize.
  rewrite bind_run, (logger_run _ _ _ h s VUndef eq_refl).
  call0 r1 Hr1 E1; [ | destruct (Hno _ _ _ _ Hr1 E1)]. clear Hr1.
  call0 r2 Hr2 E2; [ | destruct (Hno _ _ _ _ Hr2 E2)]. clear Hr2.
  call0 r3 Hr3 E3; [ | destruct (Hno _ _ _ _ Hr3 E3)]. clear Hr3.
  call0 r4 Hr4 E4; [ | destruct (Hno _ _ _ _ Hr4 E4)]. clear Hr4.
  rewrite bind_run. cbv beta iota zeta. cbn [this with_this with_trace clock trace].
  rewrite (logger_run _ _ _ h _ VUndef eq_refl).
  do 9 eexists. split; [reflexivity | ].
  cbn [this with_trace with_this trace clock isInitialized connectors
       github slack notion calendar config automation].
  repeat split. rewrite <- !app_assoc. reflexivity.
Qed.

Lemma initialize_sets_flag_after_connectors_witness :
  exists s' t1 r1 t2 r2 t3 r3 t4 r4,
    initialize (host_of obliging 100) state0 = (Ok tt, s')
    /\ isInitialized (this s') = true
    /\ connectors (this s') = connectors (this state0)
    /\ config (this s') = config (this state0)
    /\ automation (this s') = automation (this state0)
    /\ trace s' =
       (trace state0
        ++ [Log "info" "Initializing WorkflowOrchestrator..." VUndef;
            Call t1 (github (this state0)) "initialize" [] r1;
            Call t2 (slack (this state0)) "initialize" [] r2;
            Call t3 (notion (this state0)) "initialize" [] r3;
            Call t4 (calendar (this state0)) "initialize" [] r4;
            Log "info" "WorkflowOrchestrator initialized successfully" VUndef])%list.
Proof.
  apply (initialize_sets_flag_after_connectors (host_of obliging 100) state0).
  intros tr c. eexists. reflexivity.
Defined.


Lemma targets_app a b : targets (a ++ b) = (targets a ++ targets b)%list.
Proof. apply flat_map_app. Qed.



(** In that run the notion connector is the one that fails: github and
    slack were initialized, calendar was not. *)
Example initialize_without_notion :
  targets (trace (snd (initialize (host_without NotionConnector (Error "notion is down") 100)
                         state0)))
    = [GitHubConnector; SlackConnector; NotionConnector]
  /\ isInitialized
       (this (snd (initialize (host_without NotionConnector (Error "notion is down") 100)
                     state0))) = false.
Proof. split; reflexivity. Qed.

Lemma arguments_app a b : arguments (a ++ b) = (arguments a ++ arguments b)%list.
Proof. apply flat_map_app. Qed.

(** A step that calls nothing cleans up no connector. *)
Lemma cleans_up_logger text : cleans_up [] (logger "info" text (ret VUndef)).
Proof.
  intros h s. rewrite (logger_run _ _ _ h s VUndef eq_refl). cbn [fst snd trace with_trace this].
  exists [Log "info" text VUndef]. repeat split; constructor.
Qed.

Lemma cleans_up_ret : cleans_up [] (ret tt).
Proof.
  intros h s. exists []. cbn [ret fst snd].
  repeat split; [symmetry; apply app_nil_r | constructor | constructor].
Qed.

(** A guarded call: the connector a field holds is cleaned up, and a field
    that holds nothing is passed over. *)
Lemma cleans_up_connector field : cleans_up (held field) (cleanup_connector field).
Proof.
  destruct field as [c | ]; [ | apply cleans_up_ret].
  intros h s. unfold cleanup_connector. rewrite bind_run.
  destruct (call0_run (fun _ => c) "cleanup" h s) as (r & Hr & Hc). rewrite Hc. clear Hc.
  unfold settle. exists [Call (clock s) c "cleanup" [] r].
  destruct (outcome r) as [v | e] eqn:E; cbn [ret fst snd trace this held].
  - repeat split; try (repeat constructor).
    cbn [rejections flat_map]. rewrite rejection_Call, E. reflexivity.
  - repeat split; try (repeat constructor).
    + cbn [rejections flat_map]. rewrite rejection_Call, E. reflexivity.
    + exists [], (clock s), c, r. split; [reflexivity | exact E].
    + exists []. reflexivity.
Qed.

(** Two steps in a row: the second runs only when the first has returned. *)
Lemma cleans_up_bind cs1 cs2 (m k : M unit) :
  cleans_up cs1 m -> cleans_up cs2 k -> cleans_up (cs1 ++ cs2) (m ;; k).
Proof.
  intros Hm Hk h s. rewrite bind_run.
  destruct (Hm h s) as (n1 & Htr1 & Hthis1 & Hm1 & Ha1 & Hr1).
  destruct (m h s) as [[[] | e] s1]; cbn [fst snd] in *.
  - destruct Hr1 as [Ht1 Hrej1].
    destruct (Hk h s1) as (n2 & Htr2 & Hthis2 & Hm2 & Ha2 & Hr2).
    exists (n1 ++ n2)%list.
    split; [rewrite Htr2, Htr1; symmetry; apply app_assoc | ].
    split; [congruence | ].
    split; [rewrite methods_app; apply Forall_app; split; assumption | ].
    split; [rewrite arguments_app; apply Forall_app; split; assumption | ].
    destruct (fst (k h s1)) as [u | e].
    + destruct Hr2 as [Ht2 Hrej2]. rewrite targets_app, rejections_app, Ht1, Ht2, Hrej1, Hrej2.
      split; reflexivity.
    + destruct Hr2 as (Hrej2 & (done & t & c & r & Hnew & Hout) & later & Hlater).
      rewrite rejections_app, Hrej1, Hrej2. split; [reflexivity | ]. split.
      * exists (n1 ++ done)%list, t, c, r. split; [rewrite Hnew; apply app_assoc | exact Hout].
      * exists later. rewrite targets_app, Ht1, <- app_assoc, Hlater. reflexivity.
  - exists n1. destruct Hr1 as (Hrej1 & Hlast & later & Hlater).
    repeat split; try assumption.
    exists (later ++ cs2)%list. rewrite app_assoc, Hlater. reflexivity.
Qed.

(** X3: [cleanup], lines 673-693: one [cleanup] call, without arguments, to
    each connector the orchestrator holds, in the order github, slack,
    notion, calendar; a field that holds nothing is passed over (the
    guards of lines 676-690).  It changes no field of the orchestrator:
    [isInitialized] keeps its value.  It has no [catch]: a connector
    whose cleanup fails ends it with the reason thrown, and the
    connectors after it are not cleaned up. *)
Theorem cleanup_goes_through_connectors f h s :
  exists new,
    trace (snd (cleanup f h s)) = (trace s ++ new)%list
    /\ this (snd (cleanup f h s)) = this s
    /\ Forall (fun name => name = "cleanup") (methods new)
    /\ Forall (fun a => a = []) (arguments new)
    /\ match fst (cleanup f h s) with
       | Ok _ => targets new = connectors_held f /\ rejections new = []
       | Throw e =>
           rejections new = [e]
           /\ (exists done t c r, new = (done ++ [Call t c "cleanup" [] r])%list
                                  /\ outcome r = Rejected e)
           /\ exists later, (targets new ++ later)%list = connectors_held f
       end.
Proof.
  revert h s. change (cleans_up (connectors_held f) (cleanup f)).
  unfold cleanup, connectors_held.
  change (held (github_field f) ++ held (slack_field f) ++ held (notion_field f)
          ++ held (calendar_field f))%list
    with ([] ++ held (github_field f) ++ held (slack_field f) ++ held (notion_field f)
          ++ held (calendar_field f))%list.
  rewrite <- (app_nil_r (held (calendar_field f))).
  repeat (apply cleans_up_bind;
          [first [apply cleans_up_logger | apply cleans_up_connector] | ]).
  apply cleans_up_logger.
Qed.

(** An orchestrator as the constructor built it holds its four
    connectors; one that has lost its notion connector is cleaned up
    without it. *)
Example cleanup_samples :
  connectors_held (fields_set (this state0))
    = [GitHubConnector; SlackConnector; NotionConnector; CalendarConnector]
  /\ targets (trace (snd (cleanup (fields_set (this state0)) (host_of obliging 100) state0)))
     = [GitHubConnector; SlackConnector; NotionConnector; CalendarConnector]
  /\ targets (trace (snd (cleanup {| github_field := Some GitHubConnector;
                                     slack_field := Some SlackConnector;
                                     notion_field := None;
                                     calendar_field := Some CalendarConnector |}
                            (host_of obliging 100) state0)))
     = [GitHubConnector; SlackConnector; CalendarConnector]
  /\ fst (cleanup {| github_field := None; slack_field := None;
                     notion_field := None; calendar_field := None |}
            (host_of obliging 100) state0) = Ok tt.
Proof. repeat split. Qed.

Lemma assoc_app k l1 l2 :
  assoc k (l1 ++ l2) = match assoc k l1 with Some v => Some v | None => assoc k l2 end.
Proof.
  induction l1 as [ | [k' v] l1 IH]; [reflexivity | ].
  cbn [app assoc]. destruct (k =? k')%string; [reflexivity | exact IH].
Qed.

Lemma assoc_overridden k a b :
  assoc k (map (fun kv => (fst kv, match assoc (fst kv) b with
                                   | Some v => v
                                   | None => snd kv
                                   end)) a)
    = match assoc k a with
      | Some x => Some (match assoc k b with Some v => v | None => x end)
      | None => None
      end.
Proof.
  induction a as [ | [k' x] a IH]; [reflexivity | ].
  cbn [map assoc fst snd]. destruct (String.eqb_spec k k') as [-> | _];
    [reflexivity | exact IH].
Qed.

Lemma assoc_added k a b :
  assoc k a = None ->
  assoc k (filter (fun kv => negb (has_key (fst kv) a)) b) = assoc k b.
Proof.
  intro Ha. induction b as [ | [k' v] b IH]; [reflexivity | ].
  cbn [filter fst assoc]. destruct (String.eqb_spec k k') as [<- | Hk].
  - unfold has_key. rewrite Ha. cbn [negb assoc]. rewrite String.eqb_refl. reflexivity.
  - destruct (negb (has_key k' a)); [cbn [assoc] | exact IH].
    destruct (String.eqb_spec k k'); [contradiction | exact IH].
Qed.

(** A key of [{...a, ...b}] holds what [b] gives it, and what [a] gives
    it when [b] has no such key. *)
Lemma assoc_object_spread k a b :
  assoc k (object_spread a b)
    = match assoc k b with Some v => Some v | None => assoc k a end.
Proof.
  unfold object_spread. rewrite assoc_app, assoc_overridden.
  destruct (assoc k a) as [x | ] eqn:Ha.
  - destruct (assoc k b); reflexivity.
  - rewrite (assoc_added k a b Ha). destruct (assoc k b); reflexivity.
Qed.

(** X4: the constructor, lines 10-21: the orchestrator starts not initialized,
    with one connector of each kind; its configuration holds, under each
    key, what the caller's [config] gives it, and what
    [defaultWorkflowConfig] gives it when the caller's has no such key.
    Without a [config] the defaults stand. *)
Theorem constructor_config_overrides_defaults (defaults cfg : list (string * value)) k :
  isInitialized (constructor (VObj defaults) (VObj cfg)) = false
  /\ connectors (constructor (VObj defaults) (VObj cfg))
     = [GitHubConnector; SlackConnector; NotionConnector; CalendarConnector]
  /\ prop (config (constructor (VObj defaults) (VObj cfg))) k
     = (if has_key k cfg then prop (VObj cfg) k else prop (VObj defaults) k)
  /\ prop (config (constructor (VObj defaults) VUndef)) k = prop (VObj defaults) k.
Proof.
  split; [reflexivity | ]. split; [reflexivity | ].
  unfold constructor, has_key. cbn [config fields_of prop].
  rewrite !assoc_object_spread. cbn [assoc].
  split; [ | reflexivity].
  destruct (assoc k cfg); reflexivity.
Qed.

Example constructor_sample :
  let o := constructor (VObj [("timezone", VStr "UTC"); ("retries", VNum 3)])
                       (VObj [("retries", VNum 5); ("region", VStr "eu")]) in
  config o = VObj [("timezone", VStr "UTC"); ("retries", VNum 5); ("region", VStr "eu")].
Proof. reflexivity. Qed.


(* ================================================================= *)
(** ** Requests and contexts that are missing *)

Lemma try_catch_Throw {A} (body : M A) handler h s e s1 :
  body h s = (Throw e, s1) -> try_catch body handler h s = handler e h s1.
Proof. intro H. unfold try_catch. rewrite H. reflexivity. Qed.

Lemma number_to_string_0 : number_to_string 0 = "0".
Proof. reflexivity. Qed.

(** X5: [scheduleCodeReview] and [handleIncidentResponse] called with [null]
    or [undefined] for the request: the first read of the request throws
    inside the [try], before anything is logged or called, and the
    [catch] block returns the failure envelope at once. *)
Theorem request_missing_fails_without_calls w args uc rid h s :
  nullish args = true -> w <> ProjectKickoff ->
  exists text meta msg,
    procedure w args uc rid h s =
      (Ok {| success := false; message := failure_prefix w ++ msg;
             executionTime := "0ms"; details := None |},
       with_trace s (trace s ++ [Log "error" text meta])).
Proof.
  intros Ha Hw. destruct w; [ | contradiction Hw; reflexivity | ];
    cbn [procedure failure_prefix].
  - unfold scheduleCodeReview. rewrite !(get_throw args) by exact Ha.
    cbv [bind try_catch logger obj throw ret sequence map fst snd Date_now minus get
         nullish TypeError tpl_s tpl sub lit text_of prop assoc String.eqb Ascii.eqb
         Bool.eqb ToString stringable].
    rewrite Z.sub_diag. do 3 eexists. reflexivity.
  - unfold handleIncidentResponse. rewrite !(get_throw args) by exact Ha.
    cbv [bind try_catch logger obj throw ret sequence map fst snd Date_now minus get
         nullish TypeError tpl_s tpl sub lit text_of prop assoc String.eqb Ascii.eqb
         Bool.eqb ToString stringable].
    rewrite Z.sub_diag. do 3 eexists. reflexivity.
Qed.

Lemma request_missing_fails_without_calls_witness :
  exists text meta msg,
    procedure CodeReview VUndef userContext0 (VStr "req-1") (host_of obliging 100) state0 =
      (Ok {| success := false; message := failure_prefix CodeReview ++ msg;
             executionTime := "0ms"; details := None |},
       with_trace state0 (trace state0 ++ [Log "error" text meta])).
Proof.
  apply (request_missing_fails_without_calls CodeReview VUndef userContext0 (VStr "req-1")
           (host_of obliging 100) state0).
  - reflexivity.
  - discriminate.
Defined.

(** The failure envelope of a [TypeError] thrown before any time has
    passed. *)
Ltac failure_at_once :=
  cbv [bind logger obj throw ret sequence map fst snd Date_now minus get
       nullish TypeError tpl_s tpl sub lit text_of ToString];
  cbn [stringable prop assoc String.eqb Ascii.eqb Bool.eqb];
  cbv [bind logger obj throw ret sequence map fst snd Date_now minus get
       nullish TypeError tpl_s tpl sub lit text_of ToString stringable];
  cbn [with_trace trace clock this];
  rewrite ?Z.sub_diag, <- ?app_assoc.

(** X6: each workflow called with [null] or [undefined] for the user context:
    the evaluation of the arguments of the first call throws, at the
    first token read if not before, so that no call is made, and the
    [catch] block returns the failure envelope at once. *)
Theorem context_missing_fails_without_calls w args uc rid h s :
  nullish uc = true -> nullish args = false ->
  exists env logs,
    procedure w args uc rid h s = (Ok env, with_trace s (trace s ++ logs))
    /\ success env = false /\ details env = None /\ executionTime env = "0ms"
    /\ methods logs = [].
Proof.
  intros Huc Hargs. destruct w; cbn [procedure].
  - unfold scheduleCodeReview. rewrite bind_run.
    change (Date_now h s) with (Ok (VNum (wallclock h (clock s))), s). cbv beta iota.
    erewrite try_catch_Throw.
    2:{ rewrite bind_run. rewrite !(get_run args) by exact Hargs.
        erewrite logger_run by reflexivity.
        rewrite bind_run. erewrite await_all2_Throw; [reflexivity | ].
        rewrite !(get_throw uc) by exact Huc. reflexivity. }
    failure_at_once.
    eexists _, _. split; [reflexivity | ]. repeat split.
  - unfold createProjectKickoff. rewrite bind_run.
    change (Date_now h s) with (Ok (VNum (wallclock h (clock s))), s). cbv beta iota.
    rewrite !(get_run args) by exact Hargs.
    destruct (nullish (prop args "team_members")) eqn:Hteam.
    + erewrite try_catch_Throw.
      2:{ rewrite bind_run. unfold member. rewrite bind_ret_l.
          rewrite (get_throw _ "length" Hteam). reflexivity. }
      failure_at_once. eexists _, _. split; [reflexivity | ]. repeat split.
    + erewrite try_catch_Throw.
      2:{ rewrite bind_run. unfold member. rewrite bind_ret_l.
          rewrite (get_run _ "length" Hteam).
          erewrite logger_run by reflexivity.
          rewrite bind_run. erewrite call_Throw; [reflexivity | ].
          rewrite !(get_throw uc) by exact Huc. reflexivity. }
      failure_at_once. eexists _, _. split; [reflexivity | ]. repeat split.
  - unfold handleIncidentResponse. rewrite bind_run.
    change (Date_now h s) with (Ok (VNum (wallclock h (clock s))), s). cbv beta iota.
    rewrite !(get_run args) by exact Hargs.
    destruct (stringable (prop args "title")) eqn:Htitle.
    + erewrite try_catch_Throw.
      2:{ rewrite bind_run. erewrite logger_run by reflexivity.
          rewrite bind_run. erewrite call_Throw; [reflexivity | ].
          rewrite !(get_throw uc) by exact Huc.
          cbv [sequence bind ret env obj map fst snd tpl sub lit str ToString].
          rewrite Htitle. reflexivity. }
      failure_at_once. eexists _, _. split; [reflexivity | ]. repeat split.
    + erewrite try_catch_Throw.
      2:{ rewrite bind_run. erewrite logger_run by reflexivity.
          rewrite bind_run. erewrite call_Throw; [reflexivity | ].
          cbv [sequence bind ret env obj map fst snd tpl sub lit str ToString].
          rewrite Htitle. reflexivity. }
      failure_at_once. eexists _, _. split; [reflexivity | ]. repeat split.
Qed.

Lemma context_missing_fails_without_calls_witness :
  exists env logs,
    procedure IncidentResponse (incidentRequest "critical") VNull (VStr "req-1")
      (host_of obliging 100) state0 = (Ok env, with_trace state0 (trace state0 ++ logs))
    /\ success env = false /\ details env = None /\ executionTime env = "0ms"
    /\ methods logs = [].
Proof.
  apply (context_missing_fails_without_calls IncidentResponse (incidentRequest "critical")
           VNull (VStr "req-1") (host_of obliging 100) state0); reflexivity.
Defined.

(** X7: [createProjectKickoff] for a request without [team_members]: the
    opening log line reads [args.team_members.length], which throws
    before anything is logged or called; the [catch] block returns the
    failure envelope at once. *)
Theorem kickoff_without_team_fails_without_calls args uc rid h s :
  nullish args = false -> nullish (prop args "team_members") = true ->
  exists text meta msg,
    createProjectKickoff args uc rid h s =
      (Ok {| success := false; message := "Failed to create project: " ++ msg;
             executionTime := "0ms"; details := None |},
       with_trace s (trace s ++ [Log "error" text meta])).
Proof.
  intros Hargs Hteam. unfold createProjectKickoff. rewrite bind_run.
  change (Date_now h s) with (Ok (VNum (wallclock h (clock s))), s). cbv beta iota.
  rewrite !(get_run args) by exact Hargs.
  erewrite try_catch_Throw.
  2:{ rewrite bind_run. unfold member. rewrite bind_ret_l.
      rewrite (get_throw _ "length" Hteam). reflexivity. }
  failure_at_once. do 3 eexists. reflexivity.
Qed.

Lemma kickoff_without_team_fails_without_calls_witness :
  exists text meta msg,
    createProjectKickoff (VObj [("project_name", VStr "Apollo")]) userContext0
      (VStr "req-1") (host_of obliging 100) state0 =
      (Ok {| success := false; message := "Failed to create project: " ++ msg;
             executionTime := "0ms"; details := None |},
       with_trace state0 (trace state0 ++ [Log "error" text meta])).
Proof.
  apply (kickoff_without_team_fails_without_calls (VObj [("project_name", VStr "Apollo")])
           userContext0 (VStr "req-1") (host_of obliging 100) state0); reflexivity.
Defined.


(* ================================================================= *)
(** ** The calls of a successful run, argument by argument *)

Lemma get_inv v k h s x s' :
  get v k h s = (Ok x, s') -> nullish v = false /\ x = prop v k /\ s' = s.
Proof.
  unfold get. destruct (nullish v); [discriminate | ].
  intros [= <- <-]. repeat split.
Qed.

Lemma sequence_nil_inv {A} h s (a : list A) s' :
  sequence [] h s = (Ok a, s') -> a = [] /\ s' = s.
Proof. intros [= <- <-]. split; reflexivity. Qed.

(** The join of two calls that both succeeded. *)
Lemma await_all2_inv t1 n1 args1 t2 n2 args2 h s both s' :
  Forall pure args1 -> Forall pure args2 ->
  await_all [invoke t1 n1 args1; invoke t2 n2 args2] h s = (Ok both, s') ->
  exists a1 r1 v1 a2 r2 v2,
    sequence args1 h s = (Ok a1, s)
    /\ sequence args2 h (with_trace s (trace s ++ [Call (clock s) (t1 (this s)) n1 a1 r1]))
       = (Ok a2, with_trace s (trace s ++ [Call (clock s) (t1 (this s)) n1 a1 r1]))
    /\ outcome r1 = Fulfilled v1 /\ outcome r2 = Fulfilled v2
    /\ both = VArr [v1; v2]
    /\ this s' = this s
    /\ clock s' = clock s + Z.max (Z.of_N (latency r1)) (Z.of_N (latency r2))
    /\ trace s' = (trace s ++ [Call (clock s) (t1 (this s)) n1 a1 r1;
                               Call (clock s) (t2 (this s)) n2 a2 r2])%list.
Proof.
  intros Hp1 Hp2 H. unfold await_all in H. cbn [sequence] in H.
  destruct (sequence_pure_run args1 h s Hp1) as [[a1 Ha1] | (e & He & _)].
  2:{ unfold bind in H. rewrite (invoke_Throw _ _ _ _ _ _ _ He) in H. discriminate H. }
  rewrite bind_run, bind_run, (invoke_Ok _ _ _ _ _ _ Ha1) in H.
  rewrite bind_run, bind_run in H.
  match type of H with context [invoke t2 n2 args2 h ?s1] =>
    destruct (sequence_pure_run args2 h s1 Hp2) as [[a2 Ha2] | (e & He & _)];
    [rewrite (invoke_Ok _ _ _ _ _ _ Ha2) in H
    | rewrite (invoke_Throw _ _ _ _ _ _ _ He) in H; discriminate H]
  end.
  unfold ret, Promise_all, await, promise_of, issue, bind in H.
  cbn [first_rejection settlement settles map fold_right fulfilment
       with_trace with_clock this clock trace] in *.
  set (r1 := respond h (trace s) (t1 (this s)) n1 a1) in *.
  set (r2 := respond h (trace s ++ [Call (clock s) (t1 (this s)) n1 a1 r1])
               (t2 (this s)) n2 a2) in *.
  exists a1, r1.
  destruct (outcome r1) as [v1 | e1] eqn:E1; destruct (outcome r2) as [v2 | e2] eqn:E2;
    cbn [settlement] in H; rewrite ?E1, ?E2 in H;
    try discriminate H.
  - exists v1, a2, r2, v2. injection H as <- <-.
    cbn [this clock trace with_clock with_trace].
    split; [exact Ha1 | ]. split; [exact Ha2 | ].
    repeat split; try assumption.
    + pose proof (N2Z.is_nonneg (latency r1)). pose proof (N2Z.is_nonneg (latency r2)).
      lia.
    + rewrite <- app_assoc. reflexivity.
  - exfalso. destruct (_ <=? _); cbn [settlement] in H; rewrite ?E1, ?E2 in H;
      discriminate H.
Qed.

(** The next argument of a call, and what it evaluated to. *)
Ltac next_arg H x Hx :=
  let s1 := fresh "s" in
  let r := fresh "rest" in
  apply sequence_cons_inv in H; destruct H as (x & s1 & r & Hx & H & ->);
  let Hs := fresh "Hs" in
  assert (Hs : s1 = _) by (eapply pure_state; [ | exact Hx]; purity); subst s1.

(** [l.map(email => email.split('@')[0])] returns only on an array of
    strings, with the part of each before its ['@']. *)
Lemma local_parts_inv v h s r s' :
  Array_map v split_at_0 h s = (Ok r, s') ->
  exists l, v = VArr (map VStr l) /\ r = VArr (local_parts l).
Proof.
  unfold Array_map, method. destruct (nullish v); [discriminate | ].
  destruct v as [ | | | | | | l0 | ]; try discriminate.
  intro H. apply bind_Ok in H as (r0 & s1 & Hseq & H). injection H as <- _.
  revert r0 s Hseq. induction l0 as [ | x l0 IH]; intros r0 s Hseq.
  - injection Hseq as <- _. exists []. split; reflexivity.
  - cbn [map] in Hseq.
    apply sequence_cons_inv in Hseq as (y & s2 & r1 & Hy & Hseq & ->).
    destruct (IH _ _ Hseq) as (l & Hl & Hr).
    unfold split_at_0, method in Hy.
    destruct (nullish x); [discriminate | ].
    destruct x as [ | | | | a | | | ]; try discriminate.
    injection Hy as <- _. exists (a :: l).
    injection Hl as ->. injection Hr as ->. split; reflexivity.
Qed.

(** A call that returned: its arguments were evaluated, it was fulfilled,
    and the procedure resumed when it had settled. *)
Lemma call_returned target name args h s v s' :
  Forall pure args ->
  call target name args h s = (Ok v, s') ->
  exists a r,
    sequence args h s = (Ok a, s) /\
    r = respond h (trace s) (target (this s)) name a /\
    outcome r = Fulfilled v /\
    this s' = this s /\ clock s' = clock s + Z.of_N (latency r) /\
    trace s' = (trace s ++ [Call (clock s) (target (this s)) name a r])%list.
Proof.
  intros Hp H.
  destruct (sequence_pure_run args h s Hp) as [[a Ha] | (e & He & _)].
  - rewrite (call_Ok _ _ _ _ _ _ Ha) in H. cbv zeta in H. unfold settle, issue in H.
    exists a. eexists. split; [exact Ha | ]. split; [reflexivity | ].
    destruct (outcome (respond h (trace s) (target (this s)) name a));
      [ | discriminate H].
    injection H as <- <-. cbn [this clock trace]. repeat split.
    pose proof (N2Z.is_nonneg (latency (respond h (trace s) (target (this s)) name a))).
    lia.
  - rewrite (call_Throw _ _ _ _ _ _ _ He) in H. discriminate H.
Qed.

Ltac call_returns H v s1 a r Hseq Hout Hclock Htr :=
  let Hc := fresh "Hc" in
  let Hthis := fresh "Hthis" in
  let Hr := fresh "Hr" in
  apply bind_Ok in H; destruct H as (v & s1 & Hc & H);
  apply call_returned in Hc; [ | purity];
  destruct Hc as (a & r & Hseq & Hr & Hout & Hthis & Hclock & Htr); clear Hr.

(** A template that returned: each of its substitutions converted to a
    string. *)
Ltac template H :=
  cbv [tpl_s tpl obj arr item str sequence bind lit ret sub ToString text_of
       map fst snd] in H;
  repeat (first
            [ match goal with
              | E : stringable ?v = true |- _ =>
                  match type of H with
                  | context [if stringable v then _ else _] => rewrite E in H
                  end
              end
            | match type of H with
              | context [if stringable ?v then _ else _] =>
                  let E := fresh "Hst" in
                  destruct (stringable v) eqn:E; [ | discriminate H]
              end ];
          cbv beta iota in H).

(** [`${a}${v.k}`] *)
Lemma tpl2_inv a v k h s x s' :
  tpl [lit a; sub (get v k)] h s = (Ok x, s') ->
  nullish v = false /\ x = VStr (a ++ to_string h (prop v k)).
Proof.
  unfold get. destruct (nullish v); [discriminate | ].
  intro H. template H. injection H as <- _. split; reflexivity.
Qed.


(** The successful runs of the code review, call by call. *)
Lemma scheduleCodeReview_trace args uc rid h s env s' :
  scheduleCodeReview args uc rid h s = (Ok env, s') ->
  success env = true ->
  exists m0 r1 pr r2 iss attendees t3 r3 slot channelData t4 r4 channel,
  exists spec t5 r5 meeting doc t6 r6 page msg t7 r7,
    trace s' =
      (trace s
       ++ [Log "info" "Starting code review workflow" m0;
           Call (clock s) (github (this s)) "getPullRequest"
             [prop args "repository"; prop args "pr_number"; prop uc "githubToken"; rid] r1;
           Call (clock s) (github (this s)) "getIssue"
             [prop args "repository"; prop args "issue_number"; prop uc "githubToken"; rid]
             r2;
           Call t3 (calendar (this s)) "findOptimalTime"
             [attendees; prop uc "calendarToken"; rid;
              VObj [("duration", or_else (prop args "duration") (VNum 30));
                    ("timeMin", VDate (wallclock h t3 + 30 * 60 * 1000));
                    ("timeMax", VDate (wallclock h t3 + 24 * 60 * 60 * 1000));
                    ("workingHours", VObj [("start", VNum 9); ("end", VNum 17)]);
                    ("bufferMinutes", VNum 15)]] r3;
           Call t4 (slack (this s)) "createReviewChannel"
             [channelData; prop uc "slackToken"; rid] r4;
           Call t5 (calendar (this s)) "createMeeting"
             [spec; prop uc "calendarToken"; rid] r5;
           Call t6 (notion (this s)) "createDocument"
             [NOTION_PROJECTS_DB_ID h; doc; prop uc "notionToken"; rid] r6;
           Call t7 (slack (this s)) "sendMessage"
             [prop channel "id"; msg; prop uc "slackToken"; rid] r7])%list
    /\ outcome r1 = Fulfilled pr /\ outcome r2 = Fulfilled iss
    /\ outcome r3 = Fulfilled slot /\ outcome r4 = Fulfilled channel
    /\ outcome r5 = Fulfilled meeting /\ outcome r6 = Fulfilled page
    /\ t3 = clock s + Z.max (Z.of_N (latency r1)) (Z.of_N (latency r2))
    /\ (exists s1, attendeeSet args pr h s1 = (Ok attendees, s1))
    /\ (exists s1, reviewChannelName args pr h s1 = (Ok (prop channelData "name"), s1))
    /\ (exists s1, Array_map attendees split_at_0 h s1 = (Ok (prop channelData "members"), s1))
    /\ prop channelData "type" = VStr "review"
    /\ prop channelData "private" = VBool false
    /\ prop spec "startTime" = prop slot "start"
    /\ prop spec "endTime" = prop slot "end"
    /\ prop spec "attendees" = attendees
    /\ prop spec "location" = prop channel "webUrl"
    /\ prop doc "type" = VStr "Meeting Notes"
    /\ prop doc "owners" = attendees
    /\ t4 = t3 + Z.of_N (latency r3) /\ t5 = t4 + Z.of_N (latency r4)
    /\ t6 = t5 + Z.of_N (latency r5) /\ t7 = t6 + Z.of_N (latency r6)
    /\ clock s' = t7 + Z.of_N (latency r7)
    /\ message env = "Code review scheduled for PR #" ++ to_string h (prop args "pr_number")
    /\ exists d,
         details env = Some d
         /\ prop d "repository" = prop args "repository"
         /\ prop d "pr_number" = prop args "pr_number"
         /\ prop d "issue_number" = prop args "issue_number"
         /\ prop d "slack_channel" = VStr ("#" ++ to_string h (prop channel "name"))
         /\ prop d "slack_url" = prop channel "webUrl"
         /\ prop d "github_pr" = prop (prop pr "urls") "html"
         /\ prop d "github_issue" = prop iss "html_url"
         /\ prop (prop d "meeting") "time" = prop slot "formatted"
         /\ prop (prop d "meeting") "url"
            = or_else (prop meeting "hangoutLink") (prop meeting "htmlLink")
         /\ prop (prop d "meeting") "attendees" = attendees
         /\ prop (prop d "notion") "title"
            = VStr ("Code Review: " ++ to_string h (prop pr "title"))
         /\ prop (prop d "notion") "url" = prop page "url".
Proof.
  intros H Hs. unfold scheduleCodeReview in H. rewrite bind_run in H.
  change (Date_now h s) with (Ok (VNum (wallclock h (clock s))), s) in H. cbv beta iota in H.
  apply try_catch_run in H as [(env' & Hb & Henv) | (e & s1 & Hb & Hh)].
  2:{ clear Hb. catch_fails Hh Hs. }
  injection Henv as ->.
  apply bind_Ok in Hb as (u & s0 & Hlog & Hb).
  apply logger_Ok in Hlog as (Hthis0 & Hclock0 & m0 & Hm0 & Htr0); [ | purity].
  assert (Hargs : nullish args = false).
  { destruct (nullish args) eqn:Hn; [ | reflexivity]. exfalso.
    rewrite !(get_throw args) in Hm0 by exact Hn.
    cbv [obj bind throw ret sequence map fst snd] in Hm0. discriminate Hm0. }
  apply bind_Ok in Hb as (both & s1 & Hjoin & Hb).
  apply await_all2_inv in Hjoin; [ | purity | purity].
  destruct Hjoin as (a1 & r1 & pr & a2 & r2 & iss & Ha1 & Ha2 & E1 & E2 & -> & Hthis1
                     & Hclock1 & Htr1).
  assert (Huc : nullish uc = false).
  { destruct (nullish uc) eqn:Hn; [ | reflexivity]. exfalso.
    rewrite !(get_run args) in Ha1 by exact Hargs.
    rewrite !(get_throw uc) in Ha1 by exact Hn. discriminate Ha1. }
  rewrite !(get_run args), !(get_run uc) in Ha1, Ha2 by assumption.
  injection Ha1 as <-. injection Ha2 as <-.
  rewrite !(get_run args), !(get_run uc) in Hb by assumption.
  cbv zeta in Hb. cbn [index nth] in Hb.
  apply bind_Ok in Hb as (attendees & s2 & Hatt & Hb).
  assert (s2 = s1) by (apply (pure_state _ _ _ _ _ (pure_attendeeSet _ _) Hatt)). subst s2.
  call_returns Hb slot s3 a3 r3 Hseq3 Hout3 Hclock3 Htr3.
  assert (Hopts : a3 = [attendees; prop uc "calendarToken"; rid;
              VObj [("duration", or_else (prop args "duration") (VNum 30));
                    ("timeMin", VDate (wallclock h (clock s1) + 30 * 60 * 1000));
                    ("timeMax", VDate (wallclock h (clock s1) + 24 * 60 * 60 * 1000));
                    ("workingHours", VObj [("start", VNum 9); ("end", VNum 17)]);
                    ("bufferMinutes", VNum 15)]]).
  { unfold or_else. revert Hseq3.
    cbv [sequence bind ret obj map fst snd num Date_now plus Date_of orE].
    destruct (truthy (prop args "duration")); intros [= <-]; reflexivity. }
  subst a3. clear Hseq3.
  apply bind_Ok in Hb as (channelData & s4 & Hcd & Hb).
  assert (s4 = s3) by (eapply pure_state; [ | exact Hcd]; purity). subst s4.
  read_field Hcd "name" x1 Hname Hk1.
  read_field Hcd "type" x2 Htype Hk2.
  read_field Hcd "private" x3 Hprivate Hk3.
  read_field Hcd "members" x4 Hmembers Hk4.
  injection Htype as <-. injection Hprivate as <-.
  call_returns Hb channel s5 a4 r4 Hseq4 Hout4 Hclock4 Htr4.
  cbv [sequence bind ret] in Hseq4. injection Hseq4 as <-.
  call_returns Hb meeting s6 a5 r5 Hseq5 Hout5 Hclock5 Htr5.
  next_arg Hseq5 spec Hspec.
  cbv [sequence bind ret] in Hseq5. injection Hseq5 as <-.
  read_field Hspec "startTime" y1 Hy1 Hstart.
  read_field Hspec "endTime" y2 Hy2 Hend.
  read_field Hspec "attendees" y3 Hy3 Hatts.
  read_field Hspec "location" y4 Hy4 Hloc.
  apply get_inv in Hy1 as (_ & -> & _). apply get_inv in Hy2 as (_ & -> & _).
  injection Hy3 as <-. apply get_inv in Hy4 as (_ & -> & _).
  call_returns Hb page s7 a6 r6 Hseq6 Hout6 Hclock6 Htr6.
  next_arg Hseq6 db Hdb. injection Hdb as <-.
  next_arg Hseq6 doc Hdoc.
  cbv [sequence bind ret] in Hseq6. injection Hseq6 as <-.
  read_field Hdoc "type" z1 Hz1 Hdoctype.
  read_field Hdoc "owners" z2 Hz2 Howners.
  injection Hz1 as <-. injection Hz2 as <-.
  call_returns Hb ack s8 a7 r7 Hseq7 Hout7 Hclock7 Htr7.
  next_arg Hseq7 target Htarget. apply get_inv in Htarget as (_ & -> & _).
  next_arg Hseq7 msg Hmsg.
  cbv [sequence bind ret] in Hseq7. injection Hseq7 as <-.
  pure_step Hb.
  apply bind_Ok in Hb as (text & s9 & Htext & Hb).
  template Htext. injection Htext as <- <-.
  pure_step Hb.
  apply bind_Ok in Hb as (d & s10 & Hd & Hb).
  assert (s10 = s8) by (eapply pure_state; [ | exact Hd]; purity). subst s10.
  injection Hb as <- <-.
  read_field Hd "repository" d1 Hd1 Hrepository.
  read_field Hd "pr_number" d2 Hd2 Hpr_number.
  read_field Hd "issue_number" d3 Hd3 Hissue_number.
  read_field Hd "slack_channel" d4 Hd4 Hslack_channel.
  read_field Hd "slack_url" d5 Hd5 Hslack_url.
  read_field Hd "github_pr" d6 Hd6 Hgithub_pr.
  read_field Hd "github_issue" d7 Hd7 Hgithub_issue.
  read_field Hd "meeting" d8 Hd8 Hmeeting.
  read_field Hd "notion" d9 Hd9 Hnotion.
  injection Hd1 as <-. injection Hd2 as <-. injection Hd3 as <-.
  apply tpl2_inv in Hd4 as (_ & ->). apply get_inv in Hd5 as (_ & -> & _).
  apply bind_Ok in Hd6 as (urls & su & Hurls & Hd6).
  apply get_inv in Hurls as (_ & -> & ->). apply get_inv in Hd6 as (_ & -> & _).
  apply get_inv in Hd7 as (_ & -> & _).
  read_field Hd8 "time" m1 Hm1 Htime.
  read_field Hd8 "url" m2 Hm2 Hurl.
  read_field Hd8 "attendees" m3 Hm3 Hwho.
  apply get_inv in Hm1 as (Hslot & -> & _). injection Hm3 as <-.
  assert (Hlink : m2 = or_else (prop meeting "hangoutLink") (prop meeting "htmlLink")).
  { unfold joinLink, orE in Hm2.
    apply bind_Ok in Hm2 as (l1 & sl & Hl1 & Hm2).
    apply get_inv in Hl1 as (Hmeet & -> & ->). unfold or_else.
    destruct (truthy (prop meeting "hangoutLink")).
    - injection Hm2 as <-. reflexivity.
    - apply get_inv in Hm2 as (_ & -> & _). reflexivity. }
  rewrite Hlink in Hurl.
  read_field Hd9 "title" n1 Hn1 Hntitle.
  read_field Hd9 "url" n2 Hn2 Hnurl.
  apply tpl2_inv in Hn1 as (_ & ->). apply get_inv in Hn2 as (_ & -> & _).
  repeat match goal with
         | Ht : this ?a = this ?b |- _ => rewrite Ht in *; clear Ht
         end.
  exists m0, r1, pr, r2, iss, attendees.
  eexists (clock s1), r3, slot, channelData, (clock s3), r4, channel.
  eexists spec, (clock s5), r5, meeting, doc, (clock s6), r6, page, msg, (clock s7), r7.
  split.
  { rewrite Htr7, Htr6, Htr5, Htr4, Htr3, Htr1, Htr0, Hclock0.
    rewrite <- !app_assoc. cbn [app]. reflexivity. }
  repeat (split; [eassumption | ]).
  split; [rewrite Hclock1, Hclock0; reflexivity | ].
  split; [exists s1; exact Hatt | ].
  split; [exists s3; rewrite Hk1; exact Hname | ].
  split; [exists s3; rewrite Hk4; exact Hmembers | ].
  repeat (split; [assumption | ]).
  split; [reflexivity | ].
  exists d. split; [reflexivity | ].
  rewrite Hmeeting, Hnotion. repeat split; assumption.
Qed.


Section CodeReview.
Variables (args uc rid : value) (h : host) (s : state).
Variables (env : ResultEnvelope) (new : list event).
Hypothesis Hrun : fst (scheduleCodeReview args uc rid h s) = Ok env.
Hypothesis Hsuccess : success env = true.
Hypothesis Htrace :
  trace (snd (scheduleCodeReview args uc rid h s)) = (trace s ++ new)%list.

(** X8: a successful code review makes seven calls: the two fetches to
    github, then [findOptimalTime] to the calendar, [createReviewChannel]
    to slack, [createMeeting] to the calendar, [createDocument] to
    notion and [sendMessage] to slack.  Each call carries the token of
    its platform from the user context and the correlation id; the
    document goes to the database of [NOTION_PROJECTS_DB_ID], and the
    message to the [id] of the channel that was created. *)
Theorem code_review_calls_and_credentials :
  methods new = ["getPullRequest"; "getIssue"; "findOptimalTime"; "createReviewChannel";
                 "createMeeting"; "createDocument"; "sendMessage"]
  /\ targets new = [github (this s); github (this s); calendar (this s); slack (this s);
                    calendar (this s); notion (this s); slack (this s)]
  /\ exists attendees options channelData channel meeting document message,
       arguments new =
         [[prop args "repository"; prop args "pr_number"; prop uc "githubToken"; rid];
          [prop args "repository"; prop args "issue_number"; prop uc "githubToken"; rid];
          [attendees; prop uc "calendarToken"; rid; options];
          [channelData; prop uc "slackToken"; rid];
          [meeting; prop uc "calendarToken"; rid];
          [NOTION_PROJECTS_DB_ID h; document; prop uc "notionToken"; rid];
          [prop channel "id"; message; prop uc "slackToken"; rid]]
       /\ outcomes "createReviewChannel" new = [Fulfilled channel].
Proof.
  destruct (scheduleCodeReview args uc rid h s) as [r s'] eqn:E.
  cbn [fst snd] in *. subst r.
  destruct (scheduleCodeReview_trace _ _ _ _ _ _ _ E Hsuccess)
    as (m0 & r1 & pr & r2 & iss & attendees & t3 & r3 & slot & channelData & t4 & r4
        & channel & spec & t5 & r5 & meeting & doc & t6 & r6 & page & msg & t7 & r7
        & Htr & E1 & E2 & E3 & E4 & E5 & E6 & _).
  rewrite Htrace in Htr. apply app_inv_head in Htr. subst new.
  split; [reflexivity | ]. split; [reflexivity | ].
  exists attendees. eexists. exists channelData, channel, spec, doc, msg.
  split; [reflexivity | ].
  cbn. rewrite E4. reflexivity.
Qed.

(** What opens each proof below: the run, call by call. *)
Ltac code_review_run :=
  destruct (scheduleCodeReview args uc rid h s) as [r s'] eqn:E;
  cbn [fst snd] in *; subst r;
  destruct (scheduleCodeReview_trace _ _ _ _ _ _ _ E Hsuccess)
    as (m0 & r1 & pr & r2 & iss & attendees & t3 & r3 & slot & channelData & t4 & r4
        & channel & spec & t5 & r5 & meeting & doc & t6 & r6 & page & msg & t7 & r7
        & Htr & E1 & E2 & E3 & E4 & E5 & E6 & Ht3 & Hatt & Hname & Hmembers & Htype
        & Hprivate & Hstart & Hend & Hattendees & Hlocation & Hdoctype & Howners
        & Ht4 & Ht5 & Ht6 & Ht7 & Hreturn & Hmessage & d & Hdetails & Hd);
  rewrite Htrace in Htr; apply app_inv_head in Htr; subst new.

(** X9: the scheduler is asked once, when both fetches have arrived, for a
    slot for the attendee set (lines 63-80): of [args.duration] minutes,
    and of 30 when the request has no duration or a falsy one, not
    before 30 minutes and not after 24 hours from what [Date.now()]
    reads at the call, within working hours 9 to 17, with a buffer of 15
    minutes. *)
Theorem code_review_scheduling_window :
  exists t pr attendees,
    calls_to "findOptimalTime" new =
      [(t, [attendees; prop uc "calendarToken"; rid;
            VObj [("duration", or_else (prop args "duration") (VNum 30));
                  ("timeMin", VDate (wallclock h t + 30 * 60 * 1000));
                  ("timeMax", VDate (wallclock h t + 24 * 60 * 60 * 1000));
                  ("workingHours", VObj [("start", VNum 9); ("end", VNum 17)]);
                  ("bufferMinutes", VNum 15)]])]
    /\ outcomes "getPullRequest" new = [Fulfilled pr]
    /\ (exists st, attendeeSet args pr h st = (Ok attendees, st))
    /\ clock s <= t.
Proof.
  code_review_run. exists t3, pr, attendees.
  split; [reflexivity | ]. split; [cbn; rewrite E1; reflexivity | ].
  split; [exact Hatt | ]. subst t3.
  pose proof (N2Z.is_nonneg (latency r1)). lia.
Qed.

(** X10: the review channel (lines 83-112) is public, of type "review", named
    by line 84 from the PR number and the title of the pull request that
    was fetched; the attendees are all strings, and the members of the
    channel are the parts of their addresses before the ['@'], in the
    same order. *)
Theorem code_review_channel_members :
  exists t channelData pr l,
    calls_to "createReviewChannel" new = [(t, [channelData; prop uc "slackToken"; rid])]
    /\ outcomes "getPullRequest" new = [Fulfilled pr]
    /\ (exists st, reviewChannelName args pr h st = (Ok (prop channelData "name"), st))
    /\ prop channelData "type" = VStr "review"
    /\ prop channelData "private" = VBool false
    /\ (exists st, attendeeSet args pr h st = (Ok (VArr (map VStr l)), st))
    /\ prop channelData "members" = VArr (local_parts l).
Proof.
  code_review_run. destruct Hmembers as (st & Hmembers).
  apply local_parts_inv in Hmembers as (l & -> & Hl).
  exists t4, channelData, pr, l.
  split; [reflexivity | ]. split; [cbn; rewrite E1; reflexivity | ].
  repeat split; assumption.
Qed.

(** X11: the meeting (lines 115-133) is created at the slot the scheduler
    returned: its [startTime] and [endTime] are the [start] and [end] of
    the scheduler's answer; its attendees are those the scheduler was
    asked about, and its location is the [webUrl] of the channel that
    was created. *)
Theorem code_review_meeting_at_slot :
  exists t meeting slot channel attendees rest,
    calls_to "createMeeting" new = [(t, [meeting; prop uc "calendarToken"; rid])]
    /\ outcomes "findOptimalTime" new = [Fulfilled slot]
    /\ outcomes "createReviewChannel" new = [Fulfilled channel]
    /\ map snd (calls_to "findOptimalTime" new) = [attendees :: rest]
    /\ prop meeting "startTime" = prop slot "start"
    /\ prop meeting "endTime" = prop slot "end"
    /\ prop meeting "attendees" = attendees
    /\ prop meeting "location" = prop channel "webUrl".
Proof.
  code_review_run. exists t5, spec, slot, channel, attendees. eexists.
  split; [reflexivity | ]. split; [cbn; rewrite E3; reflexivity | ].
  split; [cbn; rewrite E4; reflexivity | ]. split; [reflexivity | ].
  repeat split; assumption.
Qed.

(** X12: the notes (lines 136-169) are one document of type "Meeting Notes"
    in the database of [NOTION_PROJECTS_DB_ID], owned by the attendees
    of the meeting. *)
Theorem code_review_notes_owned_by_attendees :
  exists t document meeting rest,
    calls_to "createDocument" new
      = [(t, [NOTION_PROJECTS_DB_ID h; document; prop uc "notionToken"; rid])]
    /\ map snd (calls_to "createMeeting" new) = [meeting :: rest]
    /\ prop document "type" = VStr "Meeting Notes"
    /\ prop document "owners" = prop meeting "attendees".
Proof.
  code_review_run. exists t6, doc, spec. eexists.
  split; [reflexivity | ]. split; [reflexivity | ].
  split; [assumption | congruence].
Qed.

(** X13: the calls of a code review run one after the other, but for the two
    fetches: each call is issued when the one before it has settled,
    and the workflow returns when the last has.  A successful run takes
    the longer of the two fetches and the sum of the five calls that
    follow. *)
Theorem code_review_takes_the_sum_of_latencies :
  exists l1 l2 l3 l4 l5 l6 l7,
    latencies new = [l1; l2; l3; l4; l5; l6; l7]
    /\ instants new =
         [clock s; clock s;
          clock s + Z.max l1 l2;
          clock s + Z.max l1 l2 + l3;
          clock s + Z.max l1 l2 + l3 + l4;
          clock s + Z.max l1 l2 + l3 + l4 + l5;
          clock s + Z.max l1 l2 + l3 + l4 + l5 + l6]
    /\ clock (snd (scheduleCodeReview args uc rid h s))
       = clock s + Z.max l1 l2 + l3 + l4 + l5 + l6 + l7.
Proof.
  code_review_run. do 7 eexists. split; [reflexivity | ].
  cbn [snd instants flat_map instant_of app]. subst t7 t6 t5 t4 t3.
  split; [reflexivity | exact Hreturn].
Qed.

(** X14: what a successful code review returns (lines 250-274): the message
    "Code review scheduled for PR #" and the PR number, and in [details]
    the repository and the two numbers of the request, the name (after
    "#") and the [webUrl] of the channel as slack answered them, the
    [urls.html] of the pull request and the [html_url] of the issue as
    github answered them, the [formatted] time of the scheduler's slot,
    the [hangoutLink] of the meeting (its [htmlLink] when it has none),
    the attendees, and the [url] of the notes as notion answered it. *)
Theorem code_review_details_echo_answers :
  exists pr iss slot channel meeting page attendees rest d,
    outcomes "getPullRequest" new = [Fulfilled pr]
    /\ outcomes "getIssue" new = [Fulfilled iss]
    /\ outcomes "findOptimalTime" new = [Fulfilled slot]
    /\ outcomes "createReviewChannel" new = [Fulfilled channel]
    /\ outcomes "createMeeting" new = [Fulfilled meeting]
    /\ outcomes "createDocument" new = [Fulfilled page]
    /\ map snd (calls_to "findOptimalTime" new) = [attendees :: rest]
    /\ message env = "Code review scheduled for PR #" ++ to_string h (prop args "pr_number")
    /\ details env = Some d
    /\ prop d "repository" = prop args "repository"
    /\ prop d "pr_number" = prop args "pr_number"
    /\ prop d "issue_number" = prop args "issue_number"
    /\ prop d "slack_channel" = VStr ("#" ++ to_string h (prop channel "name"))
    /\ prop d "slack_url" = prop channel "webUrl"
    /\ prop d "github_pr" = prop (prop pr "urls") "html"
    /\ prop d "github_issue" = prop iss "html_url"
    /\ prop (prop d "meeting") "time" = prop slot "formatted"
    /\ prop (prop d "meeting") "url"
       = or_else (prop meeting "hangoutLink") (prop meeting "htmlLink")
    /\ prop (prop d "meeting") "attendees" = attendees
    /\ prop (prop d "notion") "title"
       = VStr ("Code Review: " ++ to_string h (prop pr "title"))
    /\ prop (prop d "notion") "url" = prop page "url".
Proof.
  code_review_run. exists pr, iss, slot, channel, meeting, page, attendees. eexists.
  exists d.
  split; [cbn; rewrite E1; reflexivity | ]. split; [cbn; rewrite E2; reflexivity | ].
  split; [cbn; rewrite E3; reflexivity | ]. split; [cbn; rewrite E4; reflexivity | ].
  split; [cbn; rewrite E5; reflexivity | ]. split; [cbn; rewrite E6; reflexivity | ].
  split; [reflexivity | ]. split; [exact Hmessage | ]. split; [exact Hdetails | ].
  exact Hd.
Qed.

End CodeReview.


Lemma code_review_calls_and_credentials_witness :
  let run := scheduleCodeReview reviewRequest userContext0 (VStr "req-1")
               (host_of obliging 100) state0 in
  let new := trace (snd run) in
  methods new = ["getPullRequest"; "getIssue"; "findOptimalTime"; "createReviewChannel";
                 "createMeeting"; "createDocument"; "sendMessage"]
  /\ targets new = [github (this state0); github (this state0); calendar (this state0); slack (this state0);
                    calendar (this state0); notion (this state0); slack (this state0)]
  /\ exists attendees options channelData channel meeting document message,
       arguments new =
         [[prop reviewRequest "repository"; prop reviewRequest "pr_number"; prop userContext0 "githubToken"; (VStr "req-1")];
          [prop reviewRequest "repository"; prop reviewRequest "issue_number"; prop userContext0 "githubToken"; (VStr "req-1")];
          [attendees; prop userContext0 "calendarToken"; (VStr "req-1"); options];
          [channelData; prop userContext0 "slackToken"; (VStr "req-1")];
          [meeting; prop userContext0 "calendarToken"; (VStr "req-1")];
          [NOTION_PROJECTS_DB_ID (host_of obliging 100); document; prop userContext0 "notionToken"; (VStr "req-1")];
          [prop channel "id"; message; prop userContext0 "slackToken"; (VStr "req-1")]]
       /\ outcomes "createReviewChannel" new = [Fulfilled channel].
Proof.
  cbv zeta.
  eapply (code_review_calls_and_credentials reviewRequest userContext0 (VStr "req-1") (host_of obliging 100) state0).
  - vm_compute. reflexivity.
  - reflexivity.
  - vm_compute. reflexivity.
Defined.

Lemma code_review_scheduling_window_witness :
  let run := scheduleCodeReview reviewRequest userContext0 (VStr "req-1")
               (host_of obliging 100) state0 in
  let new := trace (snd run) in
  exists t pr attendees,
    calls_to "findOptimalTime" new =
      [(t, [attendees; prop userContext0 "calendarToken"; (VStr "req-1");
            VObj [("duration", or_else (prop reviewRequest "duration") (VNum 30));
                  ("timeMin", VDate (wallclock (host_of obliging 100) t + 30 * 60 * 1000));
                  ("timeMax", VDate (wallclock (host_of obliging 100) t + 24 * 60 * 60 * 1000));
                  ("workingHours", VObj [("start", VNum 9); ("end", VNum 17)]);
                  ("bufferMinutes", VNum 15)]])]
    /\ outcomes "getPullRequest" new = [Fulfilled pr]
    /\ (exists st, attendeeSet reviewRequest pr (host_of obliging 100) st = (Ok attendees, st))
    /\ clock state0 <= t.
Proof.
  cbv zeta.
  eapply (code_review_scheduling_window reviewRequest userContext0 (VStr "req-1") (host_of obliging 100) state0).
  - vm_compute. reflexivity.
  - reflexivity.
  - vm_compute. reflexivity.
Defined.

Lemma code_review_channel_members_witness :
  let run := scheduleCodeReview reviewRequest userContext0 (VStr "req-1")
               (host_of obliging 100) state0 in
  let new := trace (snd run) in
  exists t channelData pr l,
    calls_to "createReviewChannel" new = [(t, [channelData; prop userContext0 "slackToken"; (VStr "req-1")])]
    /\ outcomes "getPullRequest" new = [Fulfilled pr]
    /\ (exists st, reviewChannelName reviewRequest pr (host_of obliging 100) st = (Ok (prop channelData "name"), st))
    /\ prop channelData "type" = VStr "review"
    /\ prop channelData "private" = VBool false
    /\ (exists st, attendeeSet reviewRequest pr (host_of obliging 100) st = (Ok (VArr (map VStr l)), st))
    /\ prop channelData "members" = VArr (local_parts l).
Proof.
  cbv zeta.
  eapply (code_review_channel_members reviewRequest userContext0 (VStr "req-1") (host_of obliging 100) state0).
  - vm_compute. reflexivity.
  - reflexivity.
  - vm_compute. reflexivity.
Defined.

Lemma code_review_meeting_at_slot_witness :
  let run := scheduleCodeReview reviewRequest userContext0 (VStr "req-1")
               (host_of obliging 100) state0 in
  let new := trace (snd run) in
  exists t meeting slot channel attendees rest,
    calls_to "createMeeting" new = [(t, [meeting; prop userContext0 "calendarToken"; (VStr "req-1")])]
    /\ outcomes "findOptimalTime" new = [Fulfilled slot]
    /\ outcomes "createReviewChannel" new = [Fulfilled channel]
    /\ map snd (calls_to "findOptimalTime" new) = [attendees :: rest]
    /\ prop meeting "startTime" = prop slot "start"
    /\ prop meeting "endTime" = prop slot "end"
    /\ prop meeting "attendees" = attendees
    /\ prop meeting "location" = prop channel "webUrl".
Proof.
  cbv zeta.
  eapply (code_review_meeting_at_slot reviewRequest userContext0 (VStr "req-1") (host_of obliging 100) state0).
  - vm_compute. reflexivity.
  - reflexivity.
  - vm_compute. reflexivity.
Defined.

Lemma code_review_notes_owned_by_attendees_witness :
  let run := scheduleCodeReview reviewRequest userContext0 (VStr "req-1")
               (host_of obliging 100) state0 in
  let new := trace (snd run) in
  exists t document meeting rest,
    calls_to "createDocument" new
      = [(t, [NOTION_PROJECTS_DB_ID (host_of obliging 100); document; prop userContext0 "notionToken"; (VStr "req-1")])]
    /\ map snd (calls_to "createMeeting" new) = [meeting :: rest]
    /\ prop document "type" = VStr "Meeting Notes"
    /\ prop document "owners" = prop meeting "attendees".
Proof.
  cbv zeta.
  eapply (code_review_notes_owned_by_attendees reviewRequest userContext0 (VStr "req-1") (host_of obliging 100) state0).
  - vm_compute. reflexivity.
  - reflexivity.
  - vm_compute. reflexivity.
Defined.

Lemma code_review_takes_the_sum_of_latencies_witness :
  let run := scheduleCodeReview reviewRequest userContext0 (VStr "req-1")
               (host_of obliging 100) state0 in
  let new := trace (snd run) in
  exists l1 l2 l3 l4 l5 l6 l7,
    latencies new = [l1; l2; l3; l4; l5; l6; l7]
    /\ instants new =
         [clock state0; clock state0;
          clock state0 + Z.max l1 l2;
          clock state0 + Z.max l1 l2 + l3;
          clock state0 + Z.max l1 l2 + l3 + l4;
          clock state0 + Z.max l1 l2 + l3 + l4 + l5;
          clock state0 + Z.max l1 l2 + l3 + l4 + l5 + l6]
    /\ clock (snd (scheduleCodeReview reviewRequest userContext0 (VStr "req-1") (host_of obliging 100) state0))
       = clock state0 + Z.max l1 l2 + l3 + l4 + l5 + l6 + l7.
Proof.
  cbv zeta.
  eapply (code_review_takes_the_sum_of_latencies reviewRequest userContext0 (VStr "req-1") (host_of obliging 100) state0).
  - vm_compute. reflexivity.
  - reflexivity.
  - vm_compute. reflexivity.
Defined.

Lemma code_review_details_echo_answers_witness :
  let run := scheduleCodeReview reviewRequest userContext0 (VStr "req-1")
               (host_of obliging 100) state0 in
  let new := trace (snd run) in
  let env := returned (fst run) in
  exists pr iss slot channel meeting page attendees rest d,
    outcomes "getPullRequest" new = [Fulfilled pr]
    /\ outcomes "getIssue" new = [Fulfilled iss]
    /\ outcomes "findOptimalTime" new = [Fulfilled slot]
    /\ outcomes "createReviewChannel" new = [Fulfilled channel]
    /\ outcomes "createMeeting" new = [Fulfilled meeting]
    /\ outcomes "createDocument" new = [Fulfilled page]
    /\ map snd (calls_to "findOptimalTime" new) = [attendees :: rest]
    /\ message env = "Code review scheduled for PR #" ++ to_string (host_of obliging 100) (prop reviewRequest "pr_number")
    /\ details env = Some d
    /\ prop d "repository" = prop reviewRequest "repository"
    /\ prop d "pr_number" = prop reviewRequest "pr_number"
    /\ prop d "issue_number" = prop reviewRequest "issue_number"
    /\ prop d "slack_channel" = VStr ("#" ++ to_string (host_of obliging 100) (prop channel "name"))
    /\ prop d "slack_url" = prop channel "webUrl"
    /\ prop d "github_pr" = prop (prop pr "urls") "html"
    /\ prop d "github_issue" = prop iss "html_url"
    /\ prop (prop d "meeting") "time" = prop slot "formatted"
    /\ prop (prop d "meeting") "url"
       = or_else (prop meeting "hangoutLink") (prop meeting "htmlLink")
    /\ prop (prop d "meeting") "attendees" = attendees
    /\ prop (prop d "notion") "title"
       = VStr ("Code Review: " ++ to_string (host_of obliging 100) (prop pr "title"))
    /\ prop (prop d "notion") "url" = prop page "url".
Proof.
  cbv zeta.
  eapply (code_review_details_echo_answers reviewRequest userContext0 (VStr "req-1") (host_of obliging 100) state0).
  - vm_compute. reflexivity.
  - reflexivity.
  - vm_compute. reflexivity.
Defined.


(* ================================================================= *)
(** ** The project kickoff, call by call *)

Lemma repoName_inv args h s v s' :
  repoName args h s = (Ok v, s') ->
  exists p, prop args "project_name" = VStr p
            /\ v = VStr (replace_non_slug (String_toLowerCase p)).
Proof.
  unfold repoName. intro H. apply bind_Ok in H as (p & s1 & Hp & H).
  apply get_inv in Hp as (_ & -> & ->).
  unfold toLowerCase, replace, method in H.
  destruct (nullish (prop args "project_name")); [discriminate H | ].
  destruct (prop args "project_name") as [ | | | | p | | | ]; try discriminate H.
  injection H as <- _. exists p. split; reflexivity.
Qed.

(** The successful runs of the kickoff, call by call. *)
Lemma createProjectKickoff_trace args uc rid h s env s' :
  createProjectKickoff args uc rid h s = (Ok env, s') ->
  success env = true ->
  exists m0 page r1 notionProject p repository t2 r2 repo channelData t3 r3 channel,
  exists t4 r4 slot spec t5 r5 meeting msg t6 r6 m1,
    trace s' =
      (trace s
       ++ [Log "info" "Starting project kickoff workflow" m0;
           Call (clock s) (notion (this s)) "createProjectPage"
             [page; prop uc "notionToken"; rid] r1;
           Call t2 (github (this s)) "createRepository"
             [repository; prop uc "githubToken"; rid] r2;
           Call t3 (slack (this s)) "createReviewChannel"
             [channelData; prop uc "slackToken"; rid] r3;
           Call t4 (calendar (this s)) "findOptimalTime"
             [prop args "team_members"; prop uc "calendarToken"; rid;
              VObj [("duration", VNum 60);
                    ("timeMin", VDate (wallclock h t4));
                    ("timeMax", VDate (wallclock h t4 + 2 * 24 * 60 * 60 * 1000));
                    ("workingHours", VObj [("start", VNum 9); ("end", VNum 17)])]] r4;
           Call t5 (calendar (this s)) "createMeeting"
             [spec; prop uc "calendarToken"; rid] r5;
           Call t6 (slack (this s)) "sendMessage"
             [prop channel "id"; msg; prop uc "slackToken"; rid] r6;
           Log "info" "Project kickoff completed successfully" m1])%list
    /\ outcome r1 = Fulfilled notionProject /\ outcome r2 = Fulfilled repo
    /\ outcome r3 = Fulfilled channel /\ outcome r4 = Fulfilled slot
    /\ outcome r5 = Fulfilled meeting
    /\ page = VObj [("name", prop args "project_name");
                    ("databaseId", NOTION_PROJECTS_DB_ID h);
                    ("teamMembers", prop args "team_members");
                    ("deadline", prop args "deadline");
                    ("description", prop args "description")]
    /\ prop args "project_name" = VStr p
    /\ repository = VObj [("name", VStr (replace_non_slug (String_toLowerCase p)));
                          ("description", prop args "description");
                          ("private", VBool true);
                          ("team", prop args "team_members")]
    /\ channelData = VObj [("name", VStr ("proj-" ++ replace_non_slug (String_toLowerCase p)));
                           ("topic", VStr (p ++ " - Project Discussion"));
                           ("purpose", prop args "description");
                           ("private", VBool false);
                           ("members", prop args "team_members")]
    /\ prop spec "startTime" = prop slot "start"
    /\ prop spec "endTime" = prop slot "end"
    /\ prop spec "attendees" = prop args "team_members"
    /\ prop spec "location" = prop channel "webUrl"
    /\ prop spec "title" = VStr (p ++ " - Project Kickoff")
    /\ t2 = clock s + Z.of_N (latency r1) /\ t3 = t2 + Z.of_N (latency r2)
    /\ t4 = t3 + Z.of_N (latency r3) /\ t5 = t4 + Z.of_N (latency r4)
    /\ t6 = t5 + Z.of_N (latency r5) /\ clock s' = t6 + Z.of_N (latency r6)
    /\ message env = "Project " ++ p ++ " created successfully"
    /\ exists d,
         details env = Some d
         /\ prop (prop d "notion") "pageId" = prop notionProject "projectPageId"
         /\ prop (prop d "notion") "url" = prop notionProject "projectPageUrl"
         /\ prop (prop d "github") "name" = prop repo "name"
         /\ prop (prop d "github") "url" = prop repo "html_url"
         /\ prop (prop d "slack") "channel" = prop channel "name"
         /\ prop (prop d "slack") "url" = prop channel "webUrl"
         /\ prop (prop d "meeting") "id" = prop meeting "id"
         /\ prop (prop d "meeting") "time" = prop (prop meeting "start") "dateTime"
         /\ prop (prop d "meeting") "url" = prop meeting "htmlLink".
Proof.
  intros H Hs. unfold createProjectKickoff in H. rewrite bind_run in H.
  change (Date_now h s) with (Ok (VNum (wallclock h (clock s))), s) in H. cbv beta iota in H.
  apply try_catch_run in H as [(env' & Hb & Henv) | (e & s1 & Hb & Hh)].
  2:{ clear Hb. catch_fails Hh Hs. }
  injection Henv as ->.
  apply bind_Ok in Hb as (u & s0 & Hlog & Hb).
  apply logger_Ok in Hlog as (Hthis0 & Hclock0 & m0 & Hm0 & Htr0); [ | purity].
  assert (Hargs : nullish args = false).
  { destruct (nullish args) eqn:Hn; [ | reflexivity]. exfalso.
    rewrite !(get_throw args) in Hm0 by exact Hn.
    cbv [obj bind throw ret sequence map fst snd] in Hm0. discriminate Hm0. }
  rewrite !(get_run args) in Hb by exact Hargs.
  call_returns Hb notionProject s1 a1 r1 Hseq1 Hout1 Hclock1 Htr1.
  assert (Huc : nullish uc = false).
  { destruct (nullish uc) eqn:Hn; [ | reflexivity]. exfalso.
    rewrite !(get_throw uc) in Hseq1 by exact Hn. discriminate Hseq1. }
  rewrite !(get_run uc) in Hseq1 by exact Huc.
  rewrite !(get_run uc) in Hb by exact Huc.
  injection Hseq1 as <-.
  apply bind_Ok in Hb as (repo & s2 & Hrepo & Hb).
  assert (s2 = s1) by (apply (pure_state _ _ _ _ _ (pure_repoName _) Hrepo)). subst s2.
  apply repoName_inv in Hrepo as (p & Hp & ->).
  call_returns Hb repository s3 a2 r2 Hseq2 Hout2 Hclock2 Htr2.
  injection Hseq2 as <-.
  apply bind_Ok in Hb as (channelData & s4 & Hcd & Hb).
  rewrite Hp in Hcd. injection Hcd as <- <-.
  call_returns Hb channel s5 a3 r3 Hseq3 Hout3 Hclock3 Htr3.
  injection Hseq3 as <-.
  call_returns Hb slot s6 a4 r4 Hseq4 Hout4 Hclock4 Htr4.
  injection Hseq4 as <-.
  call_returns Hb meeting s7 a5 r5 Hseq5 Hout5 Hclock5 Htr5.
  next_arg Hseq5 spec Hspec.
  cbv [sequence bind ret] in Hseq5. injection Hseq5 as <-.
  read_field Hspec "startTime" y1 Hy1 Hstart.
  read_field Hspec "endTime" y2 Hy2 Hend.
  read_field Hspec "attendees" y3 Hy3 Hatts.
  read_field Hspec "location" y4 Hy4 Hloc.
  read_field Hspec "title" y5 Hy5 Htitle.
  apply get_inv in Hy1 as (_ & -> & _). apply get_inv in Hy2 as (_ & -> & _).
  injection Hy3 as <-. apply get_inv in Hy4 as (_ & -> & _).
  rewrite Hp in Hy5. injection Hy5 as <-.
  call_returns Hb ack s8 a6 r6 Hseq6 Hout6 Hclock6 Htr6.
  next_arg Hseq6 target Htarget. apply get_inv in Htarget as (_ & -> & _).
  next_arg Hseq6 msg Hmsg.
  cbv [sequence bind ret] in Hseq6. injection Hseq6 as <-.
  apply bind_Ok in Hb as (x & sx & Hx & Hb).
  cbv [bind Date_now ret minus] in Hx. injection Hx as _ <-.
  apply bind_Ok in Hb as (u' & s9 & Hlog & Hb).
  apply logger_Ok in Hlog as (_ & Hclock9 & m1 & _ & Htr9); [ | purity].
  apply bind_Ok in Hb as (text & s10 & Htext & Hb).
  rewrite Hp in Htext. injection Htext as <- <-.
  pure_step Hb.
  apply bind_Ok in Hb as (d & s11 & Hd & Hb).
  assert (s11 = s9) by (eapply pure_state; [ | exact Hd]; purity). subst s11.
  injection Hb as <- <-.
  read_field Hd "notion" d1 Hd1 Hnotion.
  read_field Hd "github" d2 Hd2 Hgithub.
  read_field Hd "slack" d3 Hd3 Hslack.
  read_field Hd "meeting" d4 Hd4 Hmeeting.
  read_field Hd1 "pageId" e1 He1 Hpage_id.
  read_field Hd1 "url" e2 He2 Hpage_url.
  read_field Hd2 "name" e3 He3 Hrepo_name.
  read_field Hd2 "url" e4 He4 Hrepo_url.
  read_field Hd3 "channel" e5 He5 Hchannel_name.
  read_field Hd3 "url" e6 He6 Hchannel_url.
  read_field Hd4 "id" e7 He7 Hmeeting_id.
  read_field Hd4 "time" e8 He8 Hmeeting_time.
  read_field Hd4 "url" e9 He9 Hmeeting_url.
  apply get_inv in He1 as (_ & -> & _). apply get_inv in He2 as (_ & -> & _).
  apply get_inv in He3 as (_ & -> & _). apply get_inv in He4 as (_ & -> & _).
  apply get_inv in He5 as (_ & -> & _). apply get_inv in He6 as (_ & -> & _).
  apply get_inv in He7 as (_ & -> & _). apply get_inv in He9 as (_ & -> & _).
  apply bind_Ok in He8 as (st & ss & Hst & He8).
  apply get_inv in Hst as (_ & -> & ->). apply get_inv in He8 as (_ & -> & _).
  repeat match goal with
         | Ht : this ?a = this ?b |- _ => rewrite Ht in *; clear Ht
         end.
  exists m0. eexists _, r1, notionProject, p, _, (clock s1), r2, repository, _,
           (clock s3), r3, channel.
  eexists (clock s5), r4, slot, spec, (clock s6), r5, meeting, msg, (clock s7), r6, m1.
  split.
  { rewrite Htr9, Htr6, Htr5, Htr4, Htr3, Htr2, Htr1, Htr0, Hclock0.
    rewrite <- !app_assoc. cbn [app]. reflexivity. }
  repeat (split; [eassumption | ]).
  split; [reflexivity | ]. split; [exact Hp | ]. split; [reflexivity | ].
  split; [reflexivity | ].
  repeat (split; [assumption | ]).
  split; [congruence | ].
  repeat (split; [assumption | ]).
  split; [congruence | ].
  split; [reflexivity | ].
  exists d. split; [reflexivity | ].
  rewrite Hnotion, Hgithub, Hslack, Hmeeting. repeat split; assumption.
Qed.


Section ProjectKickoff.
Variables (args uc rid : value) (h : host) (s : state).
Variables (env : ResultEnvelope) (new : list event).
Hypothesis Hrun : fst (createProjectKickoff args uc rid h s) = Ok env.
Hypothesis Hsuccess : success env = true.
Hypothesis Htrace :
  trace (snd (createProjectKickoff args uc rid h s)) = (trace s ++ new)%list.

Ltac kickoff_run :=
  destruct (createProjectKickoff args uc rid h s) as [r s'] eqn:E;
  cbn [fst snd] in *; subst r;
  destruct (createProjectKickoff_trace _ _ _ _ _ _ _ E Hsuccess)
    as (m0 & page & r1 & notionProject & p & repository & t2 & r2 & repo & channelData
        & t3 & r3 & channel & t4 & r4 & slot & spec & t5 & r5 & meeting & msg & t6 & r6
        & m1 & Htr & E1 & E2 & E3 & E4 & E5 & Hpage & Hp & Hrepository & Hcd & Hstart
        & Hend & Hattendees & Hlocation & Htitle & Ht2 & Ht3 & Ht4 & Ht5 & Ht6
        & Hreturn & Hmessage & d & Hdetails & Hd);
  rewrite Htrace in Htr; apply app_inv_head in Htr; subst new.

(** X15: a successful kickoff makes six calls: [createProjectPage] to notion,
    [createRepository] to github, [createReviewChannel] to slack,
    [findOptimalTime] and [createMeeting] to the calendar, and
    [sendMessage] to slack.  Each call carries the token of its platform
    from the user context and the correlation id; the message goes to
    the [id] of the channel that was created. *)
Theorem kickoff_calls_and_credentials :
  methods new = ["createProjectPage"; "createRepository"; "createReviewChannel";
                 "findOptimalTime"; "createMeeting"; "sendMessage"]
  /\ targets new = [notion (this s); github (this s); slack (this s);
                    calendar (this s); calendar (this s); slack (this s)]
  /\ exists page repository channelData channel options meeting message,
       arguments new =
         [[page; prop uc "notionToken"; rid];
          [repository; prop uc "githubToken"; rid];
          [channelData; prop uc "slackToken"; rid];
          [prop args "team_members"; prop uc "calendarToken"; rid; options];
          [meeting; prop uc "calendarToken"; rid];
          [prop channel "id"; message; prop uc "slackToken"; rid]]
       /\ outcomes "createReviewChannel" new = [Fulfilled channel].
Proof.
  kickoff_run.
  split; [reflexivity | ]. split; [reflexivity | ].
  exists page, repository, channelData, channel. eexists. exists spec, msg.
  split; [reflexivity | ]. cbn. rewrite E3. reflexivity.
Qed.

(** X16: what a successful kickoff creates (lines 301-331): a project page in
    the database of [NOTION_PROJECTS_DB_ID] with the name, team, deadline
    and description of the request; a private repository for the team,
    named by the project name lowercased with every character outside
    [[a-z0-9-]] replaced by ['-']; and a public channel named "proj-"
    followed by the repository's name, with the team as its members. *)
Theorem kickoff_page_repository_channel :
  exists p t2 t3,
    prop args "project_name" = VStr p
    /\ calls_to "createProjectPage" new =
         [(clock s, [VObj [("name", VStr p);
                           ("databaseId", NOTION_PROJECTS_DB_ID h);
                           ("teamMembers", prop args "team_members");
                           ("deadline", prop args "deadline");
                           ("description", prop args "description")];
                     prop uc "notionToken"; rid])]
    /\ calls_to "createRepository" new =
         [(t2, [VObj [("name", VStr (replace_non_slug (String_toLowerCase p)));
                      ("description", prop args "description");
                      ("private", VBool true);
                      ("team", prop args "team_members")];
                prop uc "githubToken"; rid])]
    /\ calls_to "createReviewChannel" new =
         [(t3, [VObj [("name", VStr ("proj-" ++ replace_non_slug (String_toLowerCase p)));
                      ("topic", VStr (p ++ " - Project Discussion"));
                      ("purpose", prop args "description");
                      ("private", VBool false);
                      ("members", prop args "team_members")];
                prop uc "slackToken"; rid])].
Proof.
  kickoff_run. subst page repository channelData. exists p, t2, t3.
  split; [exact Hp | ]. rewrite <- Hp. repeat split; reflexivity.
Qed.

(** X17: the kickoff meeting (lines 334-353): the scheduler is asked once for
    an hour for the team, between the time of the call ([new Date()])
    and two days later, within working hours 9 to 17; the meeting is
    created at the slot it returned, titled with the project name, for
    the team, at the [webUrl] of the channel that was created. *)
Theorem kickoff_meeting_within_two_days :
  exists p t slot channel t5 meeting,
    prop args "project_name" = VStr p
    /\ calls_to "findOptimalTime" new =
         [(t, [prop args "team_members"; prop uc "calendarToken"; rid;
               VObj [("duration", VNum 60);
                     ("timeMin", VDate (wallclock h t));
                     ("timeMax", VDate (wallclock h t + 2 * 24 * 60 * 60 * 1000));
                     ("workingHours", VObj [("start", VNum 9); ("end", VNum 17)])]])]
    /\ outcomes "findOptimalTime" new = [Fulfilled slot]
    /\ outcomes "createReviewChannel" new = [Fulfilled channel]
    /\ calls_to "createMeeting" new = [(t5, [meeting; prop uc "calendarToken"; rid])]
    /\ prop meeting "title" = VStr (p ++ " - Project Kickoff")
    /\ prop meeting "startTime" = prop slot "start"
    /\ prop meeting "endTime" = prop slot "end"
    /\ prop meeting "attendees" = prop args "team_members"
    /\ prop meeting "location" = prop channel "webUrl".
Proof.
  kickoff_run. exists p, t4, slot, channel, t5, spec.
  split; [exact Hp | ]. split; [reflexivity | ].
  split; [cbn; rewrite E4; reflexivity | ].
  split; [cbn; rewrite E3; reflexivity | ]. split; [reflexivity | ].
  repeat split; assumption.
Qed.

(** X18: the calls of a kickoff run one after the other: each is issued when
    the one before it has settled, and the workflow returns when the
    last has.  A successful run takes the sum of its six calls. *)
Theorem kickoff_takes_the_sum_of_latencies :
  exists l1 l2 l3 l4 l5 l6,
    latencies new = [l1; l2; l3; l4; l5; l6]
    /\ instants new =
         [clock s;
          clock s + l1;
          clock s + l1 + l2;
          clock s + l1 + l2 + l3;
          clock s + l1 + l2 + l3 + l4;
          clock s + l1 + l2 + l3 + l4 + l5]
    /\ clock (snd (createProjectKickoff args uc rid h s))
       = clock s + l1 + l2 + l3 + l4 + l5 + l6.
Proof.
  kickoff_run. do 6 eexists. split; [reflexivity | ].
  cbn [snd instants flat_map instant_of app]. subst t6 t5 t4 t3 t2.
  split; [reflexivity | exact Hreturn].
Qed.

(** X19: what a successful kickoff returns (lines 424-447): the message
    "Project <name> created successfully", and in [details] the
    [projectPageId] and [projectPageUrl] of the page as notion answered
    them, the [name] and [html_url] of the repository as github answered
    them, the [name] and [webUrl] of the channel as slack answered them,
    and the [id], [start.dateTime] and [htmlLink] of the meeting as the
    calendar answered them. *)
Theorem kickoff_details_echo_answers :
  exists p page repository channel meeting d,
    prop args "project_name" = VStr p
    /\ outcomes "createProjectPage" new = [Fulfilled page]
    /\ outcomes "createRepository" new = [Fulfilled repository]
    /\ outcomes "createReviewChannel" new = [Fulfilled channel]
    /\ outcomes "createMeeting" new = [Fulfilled meeting]
    /\ message env = "Project " ++ p ++ " created successfully"
    /\ details env = Some d
    /\ prop (prop d "notion") "pageId" = prop page "projectPageId"
    /\ prop (prop d "notion") "url" = prop page "projectPageUrl"
    /\ prop (prop d "github") "name" = prop repository "name"
    /\ prop (prop d "github") "url" = prop repository "html_url"
    /\ prop (prop d "slack") "channel" = prop channel "name"
    /\ prop (prop d "slack") "url" = prop channel "webUrl"
    /\ prop (prop d "meeting") "id" = prop meeting "id"
    /\ prop (prop d "meeting") "time" = prop (prop meeting "start") "dateTime"
    /\ prop (prop d "meeting") "url" = prop meeting "htmlLink".
Proof.
  kickoff_run. exists p, notionProject, repo, channel, meeting, d.
  split; [exact Hp | ].
  split; [cbn; rewrite E1; reflexivity | ]. split; [cbn; rewrite E2; reflexivity | ].
  split; [cbn; rewrite E3; reflexivity | ]. split; [cbn; rewrite E5; reflexivity | ].
  split; [exact Hmessage | ]. split; [exact Hdetails | ]. exact Hd.
Qed.

End ProjectKickoff.


Lemma kickoff_calls_and_credentials_witness :
  let run := createProjectKickoff (kickoffRequest "Apollo Program") userContext0 (VStr "req-1")
               (host_of obliging 100) state0 in
  let new := trace (snd run) in
  methods new = ["createProjectPage"; "createRepository"; "createReviewChannel";
                 "findOptimalTime"; "createMeeting"; "sendMessage"]
  /\ targets new = [notion (this state0); github (this state0); slack (this state0);
                    calendar (this state0); calendar (this state0); slack (this state0)]
  /\ exists page repository channelData channel options meeting message,
       arguments new =
         [[page; prop userContext0 "notionToken"; (VStr "req-1")];
          [repository; prop userContext0 "githubToken"; (VStr "req-1")];
          [channelData; prop userContext0 "slackToken"; (VStr "req-1")];
          [prop (kickoffRequest "Apollo Program") "team_members"; prop userContext0 "calendarToken"; (VStr "req-1"); options];
          [meeting; prop userContext0 "calendarToken"; (VStr "req-1")];
          [prop channel "id"; message; prop userContext0 "slackToken"; (VStr "req-1")]]
       /\ outcomes "createReviewChannel" new = [Fulfilled channel].
Proof.
  cbv zeta.
  eapply (kickoff_calls_and_credentials (kickoffRequest "Apollo Program") userContext0 (VStr "req-1") (host_of obliging 100) state0).
  - vm_compute. reflexivity.
  - reflexivity.
  - vm_compute. reflexivity.
Defined.

Lemma kickoff_page_repository_channel_witness :
  let run := createProjectKickoff (kickoffRequest "Apollo Program") userContext0 (VStr "req-1")
               (host_of obliging 100) state0 in
  let new := trace (snd run) in
  exists p t2 t3,
    prop (kickoffRequest "Apollo Program") "project_name" = VStr p
    /\ calls_to "createProjectPage" new =
         [(clock state0, [VObj [("name", VStr p);
                           ("databaseId", NOTION_PROJECTS_DB_ID (host_of obliging 100));
                           ("teamMembers", prop (kickoffRequest "Apollo Program") "team_members");
                           ("deadline", prop (kickoffRequest "Apollo Program") "deadline");
                           ("description", prop (kickoffRequest "Apollo Program") "description")];
                     prop userContext0 "notionToken"; (VStr "req-1")])]
    /\ calls_to "createRepository" new =
         [(t2, [VObj [("name", VStr (replace_non_slug (String_toLowerCase p)));
                      ("description", prop (kickoffRequest "Apollo Program") "description");
                      ("private", VBool true);
                      ("team", prop (kickoffRequest "Apollo Program") "team_members")];
                prop userContext0 "githubToken"; (VStr "req-1")])]
    /\ calls_to "createReviewChannel" new =
         [(t3, [VObj [("name", VStr ("proj-" ++ replace_non_slug (String_toLowerCase p)));
                      ("topic", VStr (p ++ " - Project Discussion"));
                      ("purpose", prop (kickoffRequest "Apollo Program") "description");
                      ("private", VBool false);
                      ("members", prop (kickoffRequest "Apollo Program") "team_members")];
                prop userContext0 "slackToken"; (VStr "req-1")])].
Proof.
  cbv zeta.
  eapply (kickoff_page_repository_channel (kickoffRequest "Apollo Program") userContext0 (VStr "req-1") (host_of obliging 100) state0).
  - vm_compute. reflexivity.
  - reflexivity.
  - vm_compute. reflexivity.
Defined.

Lemma kickoff_meeting_within_two_days_witness :
  let run := createProjectKickoff (kickoffRequest "Apollo Program") userContext0 (VStr "req-1")
               (host_of obliging 100) state0 in
  let new := trace (snd run) in
  exists p t slot channel t5 meeting,
    prop (kickoffRequest "Apollo Program") "project_name" = VStr p
    /\ calls_to "findOptimalTime" new =
         [(t, [prop (kickoffRequest "Apollo Program") "team_members"; prop userContext0 "calendarToken"; (VStr "req-1");
               VObj [("duration", VNum 60);
                     ("timeMin", VDate (wallclock (host_of obliging 100) t));
                     ("timeMax", VDate (wallclock (host_of obliging 100) t + 2 * 24 * 60 * 60 * 1000));
                     ("workingHours", VObj [("start", VNum 9); ("end", VNum 17)])]])]
    /\ outcomes "findOptimalTime" new = [Fulfilled slot]
    /\ outcomes "createReviewChannel" new = [Fulfilled channel]
    /\ calls_to "createMeeting" new = [(t5, [meeting; prop userContext0 "calendarToken"; (VStr "req-1")])]
    /\ prop meeting "title" = VStr (p ++ " - Project Kickoff")
    /\ prop meeting "startTime" = prop slot "start"
    /\ prop meeting "endTime" = prop slot "end"
    /\ prop meeting "attendees" = prop (kickoffRequest "Apollo Program") "team_members"
    /\ prop meeting "location" = prop channel "webUrl".
Proof.
  cbv zeta.
  eapply (kickoff_meeting_within_two_days (kickoffRequest "Apollo Program") userContext0 (VStr "req-1") (host_of obliging 100) state0).
  - vm_compute. reflexivity.
  - reflexivity.
  - vm_compute. reflexivity.
Defined.

Lemma kickoff_takes_the_sum_of_latencies_witness :
  let run := createProjectKickoff (kickoffRequest "Apollo Program") userContext0 (VStr "req-1")
               (host_of obliging 100) state0 in
  let new := trace (snd run) in
  exists l1 l2 l3 l4 l5 l6,
    latencies new = [l1; l2; l3; l4; l5; l6]
    /\ instants new =
         [clock state0;
          clock state0 + l1;
          clock state0 + l1 + l2;
          clock state0 + l1 + l2 + l3;
          clock state0 + l1 + l2 + l3 + l4;
          clock state0 + l1 + l2 + l3 + l4 + l5]
    /\ clock (snd (createProjectKickoff (kickoffRequest "Apollo Program") userContext0 (VStr "req-1") (host_of obliging 100) state0))
       = clock state0 + l1 + l2 + l3 + l4 + l5 + l6.
Proof.
  cbv zeta.
  eapply (kickoff_takes_the_sum_of_latencies (kickoffRequest "Apollo Program") userContext0 (VStr "req-1") (host_of obliging 100) state0).
  - vm_compute. reflexivity.
  - reflexivity.
  - vm_compute. reflexivity.
Defined.

Lemma kickoff_details_echo_answers_witness :
  let run := createProjectKickoff (kickoffRequest "Apollo Program") userContext0 (VStr "req-1")
               (host_of obliging 100) state0 in
  let new := trace (snd run) in
  let env := returned (fst run) in
  exists p page repository channel meeting d,
    prop (kickoffRequest "Apollo Program") "project_name" = VStr p
    /\ outcomes "createProjectPage" new = [Fulfilled page]
    /\ outcomes "createRepository" new = [Fulfilled repository]
    /\ outcomes "createReviewChannel" new = [Fulfilled channel]
    /\ outcomes "createMeeting" new = [Fulfilled meeting]
    /\ message env = "Project " ++ p ++ " created successfully"
    /\ details env = Some d
    /\ prop (prop d "notion") "pageId" = prop page "projectPageId"
    /\ prop (prop d "notion") "url" = prop page "projectPageUrl"
    /\ prop (prop d "github") "name" = prop repository "name"
    /\ prop (prop d "github") "url" = prop repository "html_url"
    /\ prop (prop d "slack") "channel" = prop channel "name"
    /\ prop (prop d "slack") "url" = prop channel "webUrl"
    /\ prop (prop d "meeting") "id" = prop meeting "id"
    /\ prop (prop d "meeting") "time" = prop (prop meeting "start") "dateTime"
    /\ prop (prop d "meeting") "url" = prop meeting "htmlLink".
Proof.
  cbv zeta.
  eapply (kickoff_details_echo_answers (kickoffRequest "Apollo Program") userContext0 (VStr "req-1") (host_of obliging 100) state0).
  - vm_compute. reflexivity.
  - reflexivity.
  - vm_compute. reflexivity.
Defined.


(* ================================================================= *)
(** ** The incident response, call by call *)

Lemma escalate_calls args uc rid doc iss channel h s u s' :
  nullish args = false -> nullish uc = false ->
  escalate args uc rid doc iss channel h s = (Ok u, s') ->
  exists spec r1 msg r2,
    trace s' = (trace s ++ [Call (clock s) (calendar (this s)) "createMeeting"
                              [spec; prop uc "calendarToken"; rid] r1;
                            Call (clock s + Z.of_N (latency r1)) (slack (this s))
                              "sendMessage"
                              [prop channel "id"; msg; prop uc "slackToken"; rid] r2])%list
    /\ clock s' = clock s + Z.of_N (latency r1) + Z.of_N (latency r2).
Proof.
  intros Hargs Huc H. unfold escalate in H.
  rewrite !(get_run uc) in H by exact Huc.
  call_returns H meeting s1 a1 r1 Hseq1 Hout1 Hclock1 Htr1.
  next_arg Hseq1 spec Hspec.
  cbv [sequence bind ret] in Hseq1. injection Hseq1 as <-.
  call_returns H ack s2 a2 r2 Hseq2 Hout2 Hclock2 Htr2.
  next_arg Hseq2 target Htarget. apply get_inv in Htarget as (_ & -> & _).
  next_arg Hseq2 msg Hmsg.
  cbv [sequence bind ret] in Hseq2. injection Hseq2 as <-.
  injection H as _ <-.
  repeat match goal with
         | Ht : this ?a = this ?b |- _ => rewrite Ht in *; clear Ht
         end.
  exists spec, r1, msg, r2.
  split; [rewrite Htr2, Htr1, Hclock1, <- app_assoc; reflexivity | ].
  rewrite Hclock2, Hclock1. reflexivity.
Qed.

(** What [...(args.stakeholders || [])] adds to the members. *)
Lemma stakeholders_inv st h s l s' :
  spread (orE (ret st) (ret (VArr []))) h s = (Ok l, s') ->
  (truthy st = false /\ l = []) \/ st = VArr l \/ exists a, st = VStr a /\ l = chars_of a.
Proof.
  unfold spread, orE. rewrite bind_ret_l.
  destruct (truthy st) eqn:Ht.
  - rewrite bind_ret_l. destruct st; try discriminate.
    + intros [= <- _]. right. right. eexists. split; reflexivity.
    + intros [= <- _]. right. left. reflexivity.
  - rewrite bind_ret_l. intros [= <- _]. left. split; reflexivity.
Qed.

(** The successful runs of the incident response, call by call. *)
Lemma handleIncidentResponse_calls args uc rid h s env s' :
  handleIncidentResponse args uc rid h s = (Ok env, s') ->
  success env = true ->
  exists m0 r1 notionIncident issueData t2 r2 iss channelData t3 r3 channel msg t4 r4,
  exists l extra esc m1,
    trace s' =
      (trace s
       ++ [Log "info" "Starting incident response workflow" m0;
           Call (clock s) (notion (this s)) "createDocument"
             [NOTION_INCIDENTS_DB_ID h;
              VObj [("title", VStr ("Incident: " ++ to_string h (prop args "title")));
                    ("type", VStr "Incident Report");
                    ("content", prop args "description");
                    ("owners", prop args "responders")];
              prop uc "notionToken"; rid] r1;
           Call t2 (github (this s)) "createIssue"
             [prop args "repository"; issueData; prop uc "githubToken"; rid] r2;
           Call t3 (slack (this s)) "createReviewChannel"
             [channelData; prop uc "slackToken"; rid] r3;
           Call t4 (slack (this s)) "sendMessage"
             [prop channel "id"; msg; prop uc "slackToken"; rid] r4]
       ++ esc
       ++ [Log "info" "Incident response workflow completed" m1])%list
    /\ outcome r1 = Fulfilled notionIncident /\ outcome r2 = Fulfilled iss
    /\ outcome r3 = Fulfilled channel
    /\ prop args "responders" = VArr (map VStr l)
    /\ prop issueData "title" = VStr ("[INCIDENT] " ++ to_string h (prop args "title"))
    /\ prop issueData "labels"
       = VArr [VStr "incident";
               VStr ("severity:" ++ to_string h (prop args "severity"))]
    /\ prop issueData "assignees" = VArr (local_parts l)
    /\ prop channelData "name"
       = VStr ("incident-" ++ String_last 6 (number_to_string (wallclock h t3)))
    /\ prop channelData "private" = VBool true
    /\ prop channelData "members" = VArr (map VStr l ++ extra)
    /\ ((truthy (prop args "stakeholders") = false /\ extra = [])
        \/ prop args "stakeholders" = VArr extra
        \/ exists a, prop args "stakeholders" = VStr a /\ extra = chars_of a)
    /\ (severe args = false -> esc = [] /\ clock s' = t4 + Z.of_N (latency r4))
    /\ (severe args = true ->
        exists spec r5 msg6 r6,
          esc = [Call (t4 + Z.of_N (latency r4)) (calendar (this s)) "createMeeting"
                   [spec; prop uc "calendarToken"; rid] r5;
                 Call (t4 + Z.of_N (latency r4) + Z.of_N (latency r5)) (slack (this s))
                   "sendMessage"
                   [prop channel "id"; msg6; prop uc "slackToken"; rid] r6]
          /\ clock s' = t4 + Z.of_N (latency r4) + Z.of_N (latency r5)
                        + Z.of_N (latency r6))
    /\ t2 = clock s + Z.of_N (latency r1) /\ t3 = t2 + Z.of_N (latency r2)
    /\ t4 = t3 + Z.of_N (latency r3)
    /\ message env = "Incident response initiated: " ++ to_string h (prop args "title")
    /\ exists d,
         details env = Some d
         /\ prop (prop d "notion") "documentId" = prop notionIncident "id"
         /\ prop (prop d "notion") "url" = prop notionIncident "url"
         /\ prop (prop d "github") "issueNumber" = prop iss "number"
         /\ prop (prop d "github") "url" = prop iss "html_url"
         /\ prop (prop d "slack") "channel" = prop channel "name"
         /\ prop (prop d "slack") "url" = prop channel "webUrl".
Proof.
  intros H Hs. unfold handleIncidentResponse in H. rewrite bind_run in H.
  change (Date_now h s) with (Ok (VNum (wallclock h (clock s))), s) in H. cbv beta iota in H.
  apply try_catch_run in H as [(env' & Hb & Henv) | (e & s1 & Hb & Hh)].
  2:{ clear Hb. catch_fails Hh Hs. }
  injection Henv as ->.
  apply bind_Ok in Hb as (u & s0 & Hlog & Hb).
  apply logger_Ok in Hlog as (Hthis0 & Hclock0 & m0 & Hm0 & Htr0); [ | purity].
  assert (Hargs : nullish args = false).
  { destruct (nullish args) eqn:Hn; [ | reflexivity]. exfalso.
    rewrite !(get_throw args) in Hm0 by exact Hn.
    cbv [obj bind throw ret sequence map fst snd] in Hm0. discriminate Hm0. }
  rewrite !(get_run args) in Hb by exact Hargs.
  call_returns Hb notionIncident s1 a1 r1 Hseq1 Hout1 Hclock1 Htr1.
  next_arg Hseq1 db Hdb. injection Hdb as <-.
  next_arg Hseq1 report Hreport.
  assert (Huc : nullish uc = false).
  { destruct (nullish uc) eqn:Hn; [ | reflexivity]. exfalso.
    rewrite !(get_throw uc) in Hseq1 by exact Hn. discriminate Hseq1. }
  rewrite !(get_run uc) in Hseq1 by exact Huc.
  rewrite !(get_run uc) in Hb by exact Huc.
  injection Hseq1 as <-.
  template Hreport. injection Hreport as <-.
  apply bind_Ok in Hb as (issueData & s2 & Hissue & Hb).
  assert (s2 = s1) by (eapply pure_state; [ | exact Hissue]; purity). subst s2.
  read_field Hissue "title" x1 Hx1 Htitle.
  read_field Hissue "labels" x2 Hx2 Hlabels.
  read_field Hissue "assignees" x3 Hx3 Hassignees.
  template Hx1. injection Hx1 as <-.
  template Hx2. cbn [List.concat app] in Hx2. injection Hx2 as <-.
  rewrite bind_ret_l in Hx3. apply local_parts_inv in Hx3 as (l & Hl & ->).
  call_returns Hb iss s3 a2 r2 Hseq2 Hout2 Hclock2 Htr2.
  injection Hseq2 as <-.
  apply bind_Ok in Hb as (channelData & s4 & Hcd & Hb).
  assert (s4 = s3) by (eapply pure_state; [ | exact Hcd]; purity). subst s4.
  read_field Hcd "name" y1 Hy1 Hname.
  read_field Hcd "private" y2 Hy2 Hprivate.
  read_field Hcd "members" y3 Hy3 Hmembers.
  injection Hy1 as <-. injection Hy2 as <-.
  rewrite Hl in Hy3.
  apply bind_Ok in Hy3 as (parts & sp & Hparts & Hy3). injection Hy3 as <- _.
  apply sequence_cons_inv in Hparts as (p1 & sa & rest1 & Hp1 & Hparts & ->).
  injection Hp1 as <- <-.
  apply sequence_cons_inv in Hparts as (extra & sb & rest2 & Hextra & Hparts & ->).
  injection Hparts as <- _.
  apply stakeholders_inv in Hextra.
  call_returns Hb channel s5 a3 r3 Hseq3 Hout3 Hclock3 Htr3.
  injection Hseq3 as <-.
  call_returns Hb ack s6 a4 r4 Hseq4 Hout4 Hclock4 Htr4.
  next_arg Hseq4 target Htarget. apply get_inv in Htarget as (_ & -> & _).
  next_arg Hseq4 msg Hmsg.
  cbv [sequence bind ret] in Hseq4. injection Hseq4 as <-.
  apply bind_Ok in Hb as (sev & s7 & Hsev & Hb).
  rewrite bind_ret_l in Hsev. cbv [orB bind ret] in Hsev.
  assert (Hsevere : sev = severe args /\ s7 = s6).
  { unfold severe. destruct (strict_eq (prop args "severity") "high");
      injection Hsev as <- <-; split; reflexivity. }
  destruct Hsevere as [-> ->]. clear Hsev.
  apply bind_Ok in Hb as (u' & s8 & Hesc & Hb).
  apply bind_Ok in Hb as (x & sx & Hx & Hb).
  cbv [bind Date_now ret minus] in Hx. injection Hx as _ <-.
  apply bind_Ok in Hb as (u'' & s9 & Hlog & Hb).
  apply logger_Ok in Hlog as (_ & Hclock9 & m1 & _ & Htr9); [ | purity].
  apply bind_Ok in Hb as (text & s10 & Htext & Hb).
  template Htext. injection Htext as <- <-.
  pure_step Hb.
  apply bind_Ok in Hb as (d & s11 & Hd & Hb).
  assert (s11 = s9) by (eapply pure_state; [ | exact Hd]; purity). subst s11.
  injection Hb as <- <-.
  read_field Hd "notion" d1 Hd1 Hnotion.
  read_field Hd "github" d2 Hd2 Hgithub.
  read_field Hd "slack" d3 Hd3 Hslack.
  read_field Hd1 "documentId" e1 He1 Hdoc_id.
  read_field Hd1 "url" e2 He2 Hdoc_url.
  read_field Hd2 "issueNumber" e3 He3 Hissue_number.
  read_field Hd2 "url" e4 He4 Hissue_url.
  read_field Hd3 "channel" e5 He5 Hchannel_name.
  read_field Hd3 "url" e6 He6 Hchannel_url.
  apply get_inv in He1 as (_ & -> & _). apply get_inv in He2 as (_ & -> & _).
  apply get_inv in He3 as (_ & -> & _). apply get_inv in He4 as (_ & -> & _).
  apply get_inv in He5 as (_ & -> & _). apply get_inv in He6 as (_ & -> & _).
  assert (Hescalation :
    exists esc, trace s8 = (trace s6 ++ esc)%list
      /\ (severe args = false -> esc = [] /\ clock s8 = clock s6)
      /\ (severe args = true ->
          exists spec r5 msg6 r6,
            esc = [Call (clock s6) (calendar (this s6)) "createMeeting"
                     [spec; prop uc "calendarToken"; rid] r5;
                   Call (clock s6 + Z.of_N (latency r5)) (slack (this s6)) "sendMessage"
                     [prop channel "id"; msg6; prop uc "slackToken"; rid] r6]
            /\ clock s8 = clock s6 + Z.of_N (latency r5) + Z.of_N (latency r6))).
  { destruct (severe args).
    - apply escalate_calls in Hesc as (spec & r5 & msg6 & r6 & Htr8 & Hclock8);
        [ | assumption | assumption].
      eexists. split; [exact Htr8 | ]. split; [discriminate | intros _].
      exists spec, r5, msg6, r6. split; [reflexivity | exact Hclock8].
    - injection Hesc as _ <-. exists []. split; [symmetry; apply app_nil_r | ].
      split; [split; reflexivity | discriminate]. }
  destruct Hescalation as (esc & Htr8 & Hcalm & Hmeet).
  repeat match goal with
         | Ht : this ?a = this ?b |- _ => rewrite Ht in *; clear Ht
         end.
  exists m0. eexists r1, notionIncident, issueData, (clock s1), r2, iss, channelData,
           (clock s3), r3, channel, msg, (clock s5), r4.
  exists l, extra, esc, m1.
  split.
  { rewrite Htr9, Htr8, Htr4, Htr3, Htr2, Htr1, Htr0, Hclock0.
    rewrite <- !app_assoc. cbn [app]. reflexivity. }
  repeat (split; [eassumption | ]).
  split; [rewrite Hmembers; cbn [List.concat]; rewrite app_nil_r; reflexivity | ].
  split; [exact Hextra | ].
  split.
  { intro Hsev. destruct (Hcalm Hsev) as [-> Hc8]. split; [reflexivity | ].
    rewrite Hclock9, Hc8, Hclock4. reflexivity. }
  split.
  { intro Hsev. destruct (Hmeet Hsev) as (spec & r5 & msg6 & r6 & -> & Hc8).
    exists spec, r5, msg6, r6. rewrite <- Hclock4. split; [reflexivity | ].
    rewrite Hclock9, Hc8. reflexivity. }
  split; [congruence | ]. split; [congruence | ]. split; [congruence | ].
  split; [reflexivity | ].
  exists d. split; [reflexivity | ].
  rewrite Hnotion, Hgithub, Hslack. repeat split; assumption.
Qed.


Section IncidentResponse.
Variables (args uc rid : value) (h : host) (s : state).
Variables (env : ResultEnvelope) (new : list event).
Hypothesis Hrun : fst (handleIncidentResponse args uc rid h s) = Ok env.
Hypothesis Hsuccess : success env = true.
Hypothesis Htrace :
  trace (snd (handleIncidentResponse args uc rid h s)) = (trace s ++ new)%list.

Ltac incident_run :=
  destruct (handleIncidentResponse args uc rid h s) as [r s'] eqn:E;
  cbn [fst snd] in *; subst r;
  destruct (handleIncidentResponse_calls _ _ _ _ _ _ _ E Hsuccess)
    as (m0 & r1 & notionIncident & issueData & t2 & r2 & iss & channelData & t3 & r3
        & channel & msg & t4 & r4 & l & extra & esc & m1 & Htr & E1 & E2 & E3 & Hl
        & Htitle & Hlabels & Hassignees & Hname & Hprivate & Hmembers & Hextra
        & Hcalm & Hmeet & Ht2 & Ht3 & Ht4 & Hmessage & d & Hdetails & Hd);
  rewrite Htrace in Htr; apply app_inv_head in Htr; subst new;
  destruct (severe args);
  [ destruct (Hmeet eq_refl) as (spec & r5 & msg6 & r6 & -> & Hreturn)
  | destruct (Hcalm eq_refl) as (-> & Hreturn) ]; clear Hcalm Hmeet.

(** X20: a successful incident response calls [createDocument] on notion,
    [createIssue] on github, [createReviewChannel] and [sendMessage] on
    slack and, when it escalates, [createMeeting] on the calendar and
    [sendMessage] on slack again.  Each call carries the token of its
    platform from the user context and the correlation id; both
    messages go to the [id] of the channel that was created. *)
Theorem incident_calls_and_credentials :
  methods new = (["createDocument"; "createIssue"; "createReviewChannel"; "sendMessage"]
                 ++ (if severe args then ["createMeeting"; "sendMessage"] else []))%list
  /\ targets new = ([notion (this s); github (this s); slack (this s); slack (this s)]
                    ++ (if severe args then [calendar (this s); slack (this s)] else []))%list
  /\ exists document issueData channelData channel alert meeting notice,
       arguments new =
         ([[NOTION_INCIDENTS_DB_ID h; document; prop uc "notionToken"; rid];
           [prop args "repository"; issueData; prop uc "githubToken"; rid];
           [channelData; prop uc "slackToken"; rid];
           [prop channel "id"; alert; prop uc "slackToken"; rid]]
          ++ (if severe args
              then [[meeting; prop uc "calendarToken"; rid];
                    [prop channel "id"; notice; prop uc "slackToken"; rid]]
              else []))%list
       /\ outcomes "createReviewChannel" new = [Fulfilled channel].
Proof.
  incident_run.
  - split; [reflexivity | ]. split; [reflexivity | ].
    eexists. exists issueData, channelData, channel, msg, spec, msg6.
    split; [reflexivity | ]. cbn. rewrite E3. reflexivity.
  - split; [reflexivity | ]. split; [reflexivity | ].
    eexists. exists issueData, channelData, channel, msg, VUndef, VUndef.
    split; [reflexivity | ]. cbn. rewrite E3. reflexivity.
Qed.

(** X21: the record of an incident (lines 477-506): one document of type
    "Incident Report" in the database of [NOTION_INCIDENTS_DB_ID], titled
    "Incident: " and the title, holding the description and owned by the
    responders; and one issue in the repository of the request, titled
    "[INCIDENT] " and the title, labelled "incident" and "severity:"
    followed by the severity, and assigned to the parts of the
    responders' addresses before the ['@'].  The responders are all
    strings. *)
Theorem incident_report_and_issue :
  exists t issueData l,
    calls_to "createDocument" new =
      [(clock s,
        [NOTION_INCIDENTS_DB_ID h;
         VObj [("title", VStr ("Incident: " ++ to_string h (prop args "title")));
               ("type", VStr "Incident Report");
               ("content", prop args "description");
               ("owners", prop args "responders")];
         prop uc "notionToken"; rid])]
    /\ calls_to "createIssue" new =
         [(t, [prop args "repository"; issueData; prop uc "githubToken"; rid])]
    /\ prop args "responders" = VArr (map VStr l)
    /\ prop issueData "title" = VStr ("[INCIDENT] " ++ to_string h (prop args "title"))
    /\ prop issueData "labels"
       = VArr [VStr "incident"; VStr ("severity:" ++ to_string h (prop args "severity"))]
    /\ prop issueData "assignees" = VArr (local_parts l).
Proof.
  incident_run; exists t2, issueData, l; repeat split; assumption.
Qed.

(** X22: the channel of an incident (lines 509-521) is private, named
    "incident-" followed by the last six digits of what [Date.now()]
    reads when it is asked for, and its members are the
    responders followed by the stakeholders of the request, when it
    has any. *)
Theorem incident_channel_is_private :
  exists t channelData l extra,
    calls_to "createReviewChannel" new = [(t, [channelData; prop uc "slackToken"; rid])]
    /\ prop channelData "name"
       = VStr ("incident-" ++ String_last 6 (number_to_string (wallclock h t)))
    /\ prop channelData "private" = VBool true
    /\ prop args "responders" = VArr (map VStr l)
    /\ prop channelData "members" = VArr (map VStr l ++ extra)
    /\ ((truthy (prop args "stakeholders") = false /\ extra = [])
        \/ prop args "stakeholders" = VArr extra
        \/ exists a, prop args "stakeholders" = VStr a /\ extra = chars_of a).
Proof.
  incident_run; exists t3, channelData, l, extra; repeat split; assumption.
Qed.

(** X23: the calls of an incident response run one after the other: each is
    issued when the one before it has settled, and the workflow returns
    when the last has.  A successful run takes the sum of its four
    calls, and of its six calls when it escalates. *)
Theorem incident_takes_the_sum_of_latencies :
  exists l1 l2 l3 l4 l5 l6,
    latencies new = ([l1; l2; l3; l4] ++ (if severe args then [l5; l6] else []))%list
    /\ instants new =
         ([clock s;
           clock s + l1;
           clock s + l1 + l2;
           clock s + l1 + l2 + l3]
          ++ (if severe args
              then [clock s + l1 + l2 + l3 + l4; clock s + l1 + l2 + l3 + l4 + l5]
              else []))%list
    /\ clock (snd (handleIncidentResponse args uc rid h s))
       = clock s + l1 + l2 + l3 + l4 + (if severe args then l5 + l6 else 0).
Proof.
  incident_run.
  - do 6 eexists. split; [reflexivity | ].
    cbn [snd instants flat_map instant_of app]. subst t4 t3 t2.
    split; [reflexivity | ]. rewrite Hreturn. lia.
  - exists (Z.of_N (latency r1)), (Z.of_N (latency r2)), (Z.of_N (latency r3)),
      (Z.of_N (latency r4)), 0, 0.
    split; [reflexivity | ].
    cbn [snd instants flat_map instant_of app]. subst t4 t3 t2.
    split; [reflexivity | ]. rewrite Hreturn. lia.
Qed.

(** X24: what a successful incident response returns (lines 637-655): the
    message "Incident response initiated: " and the title, and in
    [details] the [id] and [url] of the document as notion answered
    them, the [number] and [html_url] of the issue as github answered
    them, and the [name] and [webUrl] of the channel as slack answered
    them. *)
Theorem incident_details_echo_answers :
  exists document iss channel d,
    outcomes "createDocument" new = [Fulfilled document]
    /\ outcomes "createIssue" new = [Fulfilled iss]
    /\ outcomes "createReviewChannel" new = [Fulfilled channel]
    /\ message env = "Incident response initiated: " ++ to_string h (prop args "title")
    /\ details env = Some d
    /\ prop (prop d "notion") "documentId" = prop document "id"
    /\ prop (prop d "notion") "url" = prop document "url"
    /\ prop (prop d "github") "issueNumber" = prop iss "number"
    /\ prop (prop d "github") "url" = prop iss "html_url"
    /\ prop (prop d "slack") "channel" = prop channel "name"
    /\ prop (prop d "slack") "url" = prop channel "webUrl".
Proof.
  incident_run; exists notionIncident, iss, channel, d;
    (split; [cbn; rewrite E1; reflexivity | ]);
    (split; [cbn; rewrite E2; reflexivity | ]);
    (split; [cbn; rewrite E3; reflexivity | ]);
    (split; [exact Hmessage | ]); (split; [exact Hdetails | ]); exact Hd.
Qed.

End IncidentResponse.


Lemma incident_calls_and_credentials_witness :
  let run := handleIncidentResponse (incidentRequest "high") userContext0 (VStr "req-1")
               (host_of obliging 100) state0 in
  let new := trace (snd run) in
  methods new = (["createDocument"; "createIssue"; "createReviewChannel"; "sendMessage"]
                 ++ (if severe (incidentRequest "high") then ["createMeeting"; "sendMessage"] else []))%list
  /\ targets new = ([notion (this state0); github (this state0); slack (this state0); slack (this state0)]
                    ++ (if severe (incidentRequest "high") then [calendar (this state0); slack (this state0)] else []))%list
  /\ exists document issueData channelData channel alert meeting notice,
       arguments new =
         ([[NOTION_INCIDENTS_DB_ID (host_of obliging 100); document; prop userContext0 "notionToken"; (VStr "req-1")];
           [prop (incidentRequest "high") "repository"; issueData; prop userContext0 "githubToken"; (VStr "req-1")];
           [channelData; prop userContext0 "slackToken"; (VStr "req-1")];
           [prop channel "id"; alert; prop userContext0 "slackToken"; (VStr "req-1")]]
          ++ (if severe (incidentRequest "high")
              then [[meeting; prop userContext0 "calendarToken"; (VStr "req-1")];
                    [prop channel "id"; notice; prop userContext0 "slackToken"; (VStr "req-1")]]
              else []))%list
       /\ outcomes "createReviewChannel" new = [Fulfilled channel].
Proof.
  cbv zeta.
  eapply (incident_calls_and_credentials (incidentRequest "high") userContext0 (VStr "req-1") (host_of obliging 100) state0).
  - vm_compute. reflexivity.
  - reflexivity.
  - vm_compute. reflexivity.
Defined.

Lemma incident_report_and_issue_witness :
  let run := handleIncidentResponse (incidentRequest "high") userContext0 (VStr "req-1")
               (host_of obliging 100) state0 in
  let new := trace (snd run) in
  exists t issueData l,
    calls_to "createDocument" new =
      [(clock state0,
        [NOTION_INCIDENTS_DB_ID (host_of obliging 100);
         VObj [("title", VStr ("Incident: " ++ to_string (host_of obliging 100) (prop (incidentRequest "high") "title")));
               ("type", VStr "Incident Report");
               ("content", prop (incidentRequest "high") "description");
               ("owners", prop (incidentRequest "high") "responders")];
         prop userContext0 "notionToken"; (VStr "req-1")])]
    /\ calls_to "createIssue" new =
         [(t, [prop (incidentRequest "high") "repository"; issueData; prop userContext0 "githubToken"; (VStr "req-1")])]
    /\ prop (incidentRequest "high") "responders" = VArr (map VStr l)
    /\ prop issueData "title" = VStr ("[INCIDENT] " ++ to_string (host_of obliging 100) (prop (incidentRequest "high") "title"))
    /\ prop issueData "labels"
       = VArr [VStr "incident"; VStr ("severity:" ++ to_string (host_of obliging 100) (prop (incidentRequest "high") "severity"))]
    /\ prop issueData "assignees" = VArr (local_parts l).
Proof.
  cbv zeta.
  eapply (incident_report_and_issue (incidentRequest "high") userContext0 (VStr "req-1") (host_of obliging 100) state0).
  - vm_compute. reflexivity.
  - reflexivity.
  - vm_compute. reflexivity.
Defined.

Lemma incident_channel_is_private_witness :
  let run := handleIncidentResponse (incidentRequest "high") userContext0 (VStr "req-1")
               (host_of obliging 100) state0 in
  let new := trace (snd run) in
  exists t channelData l extra,
    calls_to "createReviewChannel" new = [(t, [channelData; prop userContext0 "slackToken"; (VStr "req-1")])]
    /\ prop channelData "name"
       = VStr ("incident-" ++ String_last 6 (number_to_string (wallclock (host_of obliging 100) t)))
    /\ prop channelData "private" = VBool true
    /\ prop (incidentRequest "high") "responders" = VArr (map VStr l)
    /\ prop channelData "members" = VArr (map VStr l ++ extra)
    /\ ((truthy (prop (incidentRequest "high") "stakeholders") = false /\ extra = [])
        \/ prop (incidentRequest "high") "stakeholders" = VArr extra
        \/ exists a, prop (incidentRequest "high") "stakeholders" = VStr a /\ extra = chars_of a).
Proof.
  cbv zeta.
  eapply (incident_channel_is_private (incidentRequest "high") userContext0 (VStr "req-1") (host_of obliging 100) state0).
  - vm_compute. reflexivity.
  - reflexivity.
  - vm_compute. reflexivity.
Defined.

Lemma incident_takes_the_sum_of_latencies_witness :
  let run := handleIncidentResponse (incidentRequest "high") userContext0 (VStr "req-1")
               (host_of obliging 100) state0 in
  let new := trace (snd run) in
  exists l1 l2 l3 l4 l5 l6,
    latencies new = ([l1; l2; l3; l4] ++ (if severe (incidentRequest "high") then [l5; l6] else []))%list
    /\ instants new =
         ([clock state0;
           clock state0 + l1;
           clock state0 + l1 + l2;
           clock state0 + l1 + l2 + l3]
          ++ (if severe (incidentRequest "high")
              then [clock state0 + l1 + l2 + l3 + l4; clock state0 + l1 + l2 + l3 + l4 + l5]
              else []))%list
    /\ clock (snd (handleIncidentResponse (incidentRequest "high") userContext0 (VStr "req-1") (host_of obliging 100) state0))
       = clock state0 + l1 + l2 + l3 + l4 + (if severe (incidentRequest "high") then l5 + l6 else 0).
Proof.
  cbv zeta.
  eapply (incident_takes_the_sum_of_latencies (incidentRequest "high") userContext0 (VStr "req-1") (host_of obliging 100) state0).
  - vm_compute. reflexivity.
  - reflexivity.
  - vm_compute. reflexivity.
Defined.

Lemma incident_details_echo_answers_witness :
  let run := handleIncidentResponse (incidentRequest "high") userContext0 (VStr "req-1")
               (host_of obliging 100) state0 in
  let new := trace (snd run) in
  let env := returned (fst run) in
  exists document iss channel d,
    outcomes "createDocument" new = [Fulfilled document]
    /\ outcomes "createIssue" new = [Fulfilled iss]
    /\ outcomes "createReviewChannel" new = [Fulfilled channel]
    /\ message env = "Incident response initiated: " ++ to_string (host_of obliging 100) (prop (incidentRequest "high") "title")
    /\ details env = Some d
    /\ prop (prop d "notion") "documentId" = prop document "id"
    /\ prop (prop d "notion") "url" = prop document "url"
    /\ prop (prop d "github") "issueNumber" = prop iss "number"
    /\ prop (prop d "github") "url" = prop iss "html_url"
    /\ prop (prop d "slack") "channel" = prop channel "name"
    /\ prop (prop d "slack") "url" = prop channel "webUrl".
Proof.
  cbv zeta.
  eapply (incident_details_echo_answers (incidentRequest "high") userContext0 (VStr "req-1") (host_of obliging 100) state0).
  - vm_compute. reflexivity.
  - reflexivity.
  - vm_compute. reflexivity.
Defined.


(* ================================================================= *)
(** ** Nothing is called after a rejection *)

Lemma rejected_rejection ev : rejected ev = false <-> rejection ev = [].
Proof.
  destruct ev as [t c n a r | ]; cbn; [ | split; reflexivity].
  destruct (outcome r); split; try reflexivity; discriminate.
Qed.

Lemma ends_at_rejection_app a b :
  rejections a = [] -> ends_at_rejection (a ++ b) = ends_at_rejection b.
Proof.
  induction a as [ | ev a IH]; [reflexivity | ].
  change (rejections (ev :: a)) with (rejection ev ++ rejections a)%list.
  intro H. apply app_eq_nil in H as [Hev Ha].
  cbn [app ends_at_rejection]. apply rejected_rejection in Hev. rewrite Hev.
  apply IH, Ha.
Qed.

Lemma ends_at_rejection_logs a logs :
  ends_at_rejection a = true -> methods logs = [] ->
  ends_at_rejection (a ++ logs) = true.
Proof.
  intros Ha Hl. induction a as [ | ev a IH]; cbn [app ends_at_rejection] in *.
  - induction logs as [ | l logs IHl]; [reflexivity | ].
    change (methods (l :: logs)) with (method_of l ++ methods logs)%list in Hl.
    apply app_eq_nil in Hl as [Hl1 Hl2]. cbn [ends_at_rejection].
    destruct l as [t c n x r | ]; [discriminate Hl1 | ]. cbn [rejected].
    apply IHl, Hl2.
  - destruct (rejected ev).
    + rewrite methods_app, Hl, app_nil_r. exact Ha.
    + apply IH, Ha.
Qed.

Lemma fail_fast_pure {A} (m : M A) : pure m -> fail_fast m.
Proof.
  intros Hp h s. destruct (Hp h s) as [-> _]. exists [].
  split; [symmetry; apply app_nil_r | ]. split; [reflexivity | ].
  destruct (fst (m h s)); [reflexivity | exact I].
Qed.

Lemma fail_fast_bind {A B} (m : M A) (f : A -> M B) :
  fail_fast m -> (forall a, fail_fast (f a)) -> fail_fast (bind m f).
Proof.
  intros Hm Hf h s. rewrite bind_run.
  destruct (Hm h s) as (n1 & Htr1 & He1 & Hr1).
  destruct (m h s) as [[a | e] s1]; cbn [fst snd] in *.
  - destruct (Hf a h s1) as (n2 & Htr2 & He2 & Hr2).
    exists (n1 ++ n2)%list. split; [rewrite Htr2, Htr1; symmetry; apply app_assoc | ].
    split; [rewrite (ends_at_rejection_app _ _ Hr1); exact He2 | ].
    destruct (fst (f a h s1)); [ | exact I]. rewrite rejections_app, Hr1. exact Hr2.
  - exists n1. repeat split; assumption.
Qed.

Lemma fail_fast_logger level text meta : pure meta -> fail_fast (logger level text meta).
Proof.
  intros Hp h s. unfold logger. rewrite bind_run.
  destruct (Hp h s) as [Hs _].
  destruct (meta h s) as [[m | e] s1]; cbn [fst snd] in *; subst s1.
  - exists [Log level text m]. repeat split.
  - exists []. repeat split. symmetry; apply app_nil_r.
Qed.

Lemma fail_fast_call target name args :
  Forall pure args -> fail_fast (call target name args).
Proof.
  intros Hp h s.
  destruct (sequence_pure_run args h s Hp) as [[a Ha] | (e & He & Ht)].
  - rewrite (call_Ok _ _ _ _ _ _ Ha). cbv zeta. unfold settle, issue.
    exists [Call (clock s) (target (this s)) name a
              (respond h (trace s) (target (this s)) name a)].
    destruct (outcome (respond h (trace s) (target (this s)) name a)) eqn:Ho;
      cbn [fst snd trace ends_at_rejection rejected methods flat_map];
      rewrite Ho; repeat split.
    cbn [rejections flat_map]. rewrite rejection_Call, Ho. reflexivity.
  - rewrite (call_Throw _ _ _ _ _ _ _ He). exists []. repeat split.
    symmetry; apply app_nil_r.
Qed.

Lemma fail_fast_if {A} (c : bool) (a b : M A) :
  fail_fast a -> fail_fast b -> fail_fast (if c then a else b).
Proof. destruct c; auto. Qed.

Ltac failing_fast :=
  cbv zeta;
  lazymatch goal with
  | |- fail_fast (bind _ _) => apply fail_fast_bind; [ failing_fast | intro; failing_fast ]
  | |- fail_fast (logger _ _ _) => apply fail_fast_logger; purity
  | |- fail_fast (call _ _ _) => apply fail_fast_call; purity
  | |- fail_fast (if _ then _ else _) => apply fail_fast_if; failing_fast
  | |- fail_fast (escalate _ _ _ _ _ _) => unfold escalate; failing_fast
  | |- fail_fast _ => first [ assumption | apply fail_fast_pure; purity ]
  end.

(** A [try] whose steps stop at the first rejection, with a [catch] that
    calls nothing. *)
Lemma try_catch_ends_at_rejection {A} (body : M A) handler h s :
  fail_fast body -> (forall e, quiet (handler e)) ->
  exists new,
    trace (snd (try_catch body handler h s)) = (trace s ++ new)%list
    /\ ends_at_rejection new = true.
Proof.
  intros Hb Hh. unfold try_catch.
  destruct (Hb h s) as (n1 & Htr1 & He1 & _).
  destruct (body h s) as [[a | e] s1]; cbn [fst snd] in *.
  - exists n1. split; assumption.
  - destruct (Hh e h s1) as (logs & Htr2 & Hm & _).
    exists (n1 ++ logs)%list. split; [rewrite Htr2, Htr1; symmetry; apply app_assoc | ].
    apply ends_at_rejection_logs; assumption.
Qed.

(** X25: [createProjectKickoff] and [handleIncidentResponse] call their
    connectors one after the other, and stop calling at the first
    rejection: a rejected call is the last call of the run.  Nothing is
    retried, and nothing that was created before is undone. *)
Theorem sequential_workflow_stops_at_rejection w args uc rid h s new :
  w <> CodeReview ->
  trace (snd (procedure w args uc rid h s)) = (trace s ++ new)%list ->
  ends_at_rejection new = true.
Proof.
  intros Hw Htr.
  assert (H : exists new', trace (snd (procedure w args uc rid h s)) = (trace s ++ new')%list
                           /\ ends_at_rejection new' = true).
  { destruct w; [contradiction Hw; reflexivity | | ]; cbn [procedure].
    - unfold createProjectKickoff. rewrite bind_run.
      change (Date_now h s) with (Ok (VNum (wallclock h (clock s))), s). cbv beta iota.
      apply try_catch_ends_at_rejection; [failing_fast | intro e; quietness].
    - unfold handleIncidentResponse. rewrite bind_run.
      change (Date_now h s) with (Ok (VNum (wallclock h (clock s))), s). cbv beta iota.
      apply try_catch_ends_at_rejection; [failing_fast | intro e; quietness]. }
  destruct H as (new' & Htr' & He). rewrite Htr in Htr'. apply app_inv_head in Htr'.
  subst new'. exact He.
Qed.

Lemma sequential_workflow_stops_at_rejection_witness :
  let run := procedure ProjectKickoff (kickoffRequest "Apollo") userContext0 (VStr "req-1")
               (host_without CalendarConnector (Error "calendar is down") 100) state0 in
  ends_at_rejection (trace (snd run)) = true.
Proof.
  cbv zeta.
  apply (sequential_workflow_stops_at_rejection ProjectKickoff (kickoffRequest "Apollo")
           userContext0 (VStr "req-1")
           (host_without CalendarConnector (Error "calendar is down") 100) state0).
  - discriminate.
  - vm_compute. reflexivity.
Defined.

(** In that run the page, the repository and the channel are created
    before the scheduler fails; the workflow reports the failure and
    leaves them in place. *)
Example kickoff_without_calendar :
  let run := createProjectKickoff (kickoffRequest "Apollo") userContext0 (VStr "req-1")
               (host_without CalendarConnector (Error "calendar is down") 100) state0 in
  methods (trace (snd run))
    = ["createProjectPage"; "createRepository"; "createReviewChannel"; "findOptimalTime"]
  /\ option_map success (match fst run with Ok env => Some env | Throw _ => None end)
     = Some false.
Proof. cbv zeta. split; vm_compute; reflexivity. Qed.

Lemma methods_nil_rejections logs : methods logs = [] -> rejections logs = [].
Proof.
  induction logs as [ | l logs IH]; [reflexivity | ].
  change (methods (l :: logs)) with (method_of l ++ methods logs)%list.
  intro H. apply app_eq_nil in H as [Hl Hlogs].
  destruct l; [discriminate Hl | ]. apply IH, Hlogs.
Qed.

(** The join of two calls: either it stops at a rejection like a row of
    calls, or its first call was rejected and the second had been issued
    with it. *)
Lemma join_trace t1 n1 args1 t2 n2 args2 h s :
  Forall pure args1 -> Forall pure args2 ->
  exists new,
    trace (snd (await_all [invoke t1 n1 args1; invoke t2 n2 args2] h s))
      = (trace s ++ new)%list
    /\ match fst (await_all [invoke t1 n1 args1; invoke t2 n2 args2] h s) with
       | Ok _ => rejections new = []
       | Throw _ =>
           ends_at_rejection new = true
           \/ exists ev1 ev2, new = [ev1; ev2] /\ method_of ev1 = [n1]
                              /\ rejected ev1 = true /\ method_of ev2 = [n2]
       end.
Proof.
  intros Hp1 Hp2. unfold await_all. cbn [sequence].
  destruct (sequence_pure_run args1 h s Hp1) as [[a1 Ha1] | (e & He & _)].
  2:{ unfold bind. rewrite (invoke_Throw _ _ _ _ _ _ _ He). exists [].
      split; [symmetry; apply app_nil_r | left; reflexivity]. }
  rewrite bind_run, bind_run, (invoke_Ok _ _ _ _ _ _ Ha1).
  rewrite bind_run, bind_run.
  match goal with |- context [invoke t2 n2 args2 h ?s1] =>
    destruct (sequence_pure_run args2 h s1 Hp2) as [[a2 Ha2] | (e & He & _)];
    [rewrite (invoke_Ok _ _ _ _ _ _ Ha2) | rewrite (invoke_Throw _ _ _ _ _ _ _ He)]
  end.
  2:{ cbn [fst snd trace with_trace]. eexists [_]. split; [reflexivity | ].
      left. unfold issue. cbn [ends_at_rejection methods flat_map].
      destruct (rejected _); reflexivity. }
  unfold ret, Promise_all, await, promise_of, issue, bind.
  cbn [first_rejection settlement settles map fold_right fulfilment
       with_trace with_clock this clock trace].
  set (r1 := respond h (trace s) (t1 (this s)) n1 a1).
  set (r2 := respond h (trace s ++ [Call (clock s) (t1 (this s)) n1 a1 r1])
               (t2 (this s)) n2 a2).
  exists [Call (clock s) (t1 (this s)) n1 a1 r1; Call (clock s) (t2 (this s)) n2 a2 r2].
  assert (Htr : forall t, trace (with_clock
            (with_trace
               (with_trace s (trace s ++ [Call (clock s) (t1 (this s)) n1 a1 r1]))
               ((trace s ++ [Call (clock s) (t1 (this s)) n1 a1 r1])
                ++ [Call (clock s) (t2 (this s)) n2 a2 r2])) t)
          = (trace s ++ [Call (clock s) (t1 (this s)) n1 a1 r1;
                         Call (clock s) (t2 (this s)) n2 a2 r2])%list).
  { intro t. cbn [trace with_clock with_trace]. rewrite <- app_assoc. reflexivity. }
  destruct (outcome r1) as [v1 | e1] eqn:E1; destruct (outcome r2) as [v2 | e2] eqn:E2;
    cbn [settlement]; rewrite ?E1, ?E2;
    try (destruct (_ <=? _); cbn [settlement]; rewrite ?E1, ?E2);
    cbn [fst snd]; (split; [apply Htr | ]).
  - cbn [rejections flat_map]. rewrite !rejection_Call, E1, E2. reflexivity.
  - left. cbn [ends_at_rejection rejected methods flat_map]. rewrite E1, E2. reflexivity.
  - right. do 2 eexists. split; [reflexivity | ]. cbn [rejected method_of]. rewrite E1.
    repeat split.
  - right. do 2 eexists. split; [reflexivity | ]. cbn [rejected method_of]. rewrite E1.
    repeat split.
  - right. do 2 eexists. split; [reflexivity | ]. cbn [rejected method_of]. rewrite E1.
    repeat split.
Qed.

(** X26: [scheduleCodeReview] stops calling at the first rejection too: a
    rejected call is the last call of the run, but for the fetch of the
    pull request, which is followed by the fetch of the issue that was
    issued with it (lines 47-60) and by nothing else. *)
Theorem code_review_stops_at_rejection args uc rid h s new :
  trace (snd (scheduleCodeReview args uc rid h s)) = (trace s ++ new)%list ->
  ends_at_rejection new = true
  \/ exists logs ev1 ev2 logs',
       new = (logs ++ ev1 :: ev2 :: logs')%list
       /\ methods logs = [] /\ method_of ev1 = ["getPullRequest"]
       /\ rejected ev1 = true /\ method_of ev2 = ["getIssue"] /\ methods logs' = [].
Proof.
  intro Htr.
  assert (H : exists new',
             trace (snd (scheduleCodeReview args uc rid h s)) = (trace s ++ new')%list
             /\ (ends_at_rejection new' = true
                 \/ exists logs ev1 ev2 logs',
                      new' = (logs ++ ev1 :: ev2 :: logs')%list
                      /\ methods logs = [] /\ method_of ev1 = ["getPullRequest"]
                      /\ rejected ev1 = true /\ method_of ev2 = ["getIssue"]
                      /\ methods logs' = [])).
  2:{ destruct H as (new' & Htr' & H). rewrite Htr in Htr'. apply app_inv_head in Htr'.
      subst new'. exact H. }
  clear Htr. unfold scheduleCodeReview. rewrite bind_run.
  change (Date_now h s) with (Ok (VNum (wallclock h (clock s))), s). cbv beta iota.
  match goal with
  | |- context [try_catch (bind ?lg (fun _ => bind ?join ?k)) ?hd] =>
      assert (Hlog : quiet lg) by (apply quiet_logger; purity);
      assert (Hk : forall both, fail_fast (k both)) by (intro; failing_fast);
      assert (Hh : forall e, quiet (hd e)) by (intro e; quietness);
      set (K := k) in *; set (handler := hd) in *; set (start := lg) in *
  end.
  unfold try_catch. rewrite bind_run.
  destruct (Hlog h s) as (n0 & Htr0 & Hm0 & _).
  destruct (start h s) as [[u | e] s0]; cbn [fst snd] in *.
  2:{ destruct (Hh e h s0) as (logs & Htr1 & Hm1 & _).
      exists (n0 ++ logs)%list. split; [rewrite Htr1, Htr0; symmetry; apply app_assoc | ].
      left. rewrite ends_at_rejection_app by (apply methods_nil_rejections, Hm0).
      apply (ends_at_rejection_logs []); [reflexivity | exact Hm1]. }
  rewrite bind_run.
  match goal with
  | |- context [await_all [invoke ?t1 ?n1 ?a1; invoke ?t2 ?n2 ?a2] h s0] =>
      destruct (join_trace t1 n1 a1 t2 n2 a2 h s0) as (nj & Htrj & Hj); [purity | purity | ];
      destruct (await_all [invoke t1 n1 a1; invoke t2 n2 a2] h s0) as [[both | e] s1]
  end; cbn [fst snd] in *.
  - destruct (Hk both h s1) as (nk & Htrk & Hek & Hrk).
    destruct (K both h s1) as [[env | e] s2]; cbn [fst snd] in *.
    + exists (n0 ++ nj ++ nk)%list.
      split; [rewrite Htrk, Htrj, Htr0, <- !app_assoc; reflexivity | ].
      left. rewrite ends_at_rejection_app by (apply methods_nil_rejections, Hm0).
      rewrite ends_at_rejection_app by exact Hj. exact Hek.
    + destruct (Hh e h s2) as (logs & Htr1 & Hm1 & _).
      exists (n0 ++ nj ++ nk ++ logs)%list.
      split; [rewrite Htr1, Htrk, Htrj, Htr0, <- !app_assoc; reflexivity | ].
      left. rewrite ends_at_rejection_app by (apply methods_nil_rejections, Hm0).
      rewrite ends_at_rejection_app by exact Hj.
      apply ends_at_rejection_logs; assumption.
  - destruct (Hh e h s1) as (logs & Htr1 & Hm1 & _).
    exists (n0 ++ nj ++ logs)%list.
    split; [rewrite Htr1, Htrj, Htr0, <- !app_assoc; reflexivity | ].
    destruct Hj as [Hj | (ev1 & ev2 & -> & Hn1 & Hr1 & Hn2)].
    + left. rewrite ends_at_rejection_app by (apply methods_nil_rejections, Hm0).
      apply ends_at_rejection_logs; assumption.
    + right. exists n0, ev1, ev2, logs. repeat split; assumption.
Qed.

Lemma code_review_stops_at_rejection_witness :
  let run := scheduleCodeReview reviewRequest userContext0 (VStr "req-1")
               (host_without GitHubConnector (Error "github is down") 100) state0 in
  let new := trace (snd run) in
  ends_at_rejection new = true
  \/ exists logs ev1 ev2 logs',
       new = (logs ++ ev1 :: ev2 :: logs')%list
       /\ methods logs = [] /\ method_of ev1 = ["getPullRequest"]
       /\ rejected ev1 = true /\ method_of ev2 = ["getIssue"] /\ methods logs' = [].
Proof.
  cbv zeta.
  apply (code_review_stops_at_rejection reviewRequest userContext0 (VStr "req-1")
           (host_without GitHubConnector (Error "github is down") 100) state0).
  vm_compute. reflexivity.
Defined.


(* ================================================================= *)
(** ** The workflows read nothing of the orchestrator but its connectors *)

Lemma expression_ret {A} (a : A) : expression (ret a).
Proof. intros h s; split; [reflexivity | intro; reflexivity]. Qed.

Lemma expression_throw {A} e : expression (@throw A e).
Proof. intros h s; split; [reflexivity | intro; reflexivity]. Qed.

Lemma expression_run {A} (m : M A) h s o :
  expression m -> m h (with_this s o) = (fst (m h s), with_this s o).
Proof.
  intro Hm. destruct (Hm h s) as [_ Hf]. destruct (Hm h (with_this s o)) as [Hs _].
  rewrite <- (Hf o). destruct (m h (with_this s o)) as [r s1]. cbn [fst snd] in *.
  subst s1. reflexivity.
Qed.

Lemma expression_bind {A B} (m : M A) (f : A -> M B) :
  expression m -> (forall a, expression (f a)) -> expression (bind m f).
Proof.
  intros Hm Hf h s. split.
  - rewrite bind_run. destruct (Hm h s) as [Hs _].
    destruct (m h s) as [[a | e] s1]; cbn [snd] in *; subst s1; [ | reflexivity].
    apply Hf.
  - intro o. rewrite !bind_run, (expression_run m h s o Hm).
    destruct (Hm h s) as [Hs _].
    destruct (m h s) as [[a | e] s1]; cbn [fst snd] in *; subst s1; [ | reflexivity].
    apply Hf.
Qed.

Lemma expression_get v k : expression (get v k).
Proof. unfold get; destruct (nullish v); [apply expression_throw | apply expression_ret]. Qed.

Lemma expression_member e k : expression e -> expression (e .> k).
Proof. intro He; apply expression_bind; [exact He | intro; apply expression_get]. Qed.

Lemma expression_method v name impl :
  (forall m, impl v = Some m -> expression m) -> expression (method v name impl).
Proof.
  intro H; unfold method. destruct (nullish v); [apply expression_throw | ].
  destruct (impl v) as [m | ]; [apply H; reflexivity | apply expression_throw].
Qed.

Lemma expression_sequence {A} (ms : list (M A)) :
  Forall expression ms -> expression (sequence ms).
Proof.
  induction 1 as [ | m ms Hm _ IH]; cbn [sequence]; [apply expression_ret | ].
  apply expression_bind; [exact Hm | intro a].
  apply expression_bind; [exact IH | intro r; apply expression_ret].
Qed.

Lemma expression_lit s : expression (lit s).
Proof. apply expression_ret. Qed.

Lemma expression_ToString v : expression (ToString v).
Proof.
  intros h s. unfold ToString. destruct (stringable v); split; try reflexivity;
    intro; reflexivity.
Qed.

Lemma expression_sub e : expression e -> expression (sub e).
Proof. intro He; apply expression_bind; [exact He | intro; apply expression_ToString]. Qed.

Lemma expression_tpl parts : Forall expression parts -> expression (tpl parts).
Proof.
  intro H; apply expression_bind; [apply expression_sequence, H | intro; apply expression_ret].
Qed.

Lemma expression_tpl_s parts : Forall expression parts -> expression (tpl_s parts).
Proof.
  intro H; apply expression_bind; [apply expression_tpl, H | intro; apply expression_ret].
Qed.

Lemma expression_obj fields :
  Forall (fun kv => expression (snd kv)) fields -> expression (obj fields).
Proof.
  intro H; apply expression_bind; [ | intro; apply expression_ret].
  apply expression_sequence. induction H as [ | kv l Hkv _ IH]; cbn [map]; constructor.
  - apply expression_bind; [exact Hkv | intro; apply expression_ret].
  - exact IH.
Qed.

Lemma expression_item e : expression e -> expression (item e).
Proof. intro H; apply expression_bind; [exact H | intro; apply expression_ret]. Qed.

Lemma expression_spread e : expression e -> expression (spread e).
Proof.
  intro H; apply expression_bind; [exact H | intro v].
  destruct v; first [apply expression_ret | apply expression_throw].
Qed.

Lemma expression_arr parts : Forall expression parts -> expression (arr parts).
Proof.
  intro H; apply expression_bind; [apply expression_sequence, H | intro; apply expression_ret].
Qed.

Lemma expression_Array_map v f :
  (forall x, expression (f x)) -> expression (Array_map v f).
Proof.
  intro H; apply expression_method. intros m Hm.
  destruct v; try discriminate. injection Hm as <-.
  apply expression_bind; [ | intro; apply expression_ret].
  apply expression_sequence, Forall_forall. intros x Hx.
  apply in_map_iff in Hx as (y & <- & _). apply H.
Qed.

(** What reads the host or the clock, and nothing else. *)
Ltac expression_read := intros h s; split; [reflexivity | intro; reflexivity].

Ltac expression_builtin :=
  apply expression_method;
  let m := fresh "m" in let Hm := fresh "Hm" in
  intros m Hm;
  match goal with
  | v : value |- _ =>
      destruct v; try discriminate; injection Hm as <-;
      first [apply expression_ret | expression_read]
  end.

Lemma expression_Array_filter_Boolean v : expression (Array_filter_Boolean v).
Proof. expression_builtin. Qed.

Lemma expression_join v sep : expression (join v sep).
Proof.
  apply expression_method. intros m Hm. destruct v; try discriminate. injection Hm as <-.
  intros h s. cbv beta.
  match goal with |- context [if ?c then _ else _] => destruct c end;
    split; try reflexivity; intro; reflexivity.
Qed.

Lemma expression_toLowerCase v : expression (toLowerCase v).
Proof. expression_builtin. Qed.

Lemma expression_replace v : expression (replace v).
Proof. expression_builtin. Qed.

Lemma expression_substring0 v n : expression (substring0 v n).
Proof. expression_builtin. Qed.

Lemma expression_slice0 v n : expression (slice0 v n).
Proof. expression_builtin. Qed.

Lemma expression_slice_last v n : expression (slice_last v n).
Proof. expression_builtin. Qed.

Lemma expression_split_at_0 v : expression (split_at_0 v).
Proof. expression_builtin. Qed.

Lemma expression_Number_toString v : expression (Number_toString v).
Proof.
  apply expression_method. intros m [= <-].
  apply expression_bind; [apply expression_ToString | intro; apply expression_ret].
Qed.

Lemma expression_Date_now : expression Date_now.
Proof. expression_read. Qed.

Lemma expression_new_Date : expression new_Date.
Proof. expression_read. Qed.

Lemma expression_Date_toISOString v : expression (Date_toISOString v).
Proof. expression_read. Qed.

Lemma expression_env name : expression (env name).
Proof. expression_read. Qed.

Lemma expression_orE a b : expression a -> expression b -> expression (orE a b).
Proof.
  intros Ha Hb; apply expression_bind; [exact Ha | intro x].
  destruct (truthy x); [apply expression_ret | exact Hb].
Qed.

Lemma expression_orB a b : expression a -> expression b -> expression (orB a b).
Proof.
  intros Ha Hb; apply expression_bind; [exact Ha | intro x].
  destruct x; [apply expression_ret | exact Hb].
Qed.

(** Decides [expression e] for an expression built from the combinators
    above. *)
Ltac expressions :=
  repeat first
    [ assumption
    | apply expression_ret | apply expression_throw
    | apply expression_get | apply expression_lit | apply expression_ToString
    | apply expression_Date_now
    | apply expression_new_Date | apply expression_env
    | apply expression_Number_toString | apply expression_Date_toISOString
    | apply expression_Array_filter_Boolean | apply expression_join
    | apply expression_toLowerCase | apply expression_replace
    | apply expression_substring0 | apply expression_slice0
    | apply expression_slice_last | apply expression_split_at_0
    | apply expression_member | apply expression_sub | apply expression_item
    | apply expression_spread | apply expression_tpl | apply expression_tpl_s
    | apply expression_obj | apply expression_arr
    | apply expression_Array_map; intro
    | apply expression_orE | apply expression_orB
    | apply expression_bind; [ | intro ]
    | apply Forall_cons | apply Forall_nil
    | progress cbn [snd fst]
    | progress unfold str, num, boolean, attendeeSet, reviewChannelName,
        joinLink, reviewerNames, repoName ].

Lemma oblivious_expression {A} (m : M A) : expression m -> oblivious m.
Proof.
  intros Hm h s. destruct (Hm h s) as [Hs _]. split; [rewrite Hs; reflexivity | ].
  intros o _. rewrite (expression_run m h s o Hm), Hs. reflexivity.
Qed.

Lemma oblivious_bind {A B} (m : M A) (f : A -> M B) :
  oblivious m -> (forall a, oblivious (f a)) -> oblivious (bind m f).
Proof.
  intros Hm Hf h s. destruct (Hm h s) as [Ht1 He1]. split.
  - rewrite bind_run. destruct (m h s) as [[a | e] s1]; cbn [snd] in *; [ | exact Ht1].
    destruct (Hf a h s1) as [Ht2 _]. congruence.
  - intros o Ho. rewrite !bind_run, (He1 o Ho).
    destruct (m h s) as [[a | e] s1]; cbn [fst snd] in *; [ | reflexivity].
    destruct (Hf a h s1) as [_ He2]. apply He2. congruence.
Qed.

Lemma oblivious_logger level text meta :
  expression meta -> oblivious (logger level text meta).
Proof.
  intros Hm h s. unfold logger. destruct (Hm h s) as [Hs _]. split.
  - rewrite bind_run. destruct (meta h s) as [[m | e] s1]; cbn [snd] in *; subst s1;
      reflexivity.
  - intros o _. rewrite !bind_run, (expression_run meta h s o Hm).
    destruct (meta h s) as [[m | e] s1]; cbn [fst snd] in *; subst s1; reflexivity.
Qed.

Lemma connector_field_github : connector_field github.
Proof. intros o o' [= H _ _ _]. exact H. Qed.

Lemma connector_field_slack : connector_field slack.
Proof. intros o o' [= _ H _ _]. exact H. Qed.

Lemma connector_field_notion : connector_field notion.
Proof. intros o o' [= _ _ H _]. exact H. Qed.

Lemma connector_field_calendar : connector_field calendar.
Proof. intros o o' [= _ _ _ H]. exact H. Qed.

Lemma oblivious_invoke target name args :
  connector_field target -> Forall expression args -> oblivious (invoke target name args).
Proof.
  intros Ht Hargs h s. pose proof (expression_sequence args Hargs) as Hseq.
  destruct (Hseq h s) as [Hs _]. unfold invoke. split.
  - rewrite bind_run. destruct (sequence args h s) as [[a | e] s1]; cbn [snd] in *;
      subst s1; reflexivity.
  - intros o Ho. rewrite !bind_run, (expression_run _ h s o Hseq).
    destruct (sequence args h s) as [[a | e] s1]; cbn [fst snd] in *; subst s1;
      [ | reflexivity].
    cbn [this clock trace with_this]. rewrite (Ht o (this s) Ho). reflexivity.
Qed.

Lemma oblivious_await p : oblivious (await p).
Proof.
  intros h s. unfold await. split.
  - destruct (settlement p); reflexivity.
  - intros o _. destruct (settlement p); reflexivity.
Qed.

Lemma oblivious_call target name args :
  connector_field target -> Forall expression args -> oblivious (call target name args).
Proof.
  intros Ht Hargs. apply oblivious_bind; [apply oblivious_invoke; assumption | ].
  intro p. apply oblivious_await.
Qed.

Lemma oblivious_sequence {A} (ms : list (M A)) :
  Forall oblivious ms -> oblivious (sequence ms).
Proof.
  induction 1 as [ | m ms Hm _ IH]; cbn [sequence].
  - apply oblivious_expression, expression_ret.
  - apply oblivious_bind; [exact Hm | intro a].
    apply oblivious_bind; [exact IH | intro r].
    apply oblivious_expression, expression_ret.
Qed.

Lemma oblivious_await_all calls : Forall oblivious calls -> oblivious (await_all calls).
Proof.
  intro H. apply oblivious_bind; [apply oblivious_sequence, H | intro ps].
  apply oblivious_bind; [ | intro p; apply oblivious_await].
  apply oblivious_expression. intros h s. split; [reflexivity | intro; reflexivity].
Qed.

Lemma oblivious_if {A} (c : bool) (a b : M A) :
  oblivious a -> oblivious b -> oblivious (if c then a else b).
Proof. destruct c; auto. Qed.

Lemma oblivious_try_catch {A} (body : M A) handler :
  oblivious body -> (forall e, oblivious (handler e)) -> oblivious (try_catch body handler).
Proof.
  intros Hb Hh h s. destruct (Hb h s) as [Ht1 He1]. unfold try_catch. split.
  - destruct (body h s) as [[a | e] s1]; cbn [snd] in *; [exact Ht1 | ].
    destruct (Hh e h s1) as [Ht2 _]. congruence.
  - intros o Ho. rewrite (He1 o Ho).
    destruct (body h s) as [[a | e] s1]; cbn [fst snd] in *; [reflexivity | ].
    destruct (Hh e h s1) as [_ He2]. apply He2. congruence.
Qed.

Ltac obliviousness :=
  cbv zeta;
  lazymatch goal with
  | |- oblivious (bind _ _) => apply oblivious_bind; [ obliviousness | intro; obliviousness ]
  | |- oblivious (try_catch _ _) =>
      apply oblivious_try_catch; [ obliviousness | intro; obliviousness ]
  | |- oblivious (logger _ _ _) => apply oblivious_logger; expressions
  | |- oblivious (call github _ _) =>
      apply oblivious_call; [apply connector_field_github | expressions]
  | |- oblivious (call slack _ _) =>
      apply oblivious_call; [apply connector_field_slack | expressions]
  | |- oblivious (call notion _ _) =>
      apply oblivious_call; [apply connector_field_notion | expressions]
  | |- oblivious (call calendar _ _) =>
      apply oblivious_call; [apply connector_field_calendar | expressions]
  | |- oblivious (invoke github _ _) =>
      apply oblivious_invoke; [apply connector_field_github | expressions]
  | |- oblivious (await_all _) =>
      apply oblivious_await_all; repeat (apply Forall_cons; [obliviousness | ]);
      apply Forall_nil
  | |- oblivious (if _ then _ else _) => apply oblivious_if; obliviousness
  | |- oblivious (escalate _ _ _ _ _ _) => unfold escalate; obliviousness
  | |- oblivious _ => apply oblivious_expression; expressions
  end.

(** X27: no workflow reads [isInitialized], [config] or [automation]: run on an
    orchestrator [o] with the same four connectors, whatever its other
    fields are, a workflow makes the same calls at the same instants and
    returns the same envelope (or throws the same error), and it leaves
    [o] as it is.  In particular a workflow does not ask for
    [initialize] to have been called. *)
Theorem workflow_reads_only_connectors w args uc rid h s o :
  connectors o = connectors (this s) ->
  procedure w args uc rid h (with_this s o)
    = (fst (procedure w args uc rid h s), with_this (snd (procedure w args uc rid h s)) o).
Proof.
  assert (H : oblivious (procedure w args uc rid)).
  { destruct w; cbn [procedure].
    - unfold scheduleCodeReview. obliviousness.
    - unfold createProjectKickoff. obliviousness.
    - unfold handleIncidentResponse. obliviousness. }
  intro Ho. destruct (H h s) as [_ He]. apply He, Ho.
Qed.

Lemma workflow_reads_only_connectors_witness :
  let o := this (snd (initialize (host_of obliging 100) state0)) in
  procedure IncidentResponse (incidentRequest "low") userContext0 (VStr "req-1")
    (host_of obliging 100) (with_this state0 o)
  = (fst (procedure IncidentResponse (incidentRequest "low") userContext0 (VStr "req-1")
            (host_of obliging 100) state0),
     with_this (snd (procedure IncidentResponse (incidentRequest "low") userContext0
                       (VStr "req-1") (host_of obliging 100) state0)) o).
Proof.
  cbv zeta.
  apply (workflow_reads_only_connectors IncidentResponse (incidentRequest "low")
           userContext0 (VStr "req-1") (host_of obliging 100) state0).
  reflexivity.
Defined.


(* ================================================================= *)
(** ** Names and addresses *)

Lemma slug_char_not_upper c : slug_char c = true -> is_upper c = false.
Proof.
  unfold slug_char, is_upper. cbv zeta.
  generalize (nat_of_ascii c). intro n.
  rewrite !orb_true_iff, !andb_true_iff, !orb_false_iff, !andb_false_iff.
  rewrite !Nat.leb_le, !Nat.leb_gt, Nat.eqb_eq, negb_false_iff, Nat.eqb_eq.
  lia.
Qed.

Lemma slug_fixed s :
  String_forall slug_char s = true ->
  replace_non_slug (String_toLowerCase s) = s.
Proof.
  induction s as [ | c s IH]; [reflexivity | ].
  cbn [String_forall]. rewrite andb_true_iff. intros [Hc Hs].
  unfold replace_non_slug, String_toLowerCase in *. cbn [String_map].
  unfold lower_char. rewrite (slug_char_not_upper c Hc), Hc. f_equal. apply IH, Hs.
Qed.

(** X28: the repository name of line 310 is a fixed point of its own rule: a
    project name made of characters in [[a-z0-9-]] is taken as it is,
    and naming a project by the repository name of another gives the
    same repository name. *)
Theorem repoName_keeps_slugs args h s p :
  prop args "project_name" = VStr p ->
  (String_forall slug_char p = true -> repoName args h s = (Ok (VStr p), s))
  /\ forall args',
       prop args' "project_name" = VStr (replace_non_slug (String_toLowerCase p)) ->
       repoName args' h s = repoName args h s.
Proof.
  intro Hp.
  assert (Hrun : forall a q, prop a "project_name" = VStr q ->
            repoName a h s = (Ok (VStr (replace_non_slug (String_toLowerCase q))), s)).
  { intros a q Hq.
    assert (Ha : nullish a = false) by (destruct a; try reflexivity; discriminate Hq).
    unfold repoName, toLowerCase, replace. rewrite (get_run a) by exact Ha.
    rewrite Hq. reflexivity. }
  split.
  - intro Hslug. rewrite (Hrun args p Hp), (slug_fixed p Hslug). reflexivity.
  - intros args' Hp'. rewrite (Hrun args p Hp), (Hrun args' _ Hp').
    rewrite slug_fixed; [reflexivity | apply replace_non_slug_pattern].
Qed.

Lemma repoName_keeps_slugs_witness :
  (String_forall slug_char "apollo-11" = true ->
   repoName (kickoffRequest "apollo-11") (host_of obliging 100) state0
     = (Ok (VStr "apollo-11"), state0))
  /\ forall args',
       prop args' "project_name" = VStr (replace_non_slug (String_toLowerCase "apollo-11")) ->
       repoName args' (host_of obliging 100) state0
         = repoName (kickoffRequest "apollo-11") (host_of obliging 100) state0.
Proof.
  apply (repoName_keeps_slugs (kickoffRequest "apollo-11") (host_of obliging 100) state0
           "apollo-11").
  reflexivity.
Defined.

Lemma chars_of_truthy a : filter truthy (chars_of a) = chars_of a.
Proof. induction a as [ | c a IH]; [reflexivity | ]. cbn. rewrite IH. reflexivity. Qed.

(** X29: [...(args.additional_attendees || [])] on a string (line 66): one
    address given as a string, not as an array of strings, is taken
    apart, and every character of it becomes an attendee of its own. *)
Theorem attendees_from_a_string_are_its_characters args pr h s rs a :
  nullish args = false ->
  prop pr "requestedReviewers" = VArr rs ->
  Forall (fun r => nullish r = false) rs ->
  nullish (prop pr "author") = false ->
  prop args "additional_attendees" = VStr a ->
  attendeeSet args pr h s =
    (Ok (VArr (filter truthy (map (fun r => prop r "email") rs
                              ++ [prop (prop pr "author") "email"])
               ++ chars_of a)), s).
Proof.
  intros Hargs Hrs Hobj Hauthor Hextra.
  assert (Hpr : nullish pr = false).
  { destruct pr; try reflexivity; discriminate Hrs. }
  unfold attendeeSet, arr, spread, item, member, orE, Array_map.
  rewrite !(get_run pr) by exact Hpr. rewrite (get_run args) by exact Hargs.
  rewrite !bind_ret_l, Hrs. rewrite (get_run _ "email") by exact Hauthor.
  rewrite bind_ret_l. unfold method. cbn [nullish sequence].
  rewrite !bind_run, (emails_run rs h s Hobj). cbn [ret].
  rewrite Hextra.
  destruct a as [ | c a].
  - cbn [truthy String.eqb negb ret bind List.concat chars_of].
    unfold Array_filter_Boolean, method. cbn [nullish].
    rewrite !app_nil_r. rewrite filter_app. reflexivity.
  - cbn [truthy String.eqb negb ret bind List.concat].
    unfold Array_filter_Boolean, method. cbn [nullish].
    rewrite app_nil_r, app_assoc, filter_app, chars_of_truthy. reflexivity.
Qed.

Lemma attendees_from_a_string_are_its_characters_witness :
  attendeeSet (VObj [("additional_attendees", VStr "c@x")])
    (VObj [("requestedReviewers", VArr [VObj [("email", VStr "a@x.com")]]);
           ("author", VObj [("email", VStr "b@x.com")])])
    (host_of obliging 100) state0
  = (Ok (VArr (filter truthy
                 (map (fun r => prop r "email") [VObj [("email", VStr "a@x.com")]]
                  ++ [prop (prop (VObj [("requestedReviewers",
                                         VArr [VObj [("email", VStr "a@x.com")]]);
                                        ("author", VObj [("email", VStr "b@x.com")])])
                             "author") "email"])
               ++ chars_of "c@x")), state0).
Proof.
  apply (attendees_from_a_string_are_its_characters
           (VObj [("additional_attendees", VStr "c@x")])
           (VObj [("requestedReviewers", VArr [VObj [("email", VStr "a@x.com")]]);
                  ("author", VObj [("email", VStr "b@x.com")])])
           (host_of obliging 100) state0 [VObj [("email", VStr "a@x.com")]] "c@x").
  - reflexivity.
  - reflexivity.
  - repeat constructor.
  - reflexivity.
  - reflexivity.
Defined.

Example attendees_from_a_string :
  fst (attendeeSet (VObj [("additional_attendees", VStr "c@x")])
         (VObj [("requestedReviewers", VArr [VObj [("email", VStr "a@x.com")]]);
                ("author", VObj [("email", VStr "b@x.com")])])
         (host_of obliging 100) state0)
  = Ok (VArr [VStr "a@x.com"; VStr "b@x.com"; VStr "c"; VStr "@"; VStr "x"]).
Proof. reflexivity. Qed.

Lemma append_empty s : (s ++ EmptyString)%string = s.
Proof. induction s as [ | c s IH]; [reflexivity | ]. cbn [append]. rewrite IH. reflexivity. Qed.

Lemma before_at_app u rest : has_at u = false -> before_at (u ++ rest) = (u ++ before_at rest)%string.
Proof.
  induction u as [ | c u IH]; [reflexivity | ].
  cbn [has_at]. rewrite orb_false_iff. intros [Hc Hu].
  cbn [append before_at]. rewrite Hc, (IH Hu). reflexivity.
Qed.

(** X30: [email.split('@')[0]] (lines 89 and 498): of an address [u@d] the
    part [u] before the first ['@'], whatever follows it; a string
    without ['@'] is kept whole. *)
Theorem local_part_is_before_the_first_at u d h s :
  has_at u = false ->
  split_at_0 (VStr (u ++ "@" ++ d)) h s = (Ok (VStr u), s)
  /\ split_at_0 (VStr u) h s = (Ok (VStr u), s).
Proof.
  intro Hu. unfold split_at_0, method. cbn [nullish]. split.
  - rewrite (before_at_app u _ Hu). cbn [append before_at Ascii.eqb Bool.eqb].
    rewrite append_empty. reflexivity.
  - rewrite <- (append_empty u) at 1. rewrite (before_at_app u _ Hu).
    cbn [before_at]. rewrite append_empty. reflexivity.
Qed.

Lemma local_part_is_before_the_first_at_witness :
  split_at_0 (VStr ("ada.l" ++ "@" ++ "x.com")) (host_of obliging 100) state0
    = (Ok (VStr "ada.l"), state0)
  /\ split_at_0 (VStr "ada.l") (host_of obliging 100) state0 = (Ok (VStr "ada.l"), state0).
Proof.
  apply (local_part_is_before_the_first_at "ada.l" "x.com" (host_of obliging 100) state0).
  reflexivity.
Defined.
